(** * EasyTransfer: the TUS upload handler, its storage and the download route

    A shallow embedding of
      - etransfer/server/tus/models.py   (TusMetadata, TusUpload, TusErrors)
      - etransfer/server/tus/storage.py  (TusStorage)
      - etransfer/server/tus/handler.py  (create_tus_router)
      - easytransfer/server/routes/files.py (download_file)
    followed by the properties of the upload state machine.

    Python values are modelled as follows: [str] is [string] (one [ascii]
    per code point; header values reach the handlers decoded as latin-1),
    [bytes] is [list Byte.byte], [int] is [Z], [dict] is [gmap], [None] is
    [None], an exception is a constructor of [exn]. *)

From Stdlib Require Import ZArith String Ascii List Bool Lia.
From stdpp Require Import base option list gmap strings pretty.

Local Open Scope string_scope.
Local Open Scope Z_scope.

(** Python [bytes]. *)
Abbreviation bytes := (list Byte.byte).

(** ** Python string primitives used by the handlers *)
Module PyStr.

(** [str.isspace] on a latin-1 code point. *)
Definition is_space (c : ascii) : bool :=
  let n := nat_of_ascii c in
  ((9 <=? n) && (n <=? 13) || (28 <=? n) && (n <=? 32)
   || (n =? 133) || (n =? 160))%nat.

Fixpoint lstrip (s : string) : string :=
  match s with
  | EmptyString => EmptyString
  | String c t => if is_space c then lstrip t else s
  end.

Fixpoint rstrip (s : string) : string :=
  match s with
  | EmptyString => EmptyString
  | String c t =>
      match rstrip t with
      | EmptyString => if is_space c then EmptyString else String c EmptyString
      | t' => String c t'
      end
  end.

(** [s.strip()] *)
Definition strip (s : string) : string := rstrip (lstrip s).

(** [s.split(sep)] for a one-character separator. *)
Fixpoint split (sep : ascii) (s : string) : list string :=
  match s with
  | EmptyString => [EmptyString]
  | String c t =>
      if Ascii.eqb c sep then EmptyString :: split sep t
      else match split sep t with
           | h :: r => String c h :: r
           | [] => [String c EmptyString]
           end
  end.

(** [s.split(sep, 1)] for a one-character separator. *)
Fixpoint split1 (sep : ascii) (s : string) : list string :=
  match s with
  | EmptyString => [EmptyString]
  | String c t =>
      if Ascii.eqb c sep then [EmptyString; t]
      else match split1 sep t with
           | h :: r => String c h :: r
           | [] => [String c EmptyString]
           end
  end.

(** [sep in s] for a one-character [sep]. *)
Fixpoint contains (sep : ascii) (s : string) : bool :=
  match s with
  | EmptyString => false
  | String c t => Ascii.eqb c sep || contains sep t
  end.

(** [s.replace(old, new)]: leftmost non-overlapping occurrences. [skip]
    counts the characters of a matched occurrence still to be dropped. *)
Fixpoint replace_go (old new : string) (skip : nat) (s : string) : string :=
  match s with
  | EmptyString =>
      match old with EmptyString => new | _ => EmptyString end
  | String c t =>
      match skip with
      | S k => replace_go old new k t
      | O =>
          match old with
          | EmptyString => new +:+ String c (replace_go old new 0 t)
          | String _ old' =>
              if String.prefix old s
              then new +:+ replace_go old new (String.length old') t
              else String c (replace_go old new 0 t)
          end
      end
  end.

Definition replace (old new s : string) : string := replace_go old new 0 s.

(** [str.lower] on a latin-1 code point: A-Z and the accented capitals
    0xC0-0xDE (0xD7, the multiplication sign, is not a letter). *)
Definition lower_char (c : ascii) : ascii :=
  let n := nat_of_ascii c in
  if ((65 <=? n) && (n <=? 90)
      || (192 <=? n) && (n <=? 222) && negb (n =? 215))%nat
  then ascii_of_nat (n + 32) else c.

Fixpoint lower (s : string) : string :=
  match s with
  | EmptyString => EmptyString
  | String c t => String (lower_char c) (lower t)
  end.

Definition digit_value (c : ascii) : option Z :=
  let n := nat_of_ascii c in
  if ((48 <=? n) && (n <=? 57))%nat then Some (Z.of_nat n - 48) else None.

(** The digits of an integer literal: decimal digits, with single
    underscores allowed between two digits. *)
Fixpoint int_digits (prev_digit : bool) (acc : Z) (s : string) : option Z :=
  match s with
  | EmptyString => if prev_digit then Some acc else None
  | String c t =>
      match digit_value c with
      | Some d => int_digits true (10 * acc + d) t
      | None =>
          if Ascii.eqb c "_" && prev_digit then int_digits false acc t
          else None
      end
  end.

Fixpoint count_digits (s : string) : nat :=
  match s with
  | EmptyString => O
  | String c t =>
      match digit_value c with
      | Some _ => S (count_digits t)
      | None => count_digits t
      end
  end.

(** CPython's default limit on the digits of a decimal literal. *)
Definition int_max_str_digits : nat := 4300.

(** [int(s)]: [None] stands for [ValueError]. *)
Definition py_int (s : string) : option Z :=
  let t := strip s in
  let '(neg, body) :=
    match t with
    | String "-" r => (true, r)
    | String "+" r => (false, r)
    | _ => (false, t)
    end in
  if (int_max_str_digits <? count_digits body)%nat then None
  else match int_digits false 0 body with
       | Some n => Some (if neg then - n else n)
       | None => None
       end.

(** Truth value of a [str]: the empty string is false. *)
Definition truthy (s : string) : bool :=
  match s with EmptyString => false | _ => true end.

(** Truth value of an [Optional[str]]. *)
Definition otruthy (o : option string) : bool :=
  match o with Some s => truthy s | None => false end.

(** [str(n)] for an [int]. *)
Definition str_of_int (n : Z) : string := pretty n.

End PyStr.

(** ** Constants *)

(** Modelled from the spec: etransfer/common/constants.py, which the
    handler and the storage import, is not among the sources. The protocol
    version, the PATCH content type, the 24 h upload expiration, the header
    names and the key prefixes are the ones the specification names. *)
Module Constants.
Definition TUS_VERSION : string := "1.0.0".
Definition CONTENT_TYPE_OFFSET : string := "application/offset+octet-stream".
Definition UPLOAD_EXPIRATION_SECONDS : Z := 86400.
Definition AUTH_HEADER : string := "X-API-Token".

Module TusHeaders.
Definition TUS_RESUMABLE : string := "Tus-Resumable".
Definition TUS_VERSION : string := "Tus-Version".
Definition TUS_EXTENSION : string := "Tus-Extension".
Definition TUS_MAX_SIZE : string := "Tus-Max-Size".
Definition UPLOAD_LENGTH : string := "Upload-Length".
Definition UPLOAD_OFFSET : string := "Upload-Offset".
Definition UPLOAD_METADATA : string := "Upload-Metadata".
Definition UPLOAD_EXPIRES : string := "Upload-Expires".
Definition UPLOAD_CHECKSUM : string := "Upload-Checksum".
Definition CONTENT_TYPE : string := "Content-Type".
Definition LOCATION : string := "Location".
End TusHeaders.

Module RedisKeys.
Definition UPLOAD_PREFIX : string := "upload:".
Definition FILE_PREFIX : string := "file:".
Definition LOCK_PREFIX : string := "lock:".
End RedisKeys.
End Constants.

(** ** Exceptions and results *)

Inductive exn : Type :=
| HTTPException (status_code : Z) (detail : string)
| TusError (status_code : Z) (message : string)
| ValueError (message : string)
| RuntimeError (message : string)
| FileNotFoundError (message : string)
| OSError (message : string).

Inductive res (A : Type) : Type :=
| Ok (a : A)
| Raise (e : exn).
Arguments Ok {A} a.
Arguments Raise {A} e.

(** The functions of the Python standard library that the server calls and
    whose results the properties below never inspect: [base64.b64decode]
    ([None] for [binascii.Error] or [ValueError]), [bytes.decode("utf-8")]
    ([None] for [UnicodeDecodeError]), the three [hashlib] digests rendered
    by [hexdigest], and [datetime.isoformat]. *)
Class Externals : Type := {
  b64decode : string -> option bytes;
  utf8_decode : bytes -> option string;
  sha256_hexdigest : bytes -> string;
  sha1_hexdigest : bytes -> string;
  md5_hexdigest : bytes -> string;
  isoformat : Z -> string;
}.

(** ** models.py *)
Module Models.
Import PyStr.

(** [TusMetadata] *)
Record TusMetadata : Type := {
  tm_filename : string;
  tm_filetype : option string;
  tm_checksum : option string;
  tm_retention : option string;
  tm_retention_ttl : option Z;
}.

(** One iteration of the loop of [from_header] over
    [header_value.split(",")]. *)
Definition parse_item `{!Externals}
    (metadata : gmap string string) (item : string) : gmap string string :=
  let item := strip item in
  if negb (truthy item) then metadata
  else
    match split1 " " item with
    | [] => metadata
    | p0 :: rest =>
        let key := strip p0 in
        let value :=
          match rest with
          | [p1] =>
              match b64decode (strip p1) ≫= utf8_decode with
              | Some v => v
              | None => strip p1
              end
          | _ => ""
          end in
        <[key := value]> metadata
    end.

Definition parse_items `{!Externals} (header_value : string)
    : gmap string string :=
  fold_left parse_item (split "," header_value) ∅.

(** [TusMetadata.from_header] *)
Definition from_header `{!Externals} (header_value : string)
    : res TusMetadata :=
  if negb (truthy header_value) then Raise (ValueError "Empty metadata header")
  else
    let metadata := parse_items header_value in
    match metadata !! "filename" with
    | None => Raise (ValueError "filename is required in metadata")
    | Some filename =>
        let mk ttl :=
          Ok {| tm_filename := filename;
                tm_filetype := metadata !! "filetype";
                tm_checksum := metadata !! "checksum";
                tm_retention := metadata !! "retention";
                tm_retention_ttl := ttl |} in
        if otruthy (metadata !! "retention_ttl") then
          match py_int (default "" (metadata !! "retention_ttl")) with
          | Some n => mk (Some n)
          | None => Raise (ValueError "invalid literal for int() with base 10")
          end
        else mk None
    end.

(** The [metadata] dict that [tus_create] stores in the record: its four
    keys are fixed. *)
Record UploadMetadata : Type := {
  md_filetype : option string;
  md_checksum : option string;
  md_retention : string;
  md_retention_ttl : option Z;
}.

(** [TusUpload]. Times are seconds on the UTC clock. *)
Record TusUpload : Type := {
  file_id : string;
  filename : string;
  size : Z;
  offset : Z;
  metadata : UploadMetadata;
  created_at : Z;
  updated_at : Z;
  expires_at : option Z;
  is_final : bool;
  storage_path : string;
  checksum : option string;
  mime_type : option string;
  retention : string;
  retention_ttl : option Z;
  retention_expires_at : option Z;
  download_count : Z;
  (** Modelled from the spec: [owner_id], which storage.py reads from
      every record, is missing from the declaration of the class under
      src/; the data model gives it as an opaque caller identity that may
      be null. The handler never sets it. *)
  owner_id : option string;
}.

(** [TusUpload.is_complete] *)
Definition is_complete (u : TusUpload) : bool := size u <=? offset u.

(** [TusUpload.remaining] *)
Definition remaining (u : TusUpload) : Z := Z.max 0 (size u - offset u).

(** [TusCapabilities] with its default extensions. *)
Record TusCapabilities : Type := {
  version : string;
  extensions : list string;
  max_size : option Z;
  checksum_algorithms : list string;
}.

Definition mk_capabilities (max_size : option Z) : TusCapabilities :=
  {| version := "1.0.0";
     extensions := ["creation"; "creation-with-upload"; "termination";
                    "checksum"; "expiration"];
     max_size := max_size;
     checksum_algorithms := ["sha1"; "sha256"; "md5"] |}.

(** [TusErrors] *)
Module TusErrors.
Definition invalid_version : exn :=
  TusError 412 "Precondition Failed: Invalid Tus-Resumable header".
Definition upload_not_found : exn := TusError 404 "Upload not found".
Definition invalid_offset : exn :=
  TusError 409 "Conflict: Upload offset mismatch".
Definition invalid_content_type : exn :=
  TusError 415 "Unsupported Media Type".
Definition upload_too_large : exn :=
  TusError 413 "Request Entity Too Large".
Definition upload_expired : exn := TusError 410 "Gone: Upload has expired".
Definition checksum_mismatch : exn := TusError 460 "Checksum Mismatch".
End TusErrors.
End Models.

(** ** storage.py *)
Module Storage.
Import PyStr Constants Models.

(** The [file_info] dict that [finalize_upload] stores under the file
    key. *)
Record FileInfo : Type := {
  fi_file_id : string;
  fi_filename : string;
  fi_size : Z;
  fi_available_size : Z;
  fi_mime_type : option string;
  fi_checksum : option string;
  fi_is_complete : bool;
  fi_created_at : Z;
  fi_completed_at : Z;
  fi_storage_path : string;
  fi_retention : string;
  fi_retention_ttl : option Z;
  fi_retention_expires_at : option Z;
  fi_download_count : Z;
  fi_owner_id : option string;
}.

(** A value of the state store. The store holds JSON texts; a value is
    kept here as the object that [json.loads] gives back: an upload record,
    a file record, or the lock marker ["1"]. *)
Inductive stored : Type :=
| SUpload (u : TusUpload)
| SFile (f : FileInfo)
| SLock.

(** The state store and the two directories under [storage_path]. A
    directory maps the name of an entry to the content of the file. *)
Record State : Type := {
  kv : gmap string stored;
  uploads_dir : gmap string bytes;
  files_dir : gmap string bytes;
}.

(** The attributes of [TusStorage] set by [__init__]. *)
Record Config : Type := {
  chunk_size : Z;
  max_storage_size : option Z;
}.

(** A failure of the operating system while a chunk is written:
    [aiofiles.open], [f.seek] or [f.write] raises; a failing write may
    have put a prefix of the data on disk. *)
Inductive io_fault : Type :=
| FaultOpen
| FaultSeek
| FaultWrite (written : nat).

(** What a request reads from outside the program: the clock
    ([datetime.utcnow]), the two [uuid.uuid4().hex] draws of [tus_create],
    whether the holder of the lock lets it go during the 100 ms that
    [write_chunk] sleeps before its second attempt, and the failure of
    the file system, if any, while the chunk is written. *)
Record Env : Type := {
  now : Z;
  filename_uuid : string;
  file_id_uuid : string;
  lock_freed_while_sleeping : bool;
  fault : option io_fault;
}.

(** State and exception monad of the coroutines. *)
Definition M (A : Type) : Type := State -> res A * State.

#[global] Instance M_ret : MRet M := fun A a st => (Ok a, st).
#[global] Instance M_bind : MBind M := fun A B f m st =>
  match m st with
  | (Ok a, st') => f a st'
  | (Raise e, st') => (Raise e, st')
  end.

Definition raise {A : Type} (e : exn) : M A := fun st => (Raise e, st).
Definition get_state : M State := fun st => (Ok st, st).

(** [try: body finally: cleanup] *)
Definition try_finally {A : Type} (body : M A) (cleanup : M unit) : M A :=
  fun st =>
    match body st with
    | (r, st') =>
        match cleanup st' with
        | (Ok _, st'') => (r, st'')
        | (Raise e, st'') => (Raise e, st'')
        end
    end.

(** *** The state backend *)

(** Modelled from the spec: the state manager and its backends
    (etransfer/server/services/state.py and backends/) are not among the
    sources. Section 4.A gives [get], [set] with [nx] meaning only if
    absent and returning whether it was applied, [delete], and
    [scan_keys] by prefix. Expiry of a key ([ex]) is a step of the
    environment, see [lock_freed_while_sleeping]. *)
Definition state_get (key : string) : M (option stored) :=
  fun st => (Ok (kv st !! key), st).

Definition state_set (key : string) (value : stored) : M bool :=
  fun st => (Ok true, {| kv := <[key := value]> (kv st);
                         uploads_dir := uploads_dir st;
                         files_dir := files_dir st |}).

Definition state_set_nx (key : string) (value : stored) : M bool :=
  fun st =>
    match kv st !! key with
    | Some _ => (Ok false, st)
    | None => state_set key value st
    end.

Definition state_delete (key : string) : M unit :=
  fun st => (Ok tt, {| kv := delete key (kv st);
                       uploads_dir := uploads_dir st;
                       files_dir := files_dir st |}).

Definition scan_keys (prefix : string) (st : State) : gmap string stored :=
  filter (fun p : string * stored => Is_true (String.prefix prefix p.1))
         (kv st).

(** *** Paths and keys *)

(** [get_file_path]: the entry of the uploads directory. *)
Definition get_file_path (file_id : string) : string := file_id.

(** [get_final_path]: the entry of the files directory. *)
Definition get_final_path (file_id filename : string) : string :=
  file_id +:+ "_" +:+ filename.

(** [str(path)] of the two, relative to [storage_path]. *)
Definition str_upload_path (file_id : string) : string :=
  "uploads/" +:+ get_file_path file_id.
Definition str_final_path (file_id filename : string) : string :=
  "files/" +:+ get_final_path file_id filename.

Definition _upload_key (file_id : string) : string :=
  RedisKeys.UPLOAD_PREFIX +:+ file_id.
Definition _lock_key (file_id : string) : string :=
  RedisKeys.LOCK_PREFIX +:+ file_id.
Definition _file_key (file_id : string) : string :=
  RedisKeys.FILE_PREFIX +:+ file_id.

(** *** Locks *)

Definition acquire_lock (file_id : string) : M bool :=
  state_set_nx (_lock_key file_id) SLock.

Definition release_lock (file_id : string) : M unit :=
  state_delete (_lock_key file_id).

(** [asyncio.sleep(0.1)]: the only point where [write_chunk] yields while
    it waits for the lock; the holder may release it meanwhile. *)
Definition sleep (env : Env) (file_id : string) : M unit :=
  if lock_freed_while_sleeping env then state_delete (_lock_key file_id)
  else mret tt.

(** *** Files *)

Definition set_uploads_dir (d : gmap string bytes) : M unit :=
  fun st => (Ok tt, {| kv := kv st; uploads_dir := d;
                       files_dir := files_dir st |}).

Definition set_files_dir (d : gmap string bytes) : M unit :=
  fun st => (Ok tt, {| kv := kv st; uploads_dir := uploads_dir st;
                       files_dir := d |}).

(** The content of a file opened ["r+b"] after [seek(pos)] and
    [write(data)]: a gap past the end reads as zero bytes. *)
Definition write_at (content : bytes) (pos : nat) (data : bytes) : bytes :=
  (take pos content ++ repeat Byte.x00 (pos - length content)
     ++ data ++ drop (pos + length data) content)%list.

(** The body of the [try] block of [write_chunk]. *)
Definition write_file (env : Env) (file_id : string) (data : bytes)
    (offset : Z) : M Z :=
  st ← get_state;
  match uploads_dir st !! get_file_path file_id with
  | None => raise (FileNotFoundError "No such file or directory")
  | Some content =>
      (* mode = "r+b" if st_size > 0 else "ab" *)
      let rplus := (0 <? length content)%nat in
      let put (d : bytes) : M unit :=
        set_uploads_dir
          (<[get_file_path file_id :=
               if rplus then write_at content (Z.to_nat offset) d
               else (content ++ d)%list]> (uploads_dir st)) in
      match fault env with
      | Some FaultOpen => raise (OSError "open")
      | Some FaultSeek =>
          if rplus then raise (OSError "seek")
          else put data;; mret (Z.of_nat (length data))
      | Some (FaultWrite n) =>
          if rplus && (offset <? 0) then raise (OSError "Invalid argument")
          else put (take n data);; raise (OSError "write")
      | None =>
          if rplus && (offset <? 0) then raise (OSError "Invalid argument")
          else put data;; mret (Z.of_nat (length data))
      end
  end.

(** [write_chunk] *)
Definition write_chunk (env : Env) (file_id : string) (data : bytes)
    (offset : Z) : M Z :=
  got ← acquire_lock file_id;
  (if got : bool then mret tt
   else
     sleep env file_id;;
     again ← acquire_lock file_id;
     if again : bool then mret tt
     else raise (RuntimeError "Could not acquire lock for write"));;
  try_finally (write_file env file_id data offset) (release_lock file_id).

(** *** Upload records *)

Definition with_updated_at (t : Z) (u : TusUpload) : TusUpload :=
  {| file_id := file_id u; filename := filename u; size := size u;
     offset := offset u; metadata := metadata u;
     created_at := created_at u; updated_at := t;
     expires_at := expires_at u; is_final := is_final u;
     storage_path := storage_path u; checksum := checksum u;
     mime_type := mime_type u; retention := retention u;
     retention_ttl := retention_ttl u;
     retention_expires_at := retention_expires_at u;
     download_count := download_count u; owner_id := owner_id u |}.

Definition with_offset (o : Z) (u : TusUpload) : TusUpload :=
  {| file_id := file_id u; filename := filename u; size := size u;
     offset := o; metadata := metadata u;
     created_at := created_at u; updated_at := updated_at u;
     expires_at := expires_at u; is_final := is_final u;
     storage_path := storage_path u; checksum := checksum u;
     mime_type := mime_type u; retention := retention u;
     retention_ttl := retention_ttl u;
     retention_expires_at := retention_expires_at u;
     download_count := download_count u; owner_id := owner_id u |}.

Definition with_is_final (b : bool) (u : TusUpload) : TusUpload :=
  {| file_id := file_id u; filename := filename u; size := size u;
     offset := offset u; metadata := metadata u;
     created_at := created_at u; updated_at := updated_at u;
     expires_at := expires_at u; is_final := b;
     storage_path := storage_path u; checksum := checksum u;
     mime_type := mime_type u; retention := retention u;
     retention_ttl := retention_ttl u;
     retention_expires_at := retention_expires_at u;
     download_count := download_count u; owner_id := owner_id u |}.

Definition with_storage_path (p : string) (u : TusUpload) : TusUpload :=
  {| file_id := file_id u; filename := filename u; size := size u;
     offset := offset u; metadata := metadata u;
     created_at := created_at u; updated_at := updated_at u;
     expires_at := expires_at u; is_final := is_final u;
     storage_path := p; checksum := checksum u;
     mime_type := mime_type u; retention := retention u;
     retention_ttl := retention_ttl u;
     retention_expires_at := retention_expires_at u;
     download_count := download_count u; owner_id := owner_id u |}.

Definition with_retention_expires_at (t : option Z) (u : TusUpload)
    : TusUpload :=
  {| file_id := file_id u; filename := filename u; size := size u;
     offset := offset u; metadata := metadata u;
     created_at := created_at u; updated_at := updated_at u;
     expires_at := expires_at u; is_final := is_final u;
     storage_path := storage_path u; checksum := checksum u;
     mime_type := mime_type u; retention := retention u;
     retention_ttl := retention_ttl u;
     retention_expires_at := t;
     download_count := download_count u; owner_id := owner_id u |}.

(** [create_upload]: the record, then an empty file opened ["wb"]. *)
Definition create_upload (upload : TusUpload) : M unit :=
  state_set (_upload_key (file_id upload)) (SUpload upload);;
  st ← get_state;
  set_uploads_dir (<[get_file_path (file_id upload) := []]> (uploads_dir st)).

(** [get_upload]: a value that does not load as an upload record gives
    [None]. *)
Definition get_upload (file_id : string) : M (option TusUpload) :=
  data ← state_get (_upload_key file_id);
  match data with
  | Some (SUpload u) => mret (Some u)
  | _ => mret None
  end.

(** [update_upload] stamps [updated_at] and stores the record. *)
Definition update_upload (env : Env) (upload : TusUpload) : M unit :=
  state_set (_upload_key (file_id upload))
            (SUpload (with_updated_at (now env) upload));;
  mret tt.

(** [delete_upload] *)
Definition delete_upload (file_id : string) : M unit :=
  upload ← get_upload file_id;
  state_delete (_upload_key file_id);;
  state_delete (_file_key file_id);;
  st ← get_state;
  set_uploads_dir (delete (get_file_path file_id) (uploads_dir st));;
  match upload with
  | Some u =>
      if truthy (filename u)
      then st ← get_state;
           set_files_dir
             (delete (get_final_path file_id (filename u)) (files_dir st))
      else mret tt
  | None => mret tt
  end;;
  st ← get_state;
  set_files_dir
    (filter (fun p : string * bytes =>
               ¬ Is_true (String.prefix file_id p.1)) (files_dir st));;
  release_lock file_id.

(** [finalize_upload] *)
Definition finalize_upload (env : Env) (file_id : string) : M unit :=
  upload ← get_upload file_id;
  match upload with
  | None => raise (ValueError ("Upload not found: " +:+ file_id))
  | Some upload =>
      if negb (is_complete upload)
      then raise (ValueError ("Upload not complete: " +:+ file_id))
      else
        let src_path := get_file_path file_id in
        let dst_path := get_final_path file_id (filename upload) in
        st ← get_state;
        match uploads_dir st !! src_path with
        | Some content =>
            set_uploads_dir (delete src_path (uploads_dir st));;
            set_files_dir (<[dst_path := content]> (files_dir st))
        | None => mret tt
        end;;
        let expires :=
          match retention_ttl upload with
          | Some ttl =>
              if String.eqb (retention upload) "ttl" && negb (ttl =? 0)
              then Some (now env + ttl) else None
          | None => None
          end in
        let upload :=
          match expires with
          | Some _ => with_retention_expires_at expires upload
          | None => upload
          end in
        let file_info :=
          {| fi_file_id := file_id;
             fi_filename := filename upload;
             fi_size := size upload;
             fi_available_size := size upload;
             fi_mime_type := mime_type upload;
             fi_checksum := checksum upload;
             fi_is_complete := true;
             fi_created_at := created_at upload;
             fi_completed_at := now env;
             fi_storage_path := str_final_path file_id (filename upload);
             fi_retention := retention upload;
             fi_retention_ttl := retention_ttl upload;
             fi_retention_expires_at := expires;
             fi_download_count := 0;
             fi_owner_id := owner_id upload |} in
        state_set (_file_key file_id) (SFile file_info);;
        update_upload env
          (with_storage_path (str_final_path file_id (filename upload))
             (with_is_final true upload))
  end.

(** *** Quota *)

(** The dict of [get_storage_usage]. Its [usage_percent], a float that no
    handler reads, is left out. *)
Record Usage : Type := {
  used : Z;
  max : option Z;
  files_count : Z;
  uploads_count : Z;
  available : option Z;
  is_full : bool;
}.

Definition dir_size (d : gmap string bytes) : Z :=
  map_fold (fun (_ : string) (c : bytes) (acc : Z) =>
              acc + Z.of_nat (length c)) 0 d.

(** [list_files] *)
Definition list_files (st : State) : gmap string stored :=
  scan_keys RedisKeys.FILE_PREFIX st.

(** [list_uploads(include_completed, include_partial)] *)
Definition list_uploads (include_completed include_partial : bool)
    (st : State) : gmap string stored :=
  filter (fun p : string * stored =>
            Is_true match p.2 with
                    | SUpload u =>
                        if is_final u then include_completed
                        else include_partial
                    | _ => false
                    end)
         (scan_keys RedisKeys.UPLOAD_PREFIX st).

(** [get_storage_usage] *)
Definition get_storage_usage (cfg : Config) : M Usage :=
  st ← get_state;
  let used := dir_size (uploads_dir st) + dir_size (files_dir st) in
  let files := Z.of_nat (base.size (list_files st)) in
  let uploads := Z.of_nat (base.size (list_uploads false true st)) in
  match max_storage_size cfg with
  | Some m =>
      if m =? 0
      then mret {| used := used; max := Some m; files_count := files;
                   uploads_count := uploads; available := None;
                   is_full := false |}
      else mret {| used := used; max := Some m; files_count := files;
                   uploads_count := uploads;
                   available := Some (Z.max 0 (m - used));
                   is_full := m <=? used |}
  | None =>
      mret {| used := used; max := None; files_count := files;
              uploads_count := uploads; available := None;
              is_full := false |}
  end.

(** [check_quota] *)
Definition check_quota (cfg : Config) (additional_bytes : Z)
    : M (bool * Usage) :=
  usage ← get_storage_usage cfg;
  match max_storage_size cfg with
  | Some m =>
      if m =? 0 then mret (true, usage)
      else mret (used usage + additional_bytes <=? m, usage)
  | None => mret (true, usage)
  end.
End Storage.

(** ** handler.py *)
Module Handler.
Import PyStr Constants Models Storage.

(** What the handlers read of a [fastapi.Request]. The headers are keyed by
    the names of [TusHeaders]: the framework matches header names without
    regard to case. *)
Record Request : Type := {
  headers : gmap string string;
  body : bytes;
  url : string;
}.

(** [fastapi.Response] *)
Record Response : Type := {
  status_code : Z;
  resp_headers : gmap string string;
  content : string;
}.

(** An entry of [token_retention_policies]: a dict whose two keys may be
    missing. *)
Record TokenPolicy : Type := {
  tp_default_retention : option string;
  tp_default_ttl : option Z;
}.

(** [request.app.state.settings], as far as [tus_create] reads it. *)
Record Settings : Type := {
  default_retention : string;
  default_retention_ttl : option Z;
  token_retention_policies : option (gmap string TokenPolicy);
}.

(** The arguments of [create_tus_router] and the application state. *)
Record Router : Type := {
  storage : Config;
  router_max_size : option Z;
  settings : option Settings;
}.

Definition capabilities (r : Router) : TusCapabilities :=
  mk_capabilities (router_max_size r).

(** Truth value of an [Optional[int]]. *)
Definition int_truthy (o : option Z) : bool :=
  match o with Some n => negb (n =? 0) | None => false end.

(** [",".join(l)] *)
Definition join (sep : string) (l : list string) : string :=
  String.concat sep l.

(** [s.rstrip("/")] *)
Fixpoint rstrip_slash (s : string) : string :=
  match s with
  | EmptyString => EmptyString
  | String c t =>
      match rstrip_slash t with
      | EmptyString =>
          if Ascii.eqb c "/" then EmptyString else String c EmptyString
      | t' => String c t'
      end
  end.

(** [s[:8]] *)
Definition first8 (s : string) : string := String.substring 0 8 s.

Definition get_tus_headers : gmap string string :=
  <[TusHeaders.TUS_VERSION := TUS_VERSION]>
    (<[TusHeaders.TUS_RESUMABLE := TUS_VERSION]> ∅).

(** [validate_tus_version] *)
Definition validate_tus_version (request : Request) : M unit :=
  match headers request !! TusHeaders.TUS_RESUMABLE with
  | Some tus_version =>
      if truthy tus_version && negb (String.eqb tus_version TUS_VERSION)
      then raise TusErrors.invalid_version
      else mret tt
  | None => mret tt
  end.

(** [tus_options] *)
Definition tus_options (r : Router) (request : Request) : M Response :=
  let h := <[TusHeaders.TUS_EXTENSION :=
               join "," (extensions (capabilities r))]> get_tus_headers in
  let h :=
    if int_truthy (max_size (capabilities r))
    then <[TusHeaders.TUS_MAX_SIZE :=
             str_of_int (default 0 (max_size (capabilities r)))]> h
    else h in
  mret {| status_code := 204; resp_headers := h; content := "" |}.

(** The retention policy and TTL of a new upload: client metadata, then
    the policy of the token, then the server default. *)
Definition resolve_retention (r : Router) (request : Request)
    (tus_metadata : TusMetadata) : string * option Z :=
  let retention := tm_retention tus_metadata in
  let retention_ttl := tm_retention_ttl tus_metadata in
  let '(retention, retention_ttl) :=
    if otruthy retention then (default "" retention, retention_ttl)
    else
      let _def_ret :=
        match settings r with
        | Some s => default_retention s
        | None => "permanent"
        end in
      let _def_ttl := settings r ≫= default_retention_ttl in
      let _tok_pol : gmap string TokenPolicy :=
        default ∅ (settings r ≫= token_retention_policies) in
      let token := default "" (headers request !! AUTH_HEADER) in
      match (if truthy token then _tok_pol !! token else None) with
      | Some tp =>
          (default _def_ret (tp_default_retention tp),
           match retention_ttl with
           | None =>
               match tp_default_ttl tp with
               | Some t => Some t
               | None => _def_ttl
               end
           | Some t => Some t
           end)
      | None =>
          (_def_ret,
           match retention_ttl with
           | None => _def_ttl
           | Some t => Some t
           end)
      end in
  if String.eqb retention "permanent" || String.eqb retention "download_once"
     || String.eqb retention "ttl"
  then (retention, retention_ttl)
  else ("permanent", retention_ttl).

(** The parsed metadata of a POST, or the [ValueError] of the parser. *)
Definition create_metadata `{!Externals} (env : Env) (request : Request)
    : res TusMetadata :=
  let metadata_header :=
    default "" (headers request !! TusHeaders.UPLOAD_METADATA) in
  if truthy metadata_header then from_header metadata_header
  else Ok {| tm_filename := "upload_" +:+ first8 (filename_uuid env);
             tm_filetype := None; tm_checksum := None;
             tm_retention := None; tm_retention_ttl := None |}.

(** The record that [tus_create] allocates. *)
Definition new_upload (r : Router) (env : Env) (request : Request)
    (upload_length : Z) (tus_metadata : TusMetadata) : TusUpload :=
  let file_id := file_id_uuid env in
  let expires := now env + UPLOAD_EXPIRATION_SECONDS in
  let '(retention, retention_ttl) :=
    resolve_retention r request tus_metadata in
  {| file_id := file_id;
     filename := tm_filename tus_metadata;
     size := upload_length;
     offset := 0;
     metadata :=
       {| md_filetype := tm_filetype tus_metadata;
          md_checksum := tm_checksum tus_metadata;
          md_retention := retention;
          md_retention_ttl := retention_ttl |};
     created_at := now env;
     updated_at := now env;
     expires_at := Some expires;
     is_final := false;
     storage_path := str_upload_path file_id;
     checksum := tm_checksum tus_metadata;
     mime_type := tm_filetype tus_metadata;
     retention := retention;
     retention_ttl := retention_ttl;
     retention_expires_at := None;
     download_count := 0;
     owner_id := None |}.

(** The creation-with-upload extension: is the body of the POST written as
    the first chunk? *)
Definition creation_with_upload (r : Router) (request : Request) : bool :=
  negb (bool_decide (body request = []))
  && existsb (String.eqb "creation-with-upload")
             (extensions (capabilities r))
  && bool_decide (headers request !! TusHeaders.CONTENT_TYPE
                  = Some CONTENT_TYPE_OFFSET).

(** [tus_create] from "Save to storage" on. *)
Definition save_upload `{!Externals} (r : Router) (env : Env)
    (request : Request) (upload : TusUpload) : M Response :=
  create_upload upload;;
  let location :=
    rstrip_slash (url request) +:+ "/" +:+ file_id upload in
  upload ←
    (if creation_with_upload r request
     then
       write_chunk env (file_id upload) (body request) 0;;
       let upload :=
         with_updated_at (now env)
           (with_offset (Z.of_nat (length (body request))) upload) in
       update_upload env upload;;
       mret upload
     else mret upload);
  let h := <[TusHeaders.LOCATION := location]> get_tus_headers in
  let h := <[TusHeaders.UPLOAD_OFFSET := str_of_int (offset upload)]> h in
  let h :=
    match expires_at upload with
    | Some t => <[TusHeaders.UPLOAD_EXPIRES := isoformat t]> h
    | None => h
    end in
  mret {| status_code := 201; resp_headers := h; content := "" |}.

(** [tus_create] *)
Definition tus_create `{!Externals} (r : Router) (env : Env)
    (request : Request) : M Response :=
  validate_tus_version request;;
  let upload_length_str := headers request !! TusHeaders.UPLOAD_LENGTH in
  if negb (otruthy upload_length_str)
  then raise (HTTPException 400 "Missing Upload-Length header")
  else
    match py_int (default "" upload_length_str) with
    | None => raise (HTTPException 400 "Invalid Upload-Length header")
    | Some upload_length =>
        if int_truthy (router_max_size r)
           && (default 0 (router_max_size r) <? upload_length)
        then raise (HTTPException 413 "Upload exceeds maximum size")
        else
          match create_metadata env request with
          | Raise (ValueError e) =>
              raise (HTTPException 400 ("Invalid Upload-Metadata: " +:+ e))
          | Raise e => raise e
          | Ok tus_metadata =>
              save_upload r env request
                (new_upload r env request upload_length tus_metadata)
          end
    end.

(** [upload.expires_at and upload.expires_at < datetime.utcnow()] *)
Definition expired (env : Env) (upload : TusUpload) : bool :=
  match expires_at upload with
  | Some t => t <? now env
  | None => false
  end.

Definition with_expires (upload : TusUpload) (h : gmap string string)
    `{!Externals} : gmap string string :=
  match expires_at upload with
  | Some t => <[TusHeaders.UPLOAD_EXPIRES := isoformat t]> h
  | None => h
  end.

(** [tus_head] *)
Definition tus_head `{!Externals} (r : Router) (env : Env)
    (file_id : string) (request : Request) : M Response :=
  validate_tus_version request;;
  upload ← get_upload file_id;
  match upload with
  | None => raise (HTTPException 404 "Upload not found")
  | Some upload =>
      if expired env upload
      then delete_upload file_id;;
           raise (HTTPException 410 "Upload has expired")
      else
        let h :=
          <[TusHeaders.UPLOAD_OFFSET := str_of_int (offset upload)]>
            get_tus_headers in
        let h := <[TusHeaders.UPLOAD_LENGTH := str_of_int (size upload)]> h in
        let h := with_expires upload h in
        let h := <["Cache-Control" := "no-store"]> h in
        mret {| status_code := 200; resp_headers := h; content := "" |}
  end.

(** The digest that the [Upload-Checksum] header asks for: [None] for an
    algorithm that is not supported. *)
Definition checksum_digest `{!Externals} (algo : string) (data : bytes)
    : option string :=
  if String.eqb (lower algo) "sha256" then Some (sha256_hexdigest data)
  else if String.eqb (lower algo) "sha1" then Some (sha1_hexdigest data)
  else if String.eqb (lower algo) "md5" then Some (md5_hexdigest data)
  else None.

(** The checksum validation of [tus_patch]. *)
Definition validate_checksum `{!Externals} (request : Request)
    (chunk_data : bytes) : M unit :=
  match headers request !! TusHeaders.UPLOAD_CHECKSUM with
  | None => mret tt
  | Some checksum_header =>
      if negb (truthy checksum_header) then mret tt
      else
        match split1 " " checksum_header with
        | [algo; expected] =>
            match checksum_digest algo chunk_data with
            | Some actual =>
                if negb (String.eqb actual expected)
                then raise (HTTPException 460 "Checksum mismatch")
                else mret tt
            | None =>
                raise (HTTPException 400
                         ("Unsupported checksum algorithm: " +:+ algo))
            end
        | _ =>
            raise (ValueError
                     "not enough values to unpack (expected 2, got 1)")
        end
  end.

(** The 507 response of [tus_patch]. *)
Definition quota_response (upload : TusUpload) (usage : Usage) : Response :=
  let h :=
    <[TusHeaders.UPLOAD_OFFSET := str_of_int (offset upload)]>
      get_tus_headers in
  let h := <["Retry-After" := "10"]> h in
  let h := <["X-Storage-Used" := str_of_int (used usage)]> h in
  let h :=
    <["X-Storage-Max" :=
        match max usage with Some m => str_of_int m | None => "None" end]> h in
  let h :=
    <["X-Storage-Available" :=
        match available usage with
        | Some a => str_of_int a
        | None => "None"
        end]> h in
  {| status_code := 507; resp_headers := h;
     content := "Storage quota exceeded. Retry after space is freed." |}.

(** [tus_patch] from "Write chunk to storage" on. *)
Definition store_chunk `{!Externals} (env : Env) (file_id : string)
    (upload : TusUpload) (offset_ : Z) (chunk_data : bytes) : M Response :=
  write_chunk env file_id chunk_data offset_;;
  let new_offset := offset_ + Z.of_nat (length chunk_data) in
  let upload := with_updated_at (now env) (with_offset new_offset upload) in
  let upload :=
    if size upload <=? new_offset then with_is_final true upload
    else upload in
  update_upload env upload;;
  (if is_final upload then finalize_upload env file_id else mret tt);;
  let h :=
    <[TusHeaders.UPLOAD_OFFSET := str_of_int new_offset]> get_tus_headers in
  let h := with_expires upload h in
  mret {| status_code := 204; resp_headers := h; content := "" |}.

(** [tus_patch] from "Check storage quota before writing" on. *)
Definition admit_chunk `{!Externals} (r : Router) (env : Env)
    (file_id : string) (request : Request) (upload : TusUpload)
    (offset_ : Z) (chunk_data : bytes) : M Response :=
  let len := Z.of_nat (length chunk_data) in
  '(allowed, usage) ← check_quota (storage r) len;
  if negb allowed then mret (quota_response upload usage)
  else
    if size upload <? offset_ + len
    then raise (HTTPException 400 "Chunk exceeds upload size")
    else
      validate_checksum request chunk_data;;
      store_chunk env file_id upload offset_ chunk_data.

(** [tus_patch] *)
Definition tus_patch `{!Externals} (r : Router) (env : Env)
    (file_id : string) (request : Request) : M Response :=
  validate_tus_version request;;
  let content_type := headers request !! TusHeaders.CONTENT_TYPE in
  if negb (bool_decide (content_type = Some CONTENT_TYPE_OFFSET))
  then raise (HTTPException 415
                ("Unsupported Content-Type: "
                 +:+ default "None" content_type))
  else
    upload ← get_upload file_id;
    match upload with
    | None => raise (HTTPException 404 "Upload not found")
    | Some upload =>
        if expired env upload
        then delete_upload file_id;;
             raise (HTTPException 410 "Upload has expired")
        else
          let offset_str := headers request !! TusHeaders.UPLOAD_OFFSET in
          if negb (otruthy offset_str)
          then raise (HTTPException 400 "Missing Upload-Offset header")
          else
            match py_int (default "" offset_str) with
            | None =>
                raise (HTTPException 400 "Invalid Upload-Offset header")
            | Some offset_ =>
                if negb (offset_ =? offset upload)
                then raise (HTTPException 409
                              ("Offset mismatch: expected "
                               +:+ str_of_int (offset upload)
                               +:+ ", got " +:+ str_of_int offset_))
                else
                  let chunk_data := body request in
                  if bool_decide (chunk_data = [])
                  then raise (HTTPException 400 "Empty request body")
                  else admit_chunk r env file_id request upload offset_
                                   chunk_data
            end
    end.

(** [tus_delete] *)
Definition tus_delete (r : Router) (file_id : string) (request : Request)
    : M Response :=
  validate_tus_version request;;
  upload ← get_upload file_id;
  match upload with
  | None => raise (HTTPException 404 "Upload not found")
  | Some _ =>
      delete_upload file_id;;
      mret {| status_code := 204; resp_headers := get_tus_headers;
              content := "" |}
  end.

(** The routes of the router: the method and the path of a request. *)
Inductive Route : Type :=
| OPTIONS (file_id : option string)
| POST
| HEAD (file_id : string)
| PATCH (file_id : string)
| DELETE (file_id : string).

Definition dispatch `{!Externals} (r : Router) (env : Env) (route : Route)
    (request : Request) : M Response :=
  match route with
  | OPTIONS _ => tus_options r request
  | POST => tus_create r env request
  | HEAD file_id => tus_head r env file_id request
  | PATCH file_id => tus_patch r env file_id request
  | DELETE file_id => tus_delete r file_id request
  end.

(** The status of the HTTP response, when the handler itself decides it:
    the status of the [Response] it returns or of the [HTTPException] it
    raises. Any other exception leaves the status to the error handling
    of the framework. *)
Definition http_status (outcome : res Response) : option Z :=
  match outcome with
  | Ok response => Some (status_code response)
  | Raise (HTTPException status _) => Some status
  | Raise _ => None
  end.
End Handler.

(** ** routes/files.py *)
Module Files.
Import PyStr.

(** The dict that [storage.get_file_info] returns, as far as
    [download_file] reads it. The storage of the [easytransfer] package is
    not among the sources, so the dict is an argument of the route. The
    four keys read with [info.get] may be missing ([None]); [mime_type]
    may also be present and null. *)
Record Info : Type := {
  available_size : Z;
  size : Z;
  filename : string;
  mime_type : option (option string);
  retention : option string;
  retention_expires_at : option string;
  download_count : option Z;
}.

(** The [StreamingResponse] of [download_file]: the body is the bytes
    [start .. start + content_length - 1] read chunk by chunk, and
    [after_download] tells whether the background task that records the
    download (and deletes a download-once file) was scheduled. *)
Record Download : Type := {
  status_code : Z;
  headers : gmap string string;
  media_type : option string;
  start : Z;
  content_length : Z;
  after_download : bool;
}.

Definition dquote : string := String (ascii_of_nat 34) EmptyString.

(** The [try] block that parses the [Range] header: the new [(start,
    end)], or [None] for [ValueError]. *)
Definition parse_range (range_header : string) (available_size : Z)
    : option (Z * Z) :=
  let range_spec := replace "bytes=" "" range_header in
  let start := 0 in
  let end_ := available_size - 1 in
  if contains "-" range_spec then
    let parts := split "-" range_spec in
    let p0 := nth 0 parts "" in
    let p1 := nth 1 parts "" in
    match (if truthy p0 then py_int p0 else Some start) with
    | None => None
    | Some start =>
        match (if truthy p1
               then (fun e => Z.min e (available_size - 1)) <$> py_int p1
               else Some end_) with
        | None => None
        | Some end_ => Some (start, end_)
        end
    end
  else Some (start, end_).

(** [download_file], given the result of [storage.get_file_info] and the
    [Range] header of the request. *)
Definition download_file (file_id : string) (info : option Info)
    (range_header : option string) : res Download :=
  match info with
  | None => Raise (HTTPException 404 ("File not found: " +:+ file_id))
  | Some info =>
      let total_size := size info in
      let mime :=
        match mime_type info with
        | Some m => m
        | None => Some "application/octet-stream"
        end in
      let retention := default "permanent" (retention info) in
      let ranged :=
        if otruthy range_header
        then Some (parse_range (default "" range_header)
                               (available_size info))
        else None in
      let checked : res (Z * Z) :=
        match ranged with
        | None => Ok (0, available_size info - 1)
        | Some None => Raise (HTTPException 416 "Invalid Range header")
        | Some (Some (start, end_)) =>
            if (available_size info <=? start) || (end_ <? start)
            then Raise (HTTPException 416
                          ("Range not satisfiable. Available: 0-"
                           +:+ str_of_int (available_size info - 1)))
            else Ok (start, end_)
        end in
      match checked with
      | Raise e => Raise e
      | Ok (start, end_) =>
          let content_length := end_ - start + 1 in
          let is_full_download :=
            (start =? 0) && (end_ =? available_size info - 1) in
          let h : gmap string string :=
            <["X-Retention-Policy" := retention]>
              (<["Content-Length" := str_of_int content_length]>
                 (<["Accept-Ranges" := "bytes"]>
                    (<["Content-Disposition" :=
                         "attachment; filename=" +:+ dquote
                         +:+ filename info +:+ dquote]> ∅))) in
          let h :=
            if otruthy (retention_expires_at info)
            then <["X-Retention-Expires" :=
                     default "" (retention_expires_at info)]> h
            else h in
          let h :=
            if String.eqb retention "download_once" && is_full_download
            then <["X-Retention-Warning" :=
                     "File will be deleted after this download"]> h
            else h in
          let h :=
            <["X-Download-Count" :=
                str_of_int (default 0 (download_count info) + 1)]> h in
          if otruthy range_header || (available_size info <? total_size)
          then
            Ok {| status_code := 206;
                  headers :=
                    <["Content-Range" :=
                        "bytes " +:+ str_of_int start +:+ "-"
                        +:+ str_of_int end_ +:+ "/"
                        +:+ str_of_int total_size]> h;
                  media_type := mime; start := start;
                  content_length := content_length;
                  after_download := is_full_download |}
          else
            Ok {| status_code := 200; headers := h;
                  media_type := mime; start := start;
                  content_length := content_length;
                  after_download := is_full_download |}
      end
  end.
End Files.

(** ** A sample instance of the library functions

    Used by the examples only: strict base64 over the standard alphabet,
    UTF-8 restricted to ASCII, and digests that are easy to tell apart. *)
Module Sample.
Import Handler Storage.

Definition b64_value (c : ascii) : option N :=
  let n := N_of_ascii c in
  (if (65 <=? n) && (n <=? 90) then Some (n - 65)
   else if (97 <=? n) && (n <=? 122) then Some (n - 71)
   else if (48 <=? n) && (n <=? 57) then Some (n + 4)
   else if n =? 43 then Some 62
   else if n =? 47 then Some 63
   else None)%N.

Definition byte_of (n : N) : bytes :=
  match Byte.of_N (n mod 256) with Some b => [b] | None => [] end.

Fixpoint b64_strict (s : string) : option bytes :=
  match s with
  | EmptyString => Some []
  | String a (String b (String c (String d t))) =>
      match b64_value a, b64_value b with
      | Some va, Some vb =>
          let b0 := byte_of (va * 4 + vb / 16)%N in
          if Ascii.eqb c "=" && Ascii.eqb d "=" then
            match t with EmptyString => Some b0 | _ => None end
          else
            match b64_value c with
            | Some vc =>
                let b1 := byte_of ((vb mod 16) * 16 + vc / 4)%N in
                if Ascii.eqb d "=" then
                  match t with
                  | EmptyString => Some (b0 ++ b1)%list
                  | _ => None
                  end
                else
                  match b64_value d, b64_strict t with
                  | Some vd, Some rest =>
                      Some (b0 ++ b1 ++ byte_of ((vc mod 4) * 64 + vd)
                              ++ rest)%list
                  | _, _ => None
                  end
            | None => None
            end
      | _, _ => None
      end
  | _ => None
  end.

Fixpoint ascii_decode (l : bytes) : option string :=
  match l with
  | [] => Some EmptyString
  | b :: t =>
      if (Byte.to_N b <? 128)%N
      then String (ascii_of_N (Byte.to_N b)) <$> ascii_decode t
      else None
  end.

Definition externals : Externals :=
  {| b64decode := b64_strict;
     utf8_decode := ascii_decode;
     sha256_hexdigest := fun d => "sha256:" +:+ pretty (length d);
     sha1_hexdigest := fun d => "sha1:" +:+ pretty (length d);
     md5_hexdigest := fun d => "md5:" +:+ pretty (length d);
     isoformat := fun t => pretty t |}.

Definition empty_state : State :=
  {| kv := ∅; uploads_dir := ∅; files_dir := ∅ |}.

Definition router : Router :=
  {| storage := {| chunk_size := 4194304; max_storage_size := None |};
     router_max_size := None;
     settings := None |}.

Definition env (t : Z) : Env :=
  {| now := t; filename_uuid := "0123456789abcdef0123456789abcdef";
     file_id_uuid := "f00df00df00df00df00df00df00df00d";
     lock_freed_while_sleeping := false; fault := None |}.

Definition request (h : list (string * string)) (b : bytes) : Request :=
  {| headers := list_to_map h; body := b; url := "http://host/tus" |}.

Definition file_id : string := "f00df00df00df00df00df00df00df00d".

Definition patch_request (off : string) (extra : list (string * string))
    (b : bytes) : Request :=
  request (("Upload-Offset", off)
           :: ("Content-Type", "application/offset+octet-stream") :: extra) b.

(** The state after a POST that declares [len] bytes and carries no body. *)
Definition created (len : string) : State :=
  snd (@tus_create externals router (env 0)
         (request [("Upload-Length", len)] []) empty_state).

(** The state after that POST and one PATCH of [b] at offset 0. *)
Definition patched (len : string) (b : bytes) : State :=
  snd (@tus_patch externals router (env 1) file_id
         (patch_request "0" [] b) (created len)).

(** A router whose storage is capped at [m] bytes. *)
Definition quota_router (m : Z) : Router :=
  {| storage := {| chunk_size := 4194304; max_storage_size := Some m |};
     router_max_size := None;
     settings := None |}.

(** The state [st] with one more completed file on disk. *)
Definition with_other_file (b : bytes) (st : State) : State :=
  {| kv := kv st; uploads_dir := uploads_dir st;
     files_dir := <["0ther_file.bin" := b]> (files_dir st) |}.
End Sample.

(** ** storage.py: reading, download records and cleanup *)
Module Retrieval.
Import PyStr Constants Models Storage.

(** [f.seek(offset)] followed by [f.read(length)] on a file opened
    ["rb"]: the operating system refuses a negative position, the buffered
    reader a length below -1, and -1 reads to the end of the file. Reading
    is assumed not to fail otherwise. *)
Definition read_at (content : bytes) (offset length : Z) : res bytes :=
  if offset <? 0 then Raise (OSError "Invalid argument")
  else if length <? -1
  then Raise (ValueError "read length must be non-negative or -1")
  else if length =? -1 then Ok (drop (Z.to_nat offset) content)
  else Ok (take (Z.to_nat length) (drop (Z.to_nat offset) content)).

(** [read_chunk]: the file of the uploads directory, or else the final
    file of an upload whose record is final. *)
Definition read_chunk (file_id : string) (offset length : Z) : M bytes :=
  st ← get_state;
  let file := uploads_dir st !! get_file_path file_id in
  file ←
    match file with
    | Some _ => mret file
    | None =>
        upload ← get_upload file_id;
        match upload with
        | Some upload =>
            if is_final upload
            then mret (files_dir st
                         !! get_final_path file_id (filename upload))
            else mret file
        | None => mret file
        end
    end;
  match file with
  | None => raise (FileNotFoundError ("File not found: " +:+ file_id))
  | Some content =>
      match read_at content offset length with
      | Ok data => mret data
      | Raise e => raise e
      end
  end.

(** The result of a coroutine that reads the value under a file key as a
    dict: on a value that is not a JSON object, [.get] raises
    [AttributeError]. *)
Inductive outcome (A : Type) : Type :=
| Returned (a : A)
| Raised (e : exn)
| AttributeError (message : string).
Arguments Returned {A} a.
Arguments Raised {A} e.
Arguments AttributeError {A} message.

Definition of_res {A : Type} (r : res A * State) : outcome A * State :=
  match r with
  | (Ok a, st) => (Returned a, st)
  | (Raise e, st) => (Raised e, st)
  end.

(** [get_available_size] *)
Definition get_available_size (file_id : string) (st : State)
    : outcome Z * State :=
  match get_upload file_id st with
  | (Raise e, st) => (Raised e, st)
  | (Ok (Some upload), st) => (Returned (offset upload), st)
  | (Ok None, st) =>
      match kv st !! _file_key file_id with
      | Some (SFile info) => (Returned (fi_size info), st)
      | Some (SUpload info) => (Returned (size info), st)
      | Some SLock =>
          (AttributeError "'int' object has no attribute 'get'", st)
      | None => (Returned 0, st)
      end
  end.

(** The dict that [get_file_info] builds from an upload record. *)
Record UploadInfo : Type := {
  ui_file_id : string;
  ui_filename : string;
  ui_size : Z;
  ui_available_size : Z;
  ui_mime_type : option string;
  ui_checksum : option string;
  ui_is_complete : bool;
  ui_created_at : Z;
  ui_retention : string;
  ui_retention_ttl : option Z;
  ui_retention_expires_at : option Z;
  ui_download_count : Z;
  ui_owner_id : option string;
}.

(** What [get_file_info] returns: the value stored under the file key as
    [json.loads] gives it back, or the dict built from the upload
    record. *)
Inductive file_info : Type :=
| Loaded (v : stored)
| OfUpload (i : UploadInfo).

(** [get_file_info] *)
Definition get_file_info (file_id : string) : M (option file_info) :=
  data ← state_get (_file_key file_id);
  match data with
  | Some v => mret (Some (Loaded v))
  | None =>
      upload ← get_upload file_id;
      match upload with
      | Some upload =>
          mret (Some (OfUpload
            {| ui_file_id := file_id;
               ui_filename := filename upload;
               ui_size := size upload;
               ui_available_size := offset upload;
               ui_mime_type := mime_type upload;
               ui_checksum := checksum upload;
               ui_is_complete := is_complete upload;
               ui_created_at := created_at upload;
               ui_retention := retention upload;
               ui_retention_ttl := retention_ttl upload;
               ui_retention_expires_at := retention_expires_at upload;
               ui_download_count := download_count upload;
               ui_owner_id := owner_id upload |}))
      | None => mret None
      end
  end.

(** The dict that [record_download] returns. *)
Record DownloadRecord : Type := {
  dr_should_delete : bool;
  dr_retention : string;
  dr_download_count : Z;
}.

Definition with_download_count (n : Z) (u : TusUpload) : TusUpload :=
  {| file_id := file_id u; filename := filename u; size := size u;
     offset := offset u; metadata := metadata u;
     created_at := created_at u; updated_at := updated_at u;
     expires_at := expires_at u; is_final := is_final u;
     storage_path := storage_path u; checksum := checksum u;
     mime_type := mime_type u; retention := retention u;
     retention_ttl := retention_ttl u;
     retention_expires_at := retention_expires_at u;
     download_count := n; owner_id := owner_id u |}.

Definition fi_with_download_count (n : Z) (f : FileInfo) : FileInfo :=
  {| fi_file_id := fi_file_id f; fi_filename := fi_filename f;
     fi_size := fi_size f; fi_available_size := fi_available_size f;
     fi_mime_type := fi_mime_type f; fi_checksum := fi_checksum f;
     fi_is_complete := fi_is_complete f; fi_created_at := fi_created_at f;
     fi_completed_at := fi_completed_at f;
     fi_storage_path := fi_storage_path f;
     fi_retention := fi_retention f;
     fi_retention_ttl := fi_retention_ttl f;
     fi_retention_expires_at := fi_retention_expires_at f;
     fi_download_count := n; fi_owner_id := fi_owner_id f |}.

(** [record_download] *)
Definition record_download (env : Env) (file_id : string) (st : State)
    : outcome DownloadRecord * State :=
  let file_key := _file_key file_id in
  match kv st !! file_key with
  | Some (SFile info) =>
      let info :=
        fi_with_download_count (fi_download_count info + 1) info in
      of_res
        ((state_set file_key (SFile info);;
          mret {| dr_should_delete :=
                    String.eqb (fi_retention info) "download_once";
                  dr_retention := fi_retention info;
                  dr_download_count := fi_download_count info |}) st)
  | Some (SUpload info) =>
      let info := with_download_count (download_count info + 1) info in
      of_res
        ((state_set file_key (SUpload info);;
          mret {| dr_should_delete :=
                    String.eqb (retention info) "download_once";
                  dr_retention := retention info;
                  dr_download_count := download_count info |}) st)
  | Some SLock => (AttributeError "'int' object has no attribute 'get'", st)
  | None =>
      of_res
        ((upload ← get_upload file_id;
          match upload with
          | Some upload =>
              let upload :=
                with_download_count (download_count upload + 1) upload in
              update_upload env upload;;
              mret {| dr_should_delete :=
                        String.eqb (retention upload) "download_once";
                      dr_retention := retention upload;
                      dr_download_count := download_count upload |}
          | None =>
              mret {| dr_should_delete := false;
                      dr_retention := "permanent";
                      dr_download_count := 0 |}
          end) st)
  end.

(** [t and t < now] for an optional time. *)
Definition past (env : Env) (t : option Z) : bool :=
  match t with
  | Some t => t <? now env
  | None => false
  end.

(** The records among the values of a scan, in the order of the scan. The
    order in which the backend lists the keys is not fixed by the sources;
    the order of the map stands for it. *)
Definition uploads_of (m : gmap string stored) : list TusUpload :=
  omap (fun v : stored =>
          match v with SUpload u => Some u | _ => None end)
       (map_to_list m).*2.

(** The first loop of [cleanup_expired], with [user_db] left at its
    default [None], as both callers do. *)
Fixpoint clean_uploads (env : Env) (uploads : list TusUpload) (cleaned : Z)
    : M Z :=
  match uploads with
  | [] => mret cleaned
  | upload :: uploads =>
      if past env (expires_at upload)
      then delete_upload (file_id upload);;
           clean_uploads env uploads (cleaned + 1)
      else clean_uploads env uploads cleaned
  end.

(** [f.get("retention_expires_at")] and [f["file_id"]] of an entry of
    [list_files]; [None] where the entry is not a dict. *)
Definition expiry_and_id (f : stored) : option (option Z * string) :=
  match f with
  | SFile f => Some (fi_retention_expires_at f, fi_file_id f)
  | SUpload u => Some (retention_expires_at u, file_id u)
  | SLock => None
  end.

(** The second loop of [cleanup_expired]. *)
Fixpoint clean_files (env : Env) (files : list stored) (cleaned : Z)
    (st : State) : outcome Z * State :=
  match files with
  | [] => (Returned cleaned, st)
  | f :: files =>
      match expiry_and_id f with
      | None => (AttributeError "'int' object has no attribute 'get'", st)
      | Some (expires, file_id) =>
          if past env expires
          then
            match delete_upload file_id st with
            | (Ok _, st) => clean_files env files (cleaned + 1) st
            | (Raise e, st) => (Raised e, st)
            end
          else clean_files env files cleaned st
      end
  end.

(** [cleanup_expired] *)
Definition cleanup_expired (env : Env) (st : State) : outcome Z * State :=
  let uploads := uploads_of (list_uploads false true st) in
  match clean_uploads env uploads 0 st with
  | (Raise e, st) => (Raised e, st)
  | (Ok cleaned, st) =>
      let files := (map_to_list (list_files st)).*2 in
      clean_files env files cleaned st
  end.
End Retrieval.

(** ** routes/files.py: streaming a download *)
Module Streaming.
Import PyStr Retrieval.

(** How far [generate_chunks] has come when it is observed: the generator
    is exhausted, an exception left it, or it is still in its loop. *)
Inductive progress : Type :=
| Exhausted
| Failed (e : exn)
| Looping.

(** [generate_chunks], observed for at most [fuel] turns of its loop: the
    chunks yielded so far and where the generator stands. Other requests
    run between two turns, so [read_chunk n] is the read of turn [n]. *)
Fixpoint generate_chunks (fuel : nat) (read_chunk : nat -> Z -> Z -> res bytes)
    (chunk_size : Z) (turn : nat) (offset remaining : Z)
    : list bytes * progress :=
  if 0 <? remaining then
    match fuel with
    | O => ([], Looping)
    | S fuel =>
        let chunk_size' := Z.min chunk_size remaining in
        match read_chunk turn offset chunk_size' with
        | Ok chunk =>
            let '(chunks, p) :=
              generate_chunks fuel read_chunk chunk_size (S turn)
                (offset + Z.of_nat (length chunk))
                (remaining - Z.of_nat (length chunk)) in
            (chunk :: chunks, p)
        | Raise (FileNotFoundError _) => ([], Exhausted)
        | Raise e => ([], Failed e)
        end
    end
  else ([], Exhausted).

(** [_after_download], the background task of a full download, over the
    two operations of the storage that it calls. *)
Definition _after_download
    (record_download : string -> Storage.State
                       -> outcome DownloadRecord * Storage.State)
    (delete_upload : string -> Storage.M unit)
    (file_id : string) (st : Storage.State)
    : outcome unit * Storage.State :=
  match record_download file_id st with
  | (Returned result, st) =>
      if dr_should_delete result then of_res (delete_upload file_id st)
      else (Returned tt, st)
  | (Raised e, st) => (Raised e, st)
  | (AttributeError m, st) => (AttributeError m, st)
  end.
End Streaming.

(** ** client/downloader.py *)
Module Downloader.
Import PyStr.

(** The byte range of [download_chunk]: [chunk_size or self.chunk_size],
    and the end cut to a non-zero [total_size]. *)
Definition chunk_range (self_chunk_size chunk_index : Z)
    (chunk_size total_size : option Z) : Z * Z :=
  let chunk_size :=
    if Handler.int_truthy chunk_size then default 0 chunk_size
    else self_chunk_size in
  let start := chunk_index * chunk_size in
  let end_ := start + chunk_size - 1 in
  let end_ :=
    if Handler.int_truthy total_size && (default 0 total_size <=? end_)
    then default 0 total_size - 1 else end_ in
  (start, end_).

(** The [Range] header of [download_chunk]. *)
Definition range_header (range : Z * Z) : string :=
  "bytes=" +:+ str_of_int range.1 +:+ "-" +:+ str_of_int range.2.

(** [total_chunks] of [download_file]; [None] stands for
    [ZeroDivisionError]. *)
Definition total_chunks (available_size chunk_size : Z) : option Z :=
  if chunk_size =? 0 then None
  else Some ((available_size + chunk_size - 1) / chunk_size).

(** The [Range] header of the request for chunk [i], as
    [_download_and_cache_chunk] has it sent. *)
Definition chunk_request (self_chunk_size available_size i : Z) : string :=
  range_header (chunk_range self_chunk_size i None (Some available_size)).
End Downloader.

(** ** The shape of the store *)
Module Shape.
Import Models Storage.

(** A binding that sits under the key of its own id: an upload record
    under [upload:<file_id>], a file record under [file:<file_id>], or a
    lock. *)
Definition keyed (k : string) (v : stored) : Prop :=
  (exists u : TusUpload, k = _upload_key (file_id u) /\ v = SUpload u)
  \/ (exists f : FileInfo, k = _file_key (fi_file_id f) /\ v = SFile f)
  \/ (exists fid : string, k = _lock_key fid).

(** The bindings of [st'] are bindings of [st] or keyed. *)
Definition extends (st st' : State) : Prop :=
  forall (k : string) (v : stored),
    kv st' !! k = Some v -> kv st !! k = Some v \/ keyed k v.

(** A coroutine that adds nothing but keyed bindings to the store. *)
Definition keeps {A : Type} (m : M A) : Prop :=
  forall st : State, extends st (snd (m st)).
End Shape.

(** * Properties *)

Import PyStr Constants Models Storage Handler.

Example strip_ex : strip "  a b  " = "a b".
Proof. reflexivity. Qed.

Example split_ex : split "," "a,b,,c" = ["a"; "b"; ""; "c"].
Proof. reflexivity. Qed.

Example split1_ex : split1 " " "k v w" = ["k"; "v w"].
Proof. reflexivity. Qed.

Example replace_ex : replace "bytes=" "" "bytes=0-99" = "0-99".
Proof. reflexivity. Qed.

Example py_int_ex : py_int " -1_000 " = Some (-1000).
Proof. vm_compute. reflexivity. Qed.

Example py_int_bad : py_int "1__0" = None /\ py_int "12a" = None.
Proof. vm_compute. split; reflexivity. Qed.

Example str_of_int_ex : str_of_int (-42) = "-42".
Proof. vm_compute. reflexivity. Qed.

Example lower_ex : lower "ShA256" = "sha256".
Proof. reflexivity. Qed.

Example b64_ex :
  (Sample.b64_strict "dGVzdC50eHQ=" ≫= Sample.ascii_decode) = Some "test.txt".
Proof. vm_compute. reflexivity. Qed.

Example from_header_ex :
  @from_header Sample.externals "filename dGVzdC50eHQ=,retention dHRs"
  = Ok {| tm_filename := "test.txt"; tm_filetype := None;
          tm_checksum := None; tm_retention := Some "ttl";
          tm_retention_ttl := None |}.
Proof. vm_compute. reflexivity. Qed.

(** ** The monad *)

Lemma bind_ok {A B : Type} (m : M A) (f : A -> M B) (st st' : State) (a : A) :
  m st = (Ok a, st') -> (m ≫= f) st = f a st'.
Proof. intros H. unfold mbind, M_bind. rewrite H. reflexivity. Qed.

Lemma bind_raise {A B : Type} (m : M A) (f : A -> M B) (st st' : State)
    (e : exn) :
  m st = (Raise e, st') -> (m ≫= f) st = (Raise e, st').
Proof. intros H. unfold mbind, M_bind. rewrite H. reflexivity. Qed.

Lemma truthy_true (s : string) : s <> "" -> truthy s = true.
Proof. destruct s; [congruence | reflexivity]. Qed.


(** ** Version validation *)


Lemma validate_tus_version_pass (request : Request) (st : State) :
  (forall v, headers request !! TusHeaders.TUS_RESUMABLE = Some v ->
             v = "" \/ v = TUS_VERSION) ->
  validate_tus_version request st = (Ok tt, st).
Proof.
  intros H. unfold validate_tus_version.
  destruct (headers request !! TusHeaders.TUS_RESUMABLE) as [v|]; [|reflexivity].
  destruct (H v eq_refl) as [-> | ->]; reflexivity.
Qed.




(** ** Keys of the state store *)

Lemma upload_key_inj (a b : string) : _upload_key a = _upload_key b -> a = b.
Proof. unfold _upload_key. simpl. intros H. injection H. auto. Qed.

Lemma upload_key_ne_lock (a b : string) : _upload_key a <> _lock_key b.
Proof. unfold _upload_key, _lock_key. simpl. discriminate. Qed.

Lemma upload_key_ne_file (a b : string) : _upload_key a <> _file_key b.
Proof. unfold _upload_key, _file_key. simpl. discriminate. Qed.

Lemma file_key_ne_lock (a b : string) : _file_key a <> _lock_key b.
Proof. unfold _file_key, _lock_key. simpl. discriminate. Qed.

(** ** Writing a chunk *)

(** Whatever the body of the [try] block does, the [finally] clause leaves
    no lock behind. *)
Lemma try_finally_release {A : Type} (body : M A) (file_id : string)
    (st : State) :
  kv (snd (try_finally body (release_lock file_id) st)) !! _lock_key file_id
  = None.
Proof.
  unfold try_finally. destruct (body st) as [r st']. simpl.
  apply lookup_delete_eq.
Qed.

(** The [try] block touches the file of the upload only. *)
Lemma write_file_frame (env : Env) (file_id : string) (data : bytes)
    (off : Z) (st : State) :
  kv (snd (write_file env file_id data off st)) = kv st
  /\ files_dir (snd (write_file env file_id data off st)) = files_dir st.
Proof.
  unfold write_file, mbind, M_bind, get_state. simpl.
  destruct (uploads_dir st !! get_file_path file_id) as [content|];
    [|split; reflexivity].
  destruct (fault env) as [[| |n]|]; simpl;
    repeat match goal with
           | |- context [if ?b then _ else _] => destruct b; simpl
           end; split; reflexivity.
Qed.

(** The first attempt to take the lock succeeds exactly when no lock is
    stored. *)
Lemma acquire_lock_free (file_id : string) (st : State) :
  fst (acquire_lock file_id st) = Ok true
  <-> kv st !! _lock_key file_id = None.
Proof.
  unfold acquire_lock, state_set_nx.
  destruct (kv st !! _lock_key file_id); simpl; split; congruence.
Qed.

(** When the lock is held and stays held, [write_chunk] gives up and
    changes nothing. *)
Lemma write_chunk_lock_unavailable (env : Env) (file_id : string)
    (data : bytes) (off : Z) (st : State) :
  kv st !! _lock_key file_id <> None ->
  lock_freed_while_sleeping env = false ->
  write_chunk env file_id data off st
  = (Raise (RuntimeError "Could not acquire lock for write"), st).
Proof.
  intros Hheld Hstay.
  unfold write_chunk, acquire_lock, state_set_nx, sleep, mbind, M_bind.
  rewrite Hstay.
  destruct (kv st !! _lock_key file_id) eqn:E; [|congruence].
  simpl. rewrite E. reflexivity.
Qed.

(** C9. [write_chunk] never leaks the lock. Whenever the call takes the
    lock, at its first attempt or at the second one after sleeping, no lock
    is stored for the upload when the call ends, whether it returns or
    raises, and whatever failure of open, seek or write the environment
    injects. *)
Theorem write_chunk_releases_lock (env : Env) (file_id : string)
    (data : bytes) (off : Z) (st : State) :
  fst (acquire_lock file_id st) = Ok true
  \/ fst ((sleep env file_id;; acquire_lock file_id) st) = Ok true ->
  kv (snd (write_chunk env file_id data off st)) !! _lock_key file_id = None.
Proof.
  intros Hacq.
  unfold write_chunk, mbind, M_bind.
  destruct (acquire_lock file_id st) as [[[]|e] st1] eqn:E1; simpl.
  - apply try_finally_release.
  - destruct (sleep env file_id st1) as [[[]|e] st2] eqn:E2; simpl.
    + destruct (acquire_lock file_id st2) as [[[]|e] st3] eqn:E3; simpl.
      * apply try_finally_release.
      * exfalso. destruct Hacq as [H|H]; [discriminate H|].
        assert (st1 = st) as ->.
        { unfold acquire_lock, state_set_nx in E1.
          destruct (kv st !! _lock_key file_id); inversion E1; reflexivity. }
        unfold mbind, M_bind in H. rewrite E2, E3 in H. discriminate H.
      * exfalso. unfold acquire_lock, state_set_nx, state_set in E3.
        destruct (kv st2 !! _lock_key file_id); discriminate E3.
    + exfalso. unfold sleep, state_delete in E2.
      destruct (lock_freed_while_sleeping env); discriminate E2.
  - exfalso. unfold acquire_lock, state_set_nx, state_set in E1.
    destruct (kv st !! _lock_key file_id); discriminate E1.
Qed.

Lemma write_chunk_releases_lock_witness :
  let st := {| kv := {[ _lock_key "abc" := SLock ]};
               uploads_dir := {[ "abc" := [Byte.x61] ]};
               files_dir := ∅ |} in
  let env := {| now := 0; filename_uuid := ""; file_id_uuid := "";
                lock_freed_while_sleeping := true;
                fault := Some (FaultWrite 1) |} in
  kv (snd (write_chunk env "abc" [Byte.x62; Byte.x63] 1 st))
    !! _lock_key "abc" = None.
Proof.
  apply (write_chunk_releases_lock
           {| now := 0; filename_uuid := ""; file_id_uuid := "";
              lock_freed_while_sleeping := true;
              fault := Some (FaultWrite 1) |} "abc" [Byte.x62; Byte.x63] 1).
  right. vm_compute. reflexivity.
Defined.

(** With the lock free, [write_chunk] is the [try] block run on the same
    directories, and the state store ends as it began. *)
Lemma write_chunk_unlocked (env : Env) (file_id : string) (data : bytes)
    (off : Z) (st : State) :
  kv st !! _lock_key file_id = None ->
  write_chunk env file_id data off st
  = (fst (write_file env file_id data off st),
     {| kv := kv st;
        uploads_dir := uploads_dir (snd (write_file env file_id data off st));
        files_dir := files_dir st |}).
Proof.
  intros Hfree.
  unfold write_chunk, acquire_lock, state_set_nx, state_set, mbind, M_bind.
  rewrite Hfree. simpl.
  unfold try_finally, release_lock, state_delete, write_file, mbind, M_bind,
    get_state. simpl.
  destruct (uploads_dir st !! get_file_path file_id) as [content|]; simpl;
    [|rewrite (delete_insert_id _ _ _ Hfree); reflexivity].
  destruct (fault env) as [[| |n]|]; simpl;
    repeat match goal with
           | |- context [if ?b then _ else _] => destruct b; simpl
           end;
    rewrite (delete_insert_id _ _ _ Hfree); reflexivity.
Qed.

(** [write_chunk] leaves every key but the lock, and the files directory,
    as they were. *)
Lemma write_chunk_frame (env : Env) (file_id : string) (data : bytes)
    (off : Z) (st : State) (k : string) :
  k <> _lock_key file_id ->
  kv (snd (write_chunk env file_id data off st)) !! k = kv st !! k.
Proof.
  intros Hk.
  assert (Hfin : forall st1 : State,
             kv (snd (try_finally (write_file env file_id data off)
                        (release_lock file_id) st1)) !! k = kv st1 !! k).
  { intros st1. unfold try_finally.
    pose proof (write_file_frame env file_id data off st1) as [Hkv _].
    destruct (write_file env file_id data off st1) as [r st2]. simpl in *.
    rewrite lookup_delete_ne by congruence. rewrite Hkv. reflexivity. }
  unfold write_chunk, acquire_lock, state_set_nx, state_set, sleep,
    state_delete, mbind, M_bind.
  destruct (kv st !! _lock_key file_id) eqn:E; simpl.
  - destruct (lock_freed_while_sleeping env); simpl.
    + rewrite lookup_delete_eq. simpl. rewrite Hfin. simpl.
      rewrite lookup_insert_ne by congruence.
      rewrite lookup_delete_ne by congruence. reflexivity.
    + rewrite E. reflexivity.
  - rewrite Hfin. simpl. rewrite lookup_insert_ne by congruence. reflexivity.
Qed.

(** The exceptions of [write_chunk]. *)
Lemma write_chunk_raises (env : Env) (file_id : string) (data : bytes)
    (off : Z) (st : State) (e : exn) :
  fst (write_chunk env file_id data off st) = Raise e ->
  e = RuntimeError "Could not acquire lock for write"
  \/ e = FileNotFoundError "No such file or directory"
  \/ exists m, e = OSError m.
Proof.
  assert (Hfin : forall st1 : State,
             fst (try_finally (write_file env file_id data off)
                    (release_lock file_id) st1) = Raise e ->
             e = FileNotFoundError "No such file or directory"
             \/ exists m, e = OSError m).
  { intros st1. unfold try_finally, release_lock, state_delete, write_file,
      mbind, M_bind, get_state. simpl.
    destruct (uploads_dir st1 !! get_file_path file_id) as [content|]; simpl;
      [|intros [= <-]; left; reflexivity].
    destruct (fault env) as [[| |n]|]; simpl;
      repeat match goal with
             | |- context [if ?b then _ else _] => destruct b; simpl
             end;
      intros [= <-]; right; eexists; reflexivity. }
  unfold write_chunk, acquire_lock, state_set_nx, state_set, sleep,
    state_delete, mbind, M_bind.
  destruct (kv st !! _lock_key file_id) eqn:E; simpl.
  - destruct (lock_freed_while_sleeping env); simpl.
    + rewrite lookup_delete_eq. simpl. intros H. right. exact (Hfin _ H).
    + rewrite E. simpl. intros [= <-]. left. reflexivity.
  - intros H. right. exact (Hfin _ H).
Qed.

(** ** POST: creating an upload *)

(** Once the version and [Upload-Length] are accepted, [tus_create] is
    decided by the metadata. *)
Lemma tus_create_validated `{!Externals} (r : Router) (env : Env)
    (request : Request) (st : State) (ls : string) (n : Z) :
  validate_tus_version request st = (Ok tt, st) ->
  headers request !! TusHeaders.UPLOAD_LENGTH = Some ls ->
  ls <> "" ->
  py_int ls = Some n ->
  int_truthy (router_max_size r) && (default 0 (router_max_size r) <? n)
  = false ->
  tus_create r env request st
  = match create_metadata env request with
    | Raise (ValueError e) =>
        (Raise (HTTPException 400 ("Invalid Upload-Metadata: " +:+ e)), st)
    | Raise e => (Raise e, st)
    | Ok tus_metadata =>
        save_upload r env request
          (new_upload r env request n tus_metadata) st
    end.
Proof.
  intros Hver Hls Hne Hint Hmax.
  unfold tus_create. rewrite (bind_ok _ _ _ _ _ Hver).
  rewrite Hls. simpl. rewrite (truthy_true ls Hne). simpl.
  rewrite Hint, Hmax.
  destruct (create_metadata env request) as [tm|[]]; reflexivity.
Qed.

(** What [save_upload] leaves in the store: the record of the upload, with
    the offset either untouched or set to the length of the body of the POST
    when that body was written as the first chunk. *)
Lemma save_upload_record `{!Externals} (r : Router) (env : Env)
    (request : Request) (upload : TusUpload) (st : State) :
  exists u : TusUpload,
    kv (snd (save_upload r env request upload st))
      !! _upload_key (file_id upload) = Some (SUpload u)
    /\ filename u = filename upload
    /\ size u = size upload
    /\ is_final u = is_final upload
    /\ (offset u = offset upload
        \/ creation_with_upload r request = true
           /\ offset u = Z.of_nat (length (body request))).
Proof.
  unfold save_upload.
  set (st1 := snd (create_upload upload st)).
  assert (Hst1 : kv st1 !! _upload_key (file_id upload) = Some (SUpload upload)).
  { subst st1. unfold create_upload, state_set, set_uploads_dir, get_state,
      mbind, M_bind. simpl. apply lookup_insert_eq. }
  assert (Hc : create_upload upload st = (Ok tt, st1)).
  { subst st1. unfold create_upload, state_set, set_uploads_dir, get_state,
      mbind, M_bind. reflexivity. }
  rewrite (bind_ok _ _ _ _ _ Hc).
  destruct (creation_with_upload r request) eqn:Ecw.
  - unfold mbind at 1, M_bind at 1. unfold mbind at 1, M_bind at 1.
    pose proof (write_chunk_frame env (file_id upload) (body request) 0 st1
                  (_upload_key (file_id upload))
                  (upload_key_ne_lock _ _)) as Hfr.
    destruct (write_chunk env (file_id upload) (body request) 0 st1)
      as [[w|e] st2]; simpl in *.
    + eexists. split.
      * unfold update_upload, state_set, mbind, M_bind. simpl.
        apply lookup_insert_eq.
      * simpl. repeat split; try reflexivity. right. split; reflexivity.
    + exists upload. rewrite Hfr, Hst1. repeat split; try reflexivity.
      left. reflexivity.
  - unfold mbind, M_bind. simpl. exists upload.
    repeat split; try assumption; try reflexivity. left. reflexivity.
Qed.

(** The outcome of [save_upload]: 201, or an exception of [write_chunk]. *)
Lemma save_upload_outcome `{!Externals} (r : Router) (env : Env)
    (request : Request) (upload : TusUpload) (st : State) :
  (exists response : Response,
      fst (save_upload r env request upload st) = Ok response
      /\ status_code response = 201)
  \/ (exists e : exn,
         fst (save_upload r env request upload st) = Raise e
         /\ http_status (Raise e) = None).
Proof.
  unfold save_upload.
  assert (Hc : create_upload upload st
               = (Ok tt, snd (create_upload upload st))) by reflexivity.
  rewrite (bind_ok _ _ _ _ _ Hc).
  set (st1 := snd (create_upload upload st)).
  destruct (creation_with_upload r request).
  - pose proof (write_chunk_raises env (file_id upload) (body request) 0 st1)
      as Hr.
    destruct (write_chunk env (file_id upload) (body request) 0 st1)
      as [[w|e] st2] eqn:Ew; simpl in Hr.
    + left. erewrite bind_ok.
      2:{ erewrite bind_ok by exact Ew. reflexivity. }
      eexists. split; reflexivity.
    + right. erewrite bind_raise.
      2:{ erewrite bind_raise by exact Ew. reflexivity. }
      exists e. split; [reflexivity|].
      destruct (Hr e eq_refl) as [->|[->|[m ->]]]; reflexivity.
  - left. eexists. split; reflexivity.
Qed.

Lemma new_upload_fields (r : Router) (env : Env) (request : Request)
    (n : Z) (tm : TusMetadata) :
  file_id (new_upload r env request n tm) = file_id_uuid env
  /\ filename (new_upload r env request n tm) = tm_filename tm
  /\ size (new_upload r env request n tm) = n
  /\ offset (new_upload r env request n tm) = 0
  /\ is_final (new_upload r env request n tm) = false.
Proof.
  unfold new_upload.
  destruct (resolve_retention r request tm) as [ret ttl].
  repeat split; reflexivity.
Qed.

(** C5, as amended. A POST that passes version and [Upload-Length]
    validation and carries a non-empty [Upload-Metadata] header whose pairs
    do not include the key [filename] is refused with 400 and creates
    nothing. A POST with no [Upload-Metadata] header, or an empty one, is
    not refused for that: the upload is created under the generated name
    [upload_] followed by eight hex digits. *)
Theorem create_filename_rule `{!Externals} (r : Router) (env : Env)
    (request : Request) (st : State) (ls : string) (n : Z) :
  validate_tus_version request st = (Ok tt, st) ->
  headers request !! TusHeaders.UPLOAD_LENGTH = Some ls ->
  ls <> "" ->
  py_int ls = Some n ->
  int_truthy (router_max_size r) && (default 0 (router_max_size r) <? n)
  = false ->
  (forall h : string,
      headers request !! TusHeaders.UPLOAD_METADATA = Some h ->
      h <> "" ->
      parse_items h !! "filename" = None ->
      tus_create r env request st
      = (Raise (HTTPException 400
                  "Invalid Upload-Metadata: filename is required in metadata"),
         st))
  /\ (default "" (headers request !! TusHeaders.UPLOAD_METADATA) = "" ->
      http_status (fst (tus_create r env request st)) <> Some 400
      /\ exists u : TusUpload,
           kv (snd (tus_create r env request st))
             !! _upload_key (file_id_uuid env) = Some (SUpload u)
           /\ filename u = "upload_" +:+ first8 (filename_uuid env)).
Proof.
  intros Hver Hls Hne Hint Hmax.
  rewrite (tus_create_validated r env request st ls n Hver Hls Hne Hint Hmax).
  split.
  - intros h Hh Hhne Hnofile.
    unfold create_metadata, from_header. rewrite Hh. simpl.
    rewrite (truthy_true h Hhne). simpl. rewrite Hnofile. reflexivity.
  - intros Hnone. unfold create_metadata. rewrite Hnone. simpl.
    set (tm := {| tm_filename := "upload_" +:+ first8 (filename_uuid env);
                  tm_filetype := None; tm_checksum := None;
                  tm_retention := None; tm_retention_ttl := None |}).
    pose proof (new_upload_fields r env request n tm) as (Hid & Hfn & _).
    split.
    + destruct (save_upload_outcome r env request
                  (new_upload r env request n tm) st)
        as [(resp & -> & Hst) | (e & -> & He)]; simpl.
      * rewrite Hst. discriminate.
      * simpl in He. rewrite He. discriminate.
    + destruct (save_upload_record r env request
                  (new_upload r env request n tm) st)
        as (u & Hu & Hfu & _).
      exists u. rewrite <- Hid. split; [exact Hu|].
      rewrite Hfu, Hfn. reflexivity.
Qed.

Lemma create_filename_rule_witness :
  let request :=
    Sample.request [("Upload-Length", "10");
                    ("Upload-Metadata", "filetype dGV4dA==")] [] in
  @tus_create Sample.externals Sample.router (Sample.env 0) request
    Sample.empty_state
  = (Raise (HTTPException 400
              "Invalid Upload-Metadata: filename is required in metadata"),
     Sample.empty_state).
Proof.
  refine (proj1 (@create_filename_rule Sample.externals Sample.router
                   (Sample.env 0)
                   (Sample.request [("Upload-Length", "10");
                                    ("Upload-Metadata", "filetype dGV4dA==")]
                                   [])
                   Sample.empty_state "10" 10 _ _ _ _ _)
            "filetype dGV4dA==" _ _ _);
    try reflexivity; try discriminate.
Defined.

(** C5, counterexample. A POST with [Upload-Length: 10] and no
    [Upload-Metadata] header at all is answered 201, and the record is
    stored under a generated file name. *)
Lemma create_without_metadata_accepted :
  let request := Sample.request [("Upload-Length", "10")] [] in
  let out := @tus_create Sample.externals Sample.router (Sample.env 0)
               request Sample.empty_state in
  headers request !! TusHeaders.UPLOAD_METADATA = None
  /\ http_status (fst out) = Some 201
  /\ (exists u : TusUpload,
         fst (get_upload "f00df00df00df00df00df00df00df00d" (snd out))
         = Ok (Some u) /\ filename u = "upload_01234567").
Proof.
  repeat split; try reflexivity.
  eexists. split; vm_compute; reflexivity.
Qed.

(** A POST whose [Upload-Length] header is missing, empty or not an integer
    literal is refused with 400 and creates nothing. *)
Lemma upload_length_required `{!Externals} (r : Router) (env : Env)
    (request : Request) (st : State) :
  validate_tus_version request st = (Ok tt, st) ->
  otruthy (headers request !! TusHeaders.UPLOAD_LENGTH) = false
  \/ py_int (default "" (headers request !! TusHeaders.UPLOAD_LENGTH)) = None ->
  http_status (fst (tus_create r env request st)) = Some 400
  /\ snd (tus_create r env request st) = st.
Proof.
  intros Hver Hbad. unfold tus_create. rewrite (bind_ok _ _ _ _ _ Hver).
  destruct (otruthy (headers request !! TusHeaders.UPLOAD_LENGTH)) eqn:E;
    simpl; [|split; reflexivity].
  destruct Hbad as [Hbad|Hbad]; [discriminate Hbad|].
  rewrite Hbad. split; reflexivity.
Qed.

(** C6, the failing input. A POST with [Upload-Length: -5] is an integer
    literal for [int], no check on its sign follows, and the POST is
    answered 201: a record of size -5 is stored. *)
Theorem create_accepts_negative_length :
  let request := Sample.request [("Upload-Length", "-5")] [] in
  let out := @tus_create Sample.externals Sample.router (Sample.env 0)
               request Sample.empty_state in
  py_int "-5" = Some (-5)
  /\ http_status (fst out) = Some 201
  /\ (exists u : TusUpload,
         fst (get_upload "f00df00df00df00df00df00df00df00d" (snd out))
         = Ok (Some u) /\ size u = -5 /\ offset u = 0).
Proof.
  repeat split; try (vm_compute; reflexivity).
  eexists. repeat split; vm_compute; reflexivity.
Qed.

(** C1, the failing input. A creation-with-upload POST that declares
    [Upload-Length: 1] and carries a body of two bytes is answered 201 with
    [Upload-Offset: 2]: both bytes are written, and the stored record has
    offset 2 and size 1. *)
Theorem create_with_upload_exceeds_size :
  let request :=
    Sample.request [("Upload-Length", "1");
                    ("Content-Type", "application/offset+octet-stream")]
                   [Byte.x61; Byte.x62] in
  let out := @tus_create Sample.externals Sample.router (Sample.env 0)
               request Sample.empty_state in
  http_status (fst out) = Some 201
  /\ (exists response : Response,
         fst out = Ok response
         /\ resp_headers response !! TusHeaders.UPLOAD_OFFSET = Some "2")
  /\ uploads_dir (snd out) !! "f00df00df00df00df00df00df00df00d"
     = Some [Byte.x61; Byte.x62]
  /\ (exists u : TusUpload,
         fst (get_upload "f00df00df00df00df00df00df00df00d" (snd out))
         = Ok (Some u) /\ size u = 1 /\ offset u = 2 /\ size u < offset u).
Proof.
  repeat split; try (vm_compute; reflexivity).
  - eexists. split; vm_compute; reflexivity.
  - eexists. repeat split; vm_compute; reflexivity.
Qed.

(** ** Parsing [Upload-Metadata] *)





(** A POST whose file name is not base64 is created under the raw name. *)
Example create_with_raw_filename :
  let request :=
    Sample.request [("Upload-Length", "10");
                    ("Upload-Metadata", "filename not*base64!")] [] in
  let out := @tus_create Sample.externals Sample.router (Sample.env 0)
               request Sample.empty_state in
  http_status (fst out) = Some 201
  /\ exists u : TusUpload,
       fst (get_upload "f00df00df00df00df00df00df00df00d" (snd out))
       = Ok (Some u) /\ filename u = "not*base64!".
Proof.
  split; [vm_compute; reflexivity|].
  eexists. split; vm_compute; reflexivity.
Qed.

(** ** Downloads *)

Lemma split_no_sep (sep : ascii) (s : string) :
  contains sep s = false -> split sep s = [s].
Proof.
  induction s as [|c t IH]; simpl; [reflexivity|].
  destruct (Ascii.eqb c sep); simpl; [discriminate|].
  intros H. rewrite (IH H). reflexivity.
Qed.

Lemma replace_bytes_absent (s : string) :
  contains "b" s = false -> replace "bytes=" "" s = s.
Proof.
  unfold replace. induction s as [|c t IH]; [reflexivity|].
  cbn [contains]. intros H. apply orb_false_elim in H as [Hc Ht].
  cbn [replace_go String.prefix]. 
  destruct (ascii_dec "b" c) as [<-|Hne]; [discriminate Hc|].
  rewrite (IH Ht). reflexivity.
Qed.

(** The status of a download that is served: 206 exactly when the request
    has a [Range] header or the file is still partial. *)
Lemma download_status (file_id : string) (info : option Files.Info)
    (range_header : option string) (d : Files.Download) :
  Files.download_file file_id info range_header = Ok d ->
  exists i : Files.Info,
    info = Some i
    /\ Files.status_code d
       = if otruthy range_header
            || (Files.available_size i <? Files.size i)
         then 206 else 200.
Proof.
  unfold Files.download_file. destruct info as [i|]; [|discriminate].
  intros H. exists i. split; [reflexivity|].
  destruct (otruthy range_header) eqn:Er; simpl in *.
  - destruct (Files.parse_range _ _) as [[s e]|]; [|discriminate H].
    destruct (_ || _); [discriminate H|]. inversion H. reflexivity.
  - destruct (Files.available_size i <? Files.size i); inversion H; reflexivity.
Qed.






(** ** PATCH: writing a chunk *)

Lemma get_upload_stored (file_id : string) (st : State) (u : TusUpload) :
  kv st !! _upload_key file_id = Some (SUpload u) ->
  get_upload file_id st = (Ok (Some u), st).
Proof.
  intros H. unfold get_upload, state_get, mbind, M_bind. rewrite H.
  reflexivity.
Qed.

Lemma get_upload_absent (file_id : string) (st : State) :
  (forall u, kv st !! _upload_key file_id <> Some (SUpload u)) ->
  get_upload file_id st = (Ok None, st).
Proof.
  intros H. unfold get_upload, state_get, mbind, M_bind.
  destruct (kv st !! _upload_key file_id) as [[u| |]|] eqn:E;
    try reflexivity.
  exfalso. exact (H u eq_refl).
Qed.

(** Quota admission reads the state and leaves it alone. *)
Lemma check_quota_pure (cfg : Config) (n : Z) (st : State) :
  exists (allowed : bool) (usage : Usage),
    check_quota cfg n st = (Ok (allowed, usage), st).
Proof.
  unfold check_quota, get_storage_usage, get_state, mbind, M_bind.
  destruct (max_storage_size cfg) as [m|]; simpl;
    [destruct (m =? 0); simpl|]; eexists _, _; reflexivity.
Qed.

(** A PATCH that passes the checks on its headers and body goes on to quota
    admission with the stored record. *)
Lemma tus_patch_admitted `{!Externals} (r : Router) (env : Env)
    (file_id : string) (request : Request) (st : State) (u : TusUpload)
    (os : string) :
  validate_tus_version request st = (Ok tt, st) ->
  headers request !! TusHeaders.CONTENT_TYPE = Some CONTENT_TYPE_OFFSET ->
  kv st !! _upload_key file_id = Some (SUpload u) ->
  expired env u = false ->
  headers request !! TusHeaders.UPLOAD_OFFSET = Some os ->
  py_int os = Some (offset u) ->
  body request <> [] ->
  tus_patch r env file_id request st
  = admit_chunk r env file_id request u (offset u) (body request) st.
Proof.
  intros Hver Hct Hu Hexp Hos Hint Hbody.
  unfold tus_patch. rewrite (bind_ok _ _ _ _ _ Hver).
  rewrite Hct. rewrite bool_decide_eq_true_2 by reflexivity. simpl.
  rewrite (bind_ok _ _ _ _ _ (get_upload_stored file_id st u Hu)).
  rewrite Hexp, Hos. simpl.
  assert (truthy os = true) as ->.
  { destruct os; [discriminate Hint | reflexivity]. }
  simpl. rewrite Hint. rewrite Z.eqb_refl. simpl.
  rewrite bool_decide_eq_false_2 by exact Hbody. reflexivity.
Qed.

Lemma split1_app (sep : ascii) (a b : string) :
  contains sep a = false -> split1 sep (a +:+ String sep b) = [a; b].
Proof.
  induction a as [|c t IH]; simpl.
  - intros _. rewrite Ascii.eqb_refl. reflexivity.
  - destruct (Ascii.eqb c sep); simpl; [discriminate|].
    intros H. rewrite (IH H). reflexivity.
Qed.

Lemma lower_char_idemp (c : ascii) : lower_char (lower_char c) = lower_char c.
Proof. destruct c as [[] [] [] [] [] [] [] []]; reflexivity. Qed.

Lemma lower_idemp (s : string) : lower (lower s) = lower s.
Proof.
  induction s as [|c t IH]; simpl; [reflexivity|].
  rewrite lower_char_idemp, IH. reflexivity.
Qed.

(** The digest is chosen by the lower-cased tag alone. *)
Lemma checksum_digest_lower `{!Externals} (algo algo' : string) (d : bytes) :
  lower algo' = lower algo ->
  checksum_digest algo' d = checksum_digest algo d.
Proof. intros Heq. unfold checksum_digest. rewrite Heq. reflexivity. Qed.

Lemma checksum_digest_supported `{!Externals} (algo : string) (d : bytes) :
  is_Some (checksum_digest algo d)
  <-> lower algo = "sha1" \/ lower algo = "sha256" \/ lower algo = "md5".
Proof.
  unfold checksum_digest.
  destruct (String.eqb_spec (lower algo) "sha256") as [->|H256].
  { split; [intros _; right; left; reflexivity | intros _; eexists; reflexivity]. }
  destruct (String.eqb_spec (lower algo) "sha1") as [->|H1].
  { split; [intros _; left; reflexivity | intros _; eexists; reflexivity]. }
  destruct (String.eqb_spec (lower algo) "md5") as [->|H5].
  { split; [intros _; right; right; reflexivity | intros _; eexists; reflexivity]. }
  split.
  - intros [x Hx]. discriminate Hx.
  - intros [Heq|[Heq|Heq]]; congruence.
Qed.

(** C7. In a PATCH that reaches checksum validation (its headers and body
    are accepted, quota admits the chunk and the chunk fits), with a header
    [Upload-Checksum: <algo> <hex>]: the tag is matched through its
    lower-case form against sha1, sha256 and md5; a digest that differs from
    [<hex>] gives 460 and an unsupported tag gives 400, and in both cases
    the state, hence the offset of the record and the file on disk, is
    unchanged. *)
Theorem checksum_validation `{!Externals} (r : Router) (env : Env)
    (file_id : string) (request : Request) (st : State) (u : TusUpload)
    (os algo expected : string) (usage : Usage) :
  validate_tus_version request st = (Ok tt, st) ->
  headers request !! TusHeaders.CONTENT_TYPE = Some CONTENT_TYPE_OFFSET ->
  kv st !! _upload_key file_id = Some (SUpload u) ->
  expired env u = false ->
  headers request !! TusHeaders.UPLOAD_OFFSET = Some os ->
  py_int os = Some (offset u) ->
  body request <> [] ->
  check_quota (storage r) (Z.of_nat (length (body request))) st
  = (Ok (true, usage), st) ->
  offset u + Z.of_nat (length (body request)) <= size u ->
  headers request !! TusHeaders.UPLOAD_CHECKSUM
  = Some (algo +:+ " " +:+ expected) ->
  contains " " algo = false ->
  (forall algo' : string,
      lower algo' = lower algo ->
      checksum_digest algo' (body request)
      = checksum_digest algo (body request))
  /\ (is_Some (checksum_digest algo (body request))
      <-> lower algo = "sha1" \/ lower algo = "sha256" \/ lower algo = "md5")
  /\ (forall actual : string,
         checksum_digest algo (body request) = Some actual ->
         actual <> expected ->
         tus_patch r env file_id request st
         = (Raise (HTTPException 460 "Checksum mismatch"), st))
  /\ (checksum_digest algo (body request) = None ->
      tus_patch r env file_id request st
      = (Raise (HTTPException 400
                  ("Unsupported checksum algorithm: " +:+ algo)), st)).
Proof.
  intros Hver Hct Hu Hexp Hos Hint Hbody Hquota Hfit Hsum Hsp.
  split; [intros algo'; apply checksum_digest_lower|].
  split; [apply checksum_digest_supported|].
  rewrite (tus_patch_admitted r env file_id request st u os
             Hver Hct Hu Hexp Hos Hint Hbody).
  unfold admit_chunk. rewrite (bind_ok _ _ _ _ _ Hquota). simpl.
  assert ((size u <? offset u + Z.of_nat (length (body request))) = false)
    as -> by lia.
  assert (Hval : forall st0,
             validate_checksum request (body request) st0
             = match checksum_digest algo (body request) with
               | Some actual =>
                   if negb (String.eqb actual expected)
                   then (Raise (HTTPException 460 "Checksum mismatch"), st0)
                   else (Ok tt, st0)
               | None =>
                   (Raise (HTTPException 400
                             ("Unsupported checksum algorithm: " +:+ algo)),
                    st0)
               end).
  { intros st0. unfold validate_checksum. rewrite Hsum.
    assert (truthy (algo +:+ " " +:+ expected) = true) as ->.
    { destruct algo; reflexivity. }
    cbv iota beta. change (negb true) with false. cbv iota.
    change (algo +:+ " " +:+ expected) with (algo +:+ String " " expected).
    rewrite (split1_app " " algo expected Hsp).
    destruct (checksum_digest algo (body request)); [|reflexivity].
    destruct (negb _); reflexivity. }
  split.
  - intros actual Hd Hne. apply bind_raise. rewrite Hval, Hd.
    destruct (String.eqb_spec actual expected); [contradiction|reflexivity].
  - intros Hd. apply bind_raise. rewrite Hval, Hd. reflexivity.
Qed.

Lemma checksum_validation_witness :
  let request :=
    Sample.patch_request "0" [("Upload-Checksum", "SHA256 deadbeef")]
      [Byte.x61; Byte.x62] in
  @tus_patch Sample.externals Sample.router (Sample.env 1) Sample.file_id
    request (Sample.created "3")
  = (Raise (HTTPException 460 "Checksum mismatch"), Sample.created "3").
Proof.
  refine (proj1 (proj2 (proj2
            (@checksum_validation Sample.externals Sample.router
               (Sample.env 1) Sample.file_id
               (Sample.patch_request "0"
                  [("Upload-Checksum", "SHA256 deadbeef")]
                  [Byte.x61; Byte.x62])
               (Sample.created "3") _ "0" "SHA256" "deadbeef" _
               _ _ _ _ _ _ _ _ _ _ _))) "sha256:2" _ _);
    try (vm_compute; reflexivity); try discriminate.
Defined.

Example checksum_unknown_algorithm :
  @tus_patch Sample.externals Sample.router (Sample.env 1) Sample.file_id
    (Sample.patch_request "0" [("Upload-Checksum", "crc32 deadbeef")]
       [Byte.x61; Byte.x62])
    (Sample.created "3")
  = (Raise (HTTPException 400 "Unsupported checksum algorithm: crc32"),
     Sample.created "3").
Proof. vm_compute. reflexivity. Qed.

(** With the lock free, the file in place and no failure of the file
    system, [write_chunk] writes the whole chunk and returns its length. *)
Lemma write_chunk_ok (env : Env) (file_id : string) (data : bytes) (off : Z)
    (st : State) (content : bytes) :
  fault env = None ->
  kv st !! _lock_key file_id = None ->
  uploads_dir st !! get_file_path file_id = Some content ->
  content = [] \/ 0 <= off ->
  write_chunk env file_id data off st
  = (Ok (Z.of_nat (length data)),
     {| kv := kv st;
        uploads_dir :=
          <[get_file_path file_id :=
              if (0 <? length content)%nat
              then write_at content (Z.to_nat off) data
              else (content ++ data)%list]> (uploads_dir st);
        files_dir := files_dir st |}).
Proof.
  intros Hfault Hfree Hfile Hoff.
  rewrite (write_chunk_unlocked env file_id data off st Hfree).
  unfold write_file, mbind, M_bind, get_state. simpl.
  rewrite Hfile, Hfault.
  assert (((0 <? length content)%nat && (off <? 0)) = false) as ->.
  { destruct Hoff as [->|Hoff]; [reflexivity|].
    apply andb_false_intro2. lia. }
  reflexivity.
Qed.


Lemma validate_tus_version_state (request : Request) (st st' : State) :
  validate_tus_version request st = (Ok tt, st) ->
  validate_tus_version request st' = (Ok tt, st').
Proof.
  unfold validate_tus_version.
  destruct (headers request !! TusHeaders.TUS_RESUMABLE) as [v|];
    [|reflexivity].
  destruct (truthy v && negb (String.eqb v TUS_VERSION));
    [discriminate | reflexivity].
Qed.


Lemma validate_tus_version_cases (request : Request) (st : State) :
  validate_tus_version request st = (Ok tt, st)
  \/ validate_tus_version request st = (Raise TusErrors.invalid_version, st).
Proof.
  unfold validate_tus_version.
  destruct (headers request !! TusHeaders.TUS_RESUMABLE) as [v|];
    [|left; reflexivity].
  destruct (truthy v && negb (String.eqb v TUS_VERSION));
    [right | left]; reflexivity.
Qed.

Lemma delete_upload_returns (fid : string) (st : State) :
  delete_upload fid st = (Ok tt, snd (delete_upload fid st)).
Proof.
  unfold delete_upload, get_upload, state_get, state_delete, get_state,
    set_uploads_dir, set_files_dir, release_lock, state_delete, mbind, M_bind.
  simpl.
  destruct (kv st !! _upload_key fid) as [[u| |]|]; simpl;
    try reflexivity.
  destruct (truthy (filename u)); reflexivity.
Qed.








(** ** The offset discipline of PATCH *)


Lemma write_chunk_files_dir (env : Env) (file_id : string) (data : bytes)
    (off : Z) (st : State) :
  files_dir (snd (write_chunk env file_id data off st)) = files_dir st.
Proof.
  assert (Hfin : forall st1 : State,
             files_dir (snd (try_finally (write_file env file_id data off)
                               (release_lock file_id) st1)) = files_dir st1).
  { intros st1. unfold try_finally.
    pose proof (write_file_frame env file_id data off st1) as [_ Hf].
    destruct (write_file env file_id data off st1) as [r st2]. exact Hf. }
  unfold write_chunk, acquire_lock, state_set_nx, state_set, sleep,
    state_delete, mbind, M_bind.
  destruct (kv st !! _lock_key file_id) eqn:E; simpl.
  - destruct (lock_freed_while_sleeping env); simpl.
    + rewrite lookup_delete_eq. simpl. rewrite Hfin. reflexivity.
    + rewrite E. reflexivity.
  - rewrite Hfin. reflexivity.
Qed.





(** ** Scenarios *)

(** An upload of five bytes sent in chunks of two, two and one byte: each
    PATCH is answered 204 with the new offset, and the last one moves the
    file to the files directory. *)
Example three_chunk_upload :
  let patch t off b st :=
    @tus_patch Sample.externals Sample.router (Sample.env t) Sample.file_id
      (Sample.patch_request off [] b) st in
  let st0 := Sample.created "5" in
  let o1 := patch 1 "0" [Byte.x61; Byte.x62] st0 in
  let o2 := patch 2 "2" [Byte.x63; Byte.x64] (snd o1) in
  let o3 := patch 3 "4" [Byte.x65] (snd o2) in
  let offset_header (o : res Response * State) :=
    match fst o with
    | Ok response => resp_headers response !! TusHeaders.UPLOAD_OFFSET
    | Raise _ => None
    end in
  (http_status (fst o1), offset_header o1) = (Some 204, Some "2")
  /\ (http_status (fst o2), offset_header o2) = (Some 204, Some "4")
  /\ (http_status (fst o3), offset_header o3) = (Some 204, Some "5")
  /\ files_dir (snd o3) !! get_final_path Sample.file_id "upload_01234567"
     = Some [Byte.x61; Byte.x62; Byte.x63; Byte.x64; Byte.x65]
  /\ uploads_dir (snd o3) !! get_file_path Sample.file_id = None.
Proof. repeat split; vm_compute; reflexivity. Qed.

(** A PATCH sent twice: the second one is answered 409 and changes
    nothing. *)
Example offset_conflict :
  let request := Sample.patch_request "0" [] [Byte.x61; Byte.x62] in
  let st1 := Sample.patched "5" [Byte.x61; Byte.x62] in
  let o := @tus_patch Sample.externals Sample.router (Sample.env 2)
             Sample.file_id request st1 in
  http_status (fst o) = Some 409 /\ snd o = st1.
Proof. split; vm_compute; reflexivity. Qed.

(** HEAD reports the offset that the PATCH answered, and after the
    expiration deletes the upload with 410. *)
Example head_after_patch :
  let st1 := Sample.patched "5" [Byte.x61; Byte.x62] in
  let head t :=
    @tus_head Sample.externals Sample.router (Sample.env t) Sample.file_id
      (Sample.request [] []) st1 in
  (exists response : Response,
      fst (head 2) = Ok response
      /\ status_code response = 200
      /\ resp_headers response !! TusHeaders.UPLOAD_OFFSET = Some "2"
      /\ resp_headers response !! TusHeaders.UPLOAD_LENGTH = Some "5")
  /\ http_status (fst (head 86401)) = Some 410
  /\ snd (head 86401) = Sample.empty_state.
Proof.
  split; [eexists; repeat split; vm_compute; reflexivity|].
  split; vm_compute; reflexivity.
Qed.

(** DELETE answers 204, and 404 when repeated. *)
Example delete_twice :
  let delete st :=
    tus_delete Sample.router Sample.file_id (Sample.request [] []) st in
  let o1 := delete (Sample.created "5") in
  http_status (fst o1) = Some 204
  /\ snd o1 = Sample.empty_state
  /\ http_status (fst (delete (snd o1))) = Some 404.
Proof. repeat split; vm_compute; reflexivity. Qed.

(** A write that fails after one byte leaves that byte on disk, releases
    the lock and raises. *)
Example write_fault :
  let env := {| now := 1; filename_uuid := ""; file_id_uuid := "";
                lock_freed_while_sleeping := false;
                fault := Some (FaultWrite 1) |} in
  let o := write_chunk env Sample.file_id [Byte.x61; Byte.x62] 0
             (Sample.created "5") in
  fst o = Raise (OSError "write")
  /\ uploads_dir (snd o) !! get_file_path Sample.file_id = Some [Byte.x61]
  /\ kv (snd o) = kv (Sample.created "5").
Proof. repeat split; vm_compute; reflexivity. Qed.

(** A range header built from the decimal rendering of the size. *)
Example range_of_rendered_size :
  let s := str_of_int (100 - 1) in
  contains "b" s = false /\ contains "-" s = false /\ py_int s = Some 99.
Proof. repeat split; vm_compute; reflexivity. Qed.

(** * Further properties of the handlers and the storage *)

(** ** HEAD and DELETE *)

Lemma delete_upload_kv (fid : string) (st : State) (k : string) :
  kv (snd (delete_upload fid st)) !! k
  = if bool_decide (k = _upload_key fid \/ k = _file_key fid
                    \/ k = _lock_key fid)
    then None else kv st !! k.
Proof.
  assert (Hkv : kv (snd (delete_upload fid st))
                = delete (_lock_key fid)
                    (delete (_file_key fid)
                       (delete (_upload_key fid) (kv st)))).
  { unfold delete_upload, get_upload, state_get, state_delete, get_state,
      set_uploads_dir, set_files_dir, release_lock, state_delete, mbind,
      M_bind. simpl.
    destruct (kv st !! _upload_key fid) as [[u| |]|]; simpl;
      try reflexivity.
    destruct (truthy (filename u)); reflexivity. }
  rewrite Hkv. case_bool_decide as Hk.
  - destruct Hk as [->|[->| ->]].
    + rewrite lookup_delete_ne
        by (intros E; symmetry in E; exact (upload_key_ne_lock _ _ E)).
      rewrite lookup_delete_ne
        by (intros E; symmetry in E; exact (upload_key_ne_file _ _ E)).
      apply lookup_delete_eq.
    + rewrite lookup_delete_ne
        by (intros E; symmetry in E; exact (file_key_ne_lock _ _ E)).
      apply lookup_delete_eq.
    + apply lookup_delete_eq.
  - rewrite !lookup_delete_ne by (intros E; apply Hk; auto).
    reflexivity.
Qed.

Lemma delete_upload_dirs (fid : string) (st : State) (name : string) :
  uploads_dir (snd (delete_upload fid st)) !! name
  = (if bool_decide (name = get_file_path fid) then None
     else uploads_dir st !! name)
  /\ files_dir (snd (delete_upload fid st)) !! name
     = (if String.prefix fid name then None else files_dir st !! name).
Proof.
  unfold delete_upload, get_upload, state_get, state_delete, get_state,
    set_uploads_dir, set_files_dir, release_lock, state_delete, mbind,
    M_bind. simpl.
  assert (Hfilter : forall d : gmap string bytes,
             (forall n, String.prefix fid n = false ->
                        d !! n = files_dir st !! n) ->
             filter (fun p : string * bytes =>
                       ¬ Is_true (String.prefix fid p.1)) d !! name
             = if String.prefix fid name then None
               else files_dir st !! name).
  { intros d Hd. destruct (String.prefix fid name) eqn:Ep.
    - apply map_lookup_filter_None. right. intros c _ Hn. simpl in Hn.
      apply Hn. rewrite Ep. exact I.
    - rewrite <- (Hd name Ep).
      destruct (d !! name) as [c|] eqn:Ed.
      + apply map_lookup_filter_Some. split; [exact Ed|]. simpl.
        rewrite Ep. intros [].
      + apply map_lookup_filter_None. left. exact Ed. }
  assert (Hup : forall d : gmap string bytes,
             delete (get_file_path fid) d !! name
             = if bool_decide (name = get_file_path fid) then None
               else d !! name).
  { intros d. case_bool_decide as Hn.
    - subst name. apply lookup_delete_eq.
    - apply lookup_delete_ne. congruence. }
  destruct (kv st !! _upload_key fid) as [[u| |]|]; simpl;
    try (split; [apply Hup | apply Hfilter; reflexivity]).
  destruct (truthy (filename u)); simpl;
    (split; [apply Hup | apply Hfilter]); [|reflexivity].
  intros n Hn. apply lookup_delete_ne. intros <-.
  unfold get_final_path in Hn.
  assert (Hp : forall a b : string, String.prefix a (a +:+ b) = true).
  { intros a b. induction a as [|c a IH]; simpl.
    - destruct b; reflexivity.
    - destruct (ascii_dec c c); [exact IH | congruence]. }
  rewrite Hp in Hn. discriminate Hn.
Qed.




(** DELETE of a stored upload answers 204 and removes it; the same DELETE
    sent again answers 404 and changes nothing. *)
Theorem delete_then_not_found (r : Router) (fid : string)
    (request : Request) (st : State) (u : TusUpload) :
  validate_tus_version request st = (Ok tt, st) ->
  kv st !! _upload_key fid = Some (SUpload u) ->
  exists (response : Response) (st' : State),
    tus_delete r fid request st = (Ok response, st')
    /\ status_code response = 204
    /\ st' = snd (delete_upload fid st)
    /\ tus_delete r fid request st'
       = (Raise (HTTPException 404 "Upload not found"), st').
Proof.
  intros Hver Hu.
  exists {| status_code := 204; resp_headers := get_tus_headers;
            content := "" |}, (snd (delete_upload fid st)).
  split.
  { unfold tus_delete. rewrite (bind_ok _ _ _ _ _ Hver).
    rewrite (bind_ok _ _ _ _ _ (get_upload_stored fid st u Hu)).
    rewrite (bind_ok _ _ _ _ _ (delete_upload_returns fid st)).
    reflexivity. }
  split; [reflexivity|]. split; [reflexivity|].
  unfold tus_delete.
  rewrite (bind_ok _ _ _ _ _
             (validate_tus_version_state request st _ Hver)).
  assert (Hgone : forall u' : TusUpload,
             kv (snd (delete_upload fid st)) !! _upload_key fid
             <> Some (SUpload u')).
  { intros u'. rewrite delete_upload_kv.
    rewrite bool_decide_eq_true_2 by auto. discriminate. }
  rewrite (bind_ok _ _ _ _ _ (get_upload_absent fid _ Hgone)). reflexivity.
Qed.

Lemma delete_then_not_found_witness :
  exists (response : Response) (st' : State),
    tus_delete Sample.router Sample.file_id (Sample.request [] [])
      (Sample.created "5") = (Ok response, st')
    /\ status_code response = 204
    /\ st' = snd (delete_upload Sample.file_id (Sample.created "5"))
    /\ tus_delete Sample.router Sample.file_id (Sample.request [] []) st'
       = (Raise (HTTPException 404 "Upload not found"), st').
Proof.
  refine (delete_then_not_found Sample.router Sample.file_id
            (Sample.request [] []) (Sample.created "5") _ _ _).
  - reflexivity.
  - vm_compute. reflexivity.
Defined.

(** HEAD on a stored upload that has not expired answers 200 with the
    offset and the size of the record and [Cache-Control: no-store], and
    leaves the state alone; on an expired upload it deletes the upload and
    answers 410; on an unknown id it answers 404. *)
Theorem head_outcomes `{!Externals} (r : Router) (env : Env) (fid : string)
    (request : Request) (st : State) :
  validate_tus_version request st = (Ok tt, st) ->
  (forall u : TusUpload,
      kv st !! _upload_key fid = Some (SUpload u) ->
      expired env u = false ->
      exists response : Response,
        tus_head r env fid request st = (Ok response, st)
        /\ status_code response = 200
        /\ resp_headers response !! TusHeaders.UPLOAD_OFFSET
           = Some (str_of_int (offset u))
        /\ resp_headers response !! TusHeaders.UPLOAD_LENGTH
           = Some (str_of_int (size u))
        /\ resp_headers response !! "Cache-Control" = Some "no-store")
  /\ (forall u : TusUpload,
         kv st !! _upload_key fid = Some (SUpload u) ->
         expired env u = true ->
         tus_head r env fid request st
         = (Raise (HTTPException 410 "Upload has expired"),
            snd (delete_upload fid st)))
  /\ ((forall u : TusUpload,
          kv st !! _upload_key fid <> Some (SUpload u)) ->
      tus_head r env fid request st
      = (Raise (HTTPException 404 "Upload not found"), st)).
Proof.
  intros Hver. unfold tus_head. rewrite (bind_ok _ _ _ _ _ Hver).
  split; [|split].
  - intros u Hu Hexp.
    rewrite (bind_ok _ _ _ _ _ (get_upload_stored fid st u Hu)).
    rewrite Hexp. eexists. split; [reflexivity|]. simpl.
    split; [reflexivity|].
    unfold with_expires. destruct (expires_at u); simpl;
      repeat split;
      repeat (rewrite lookup_insert_ne by discriminate);
      apply lookup_insert_eq.
  - intros u Hu Hexp.
    rewrite (bind_ok _ _ _ _ _ (get_upload_stored fid st u Hu)).
    rewrite Hexp.
    rewrite (bind_ok _ _ _ _ _ (delete_upload_returns fid st)). reflexivity.
  - intros Hno.
    rewrite (bind_ok _ _ _ _ _ (get_upload_absent fid st Hno)). reflexivity.
Qed.

Lemma head_outcomes_witness :
  exists response : Response,
    @tus_head Sample.externals Sample.router (Sample.env 2) Sample.file_id
      (Sample.request [] []) (Sample.patched "5" [Byte.x61; Byte.x62])
    = (Ok response, Sample.patched "5" [Byte.x61; Byte.x62])
    /\ status_code response = 200
    /\ resp_headers response !! TusHeaders.UPLOAD_OFFSET = Some "2".
Proof.
  destruct (proj1 (@head_outcomes Sample.externals Sample.router
                     (Sample.env 2) Sample.file_id (Sample.request [] [])
                     (Sample.patched "5" [Byte.x61; Byte.x62]) eq_refl)
              _ ltac:(vm_compute; reflexivity) eq_refl)
    as (response & Hhead & Hstatus & Hoff & _).
  exists response. repeat split; assumption.
Defined.

(** [finalize_upload] raises [ValueError] only. *)
Lemma finalize_upload_raises (env : Env) (fid : string) (st : State)
    (e : exn) :
  fst (finalize_upload env fid st) = Raise e ->
  exists m : string, e = ValueError m.
Proof.
  unfold finalize_upload.
  assert (Hget : (exists u, kv st !! _upload_key fid = Some (SUpload u))
                 \/ forall u, kv st !! _upload_key fid <> Some (SUpload u)).
  { destruct (kv st !! _upload_key fid) as [[u| |]|];
      [left; exists u; reflexivity | right; discriminate..]. }
  destruct Hget as [[u Hu]|Hno].
  2:{ rewrite (bind_ok _ _ _ _ _ (get_upload_absent fid st Hno)).
      intros [= <-]. eexists. reflexivity. }
  rewrite (bind_ok _ _ _ _ _ (get_upload_stored fid st u Hu)).
  destruct (is_complete u); simpl.
  2:{ intros [= <-]. eexists. reflexivity. }
  unfold mbind, M_bind, get_state, set_uploads_dir, set_files_dir,
    update_upload, state_set. simpl.
  destruct (uploads_dir st !! get_file_path fid); simpl;
    (destruct (retention_ttl u) as [ttl|]; simpl;
     [destruct (String.eqb (retention u) "ttl" && negb (ttl =? 0)); simpl|]);
    discriminate.
Qed.

(** ** What a PATCH that is refused leaves behind *)

(** Whenever PATCH decides the status of the response itself and that
    status is neither 204 nor 410, the state is exactly as before: no
    record, lock or file has changed. *)
Theorem patch_refusal_changes_nothing `{!Externals} (r : Router)
    (env : Env) (fid : string) (request : Request) (st : State) (c : Z) :
  http_status (fst (tus_patch r env fid request st)) = Some c ->
  c <> 204 -> c <> 410 ->
  snd (tus_patch r env fid request st) = st.
Proof.
  unfold tus_patch.
  destruct (validate_tus_version_cases request st) as [Hv|Hv].
  2:{ rewrite (bind_raise _ _ _ _ _ Hv). reflexivity. }
  rewrite (bind_ok _ _ _ _ _ Hv).
  destruct (bool_decide (headers request !! TusHeaders.CONTENT_TYPE
                         = Some CONTENT_TYPE_OFFSET)); simpl;
    [|reflexivity].
  assert (Hget : (exists u, kv st !! _upload_key fid = Some (SUpload u))
                 \/ forall u, kv st !! _upload_key fid <> Some (SUpload u)).
  { destruct (kv st !! _upload_key fid) as [[u| |]|];
      [left; exists u; reflexivity | right; discriminate..]. }
  destruct Hget as [[u Hu]|Hno].
  2:{ rewrite (bind_ok _ _ _ _ _ (get_upload_absent fid st Hno)).
      reflexivity. }
  rewrite (bind_ok _ _ _ _ _ (get_upload_stored fid st u Hu)).
  destruct (expired env u).
  { rewrite (bind_ok _ _ _ _ _ (delete_upload_returns fid st)). simpl.
    intros [= <-] _ Hc. exfalso. apply Hc. reflexivity. }
  destruct (otruthy (headers request !! TusHeaders.UPLOAD_OFFSET)); simpl;
    [|reflexivity].
  destruct (py_int (default "" (headers request !! TusHeaders.UPLOAD_OFFSET)))
    as [off|]; simpl; [|reflexivity].
  destruct (Z.eqb_spec off (offset u)) as [->|Hne]; simpl; [|reflexivity].
  destruct (bool_decide (body request = [])); simpl; [reflexivity|].
  unfold admit_chunk.
  destruct (check_quota_pure (storage r)
              (Z.of_nat (length (body request))) st)
    as (allowed & usage & Hq).
  rewrite (bind_ok _ _ _ _ _ Hq).
  destruct allowed; [|reflexivity].
  change (negb true) with false. cbv iota.
  destruct (size u <? offset u + Z.of_nat (length (body request)));
    [reflexivity|].
  assert (Hval : validate_checksum request (body request) st
                 = (Ok tt, st)
                 \/ exists e, validate_checksum request (body request) st
                              = (Raise e, st)).
  { unfold validate_checksum.
    destruct (headers request !! TusHeaders.UPLOAD_CHECKSUM) as [h|];
      [|left; reflexivity].
    destruct (truthy h); simpl; [|left; reflexivity].
    destruct (split1 " " h) as [|a [|b [|c' l]]];
      try (right; eexists; reflexivity).
    destruct (checksum_digest a (body request));
      [|right; eexists; reflexivity].
    destruct (negb _); [right; eexists|left]; reflexivity. }
  destruct Hval as [Hok|[e He]].
  2:{ rewrite (bind_raise _ _ _ _ _ He). reflexivity. }
  rewrite (bind_ok _ _ _ _ _ Hok).
  unfold store_chunk.
  pose proof (write_chunk_raises env fid (body request) (offset u) st) as Hr.
  destruct (write_chunk env fid (body request) (offset u) st)
    as [[w|e] st1] eqn:Ew; simpl in Hr.
  2:{ rewrite (bind_raise _ _ _ _ _ Ew). simpl.
      destruct (Hr e eq_refl) as [->|[->|[m ->]]]; discriminate. }
  rewrite (bind_ok _ _ _ _ _ Ew).
  set (new_offset := offset u + Z.of_nat (length (body request))).
  set (u1 := with_updated_at (now env) (with_offset new_offset u)).
  set (u2 := if size u1 <=? new_offset then with_is_final true u1 else u1).
  assert (Hupd : update_upload env u2 st1
                 = (Ok tt, snd (update_upload env u2 st1))) by reflexivity.
  rewrite (bind_ok _ _ _ _ _ Hupd).
  destruct (is_final u2).
  - destruct (finalize_upload env fid (snd (update_upload env u2 st1)))
      as [[[]|e] st3] eqn:Ef.
    + rewrite (bind_ok _ _ _ _ _ Ef). simpl.
      intros [= <-] Hc. exfalso. apply Hc. reflexivity.
    + rewrite (bind_raise _ _ _ _ _ Ef).
      destruct (finalize_upload_raises env fid
                  (snd (update_upload env u2 st1)) e) as [m ->];
        [rewrite Ef; reflexivity | discriminate].
  - simpl. intros [= <-] Hc. exfalso. apply Hc. reflexivity.
Qed.

Lemma patch_refusal_changes_nothing_witness :
  snd (@tus_patch Sample.externals Sample.router (Sample.env 2)
         Sample.file_id (Sample.patch_request "0" [] [Byte.x61; Byte.x62])
         (Sample.patched "5" [Byte.x61; Byte.x62]))
  = Sample.patched "5" [Byte.x61; Byte.x62].
Proof.
  apply (@patch_refusal_changes_nothing Sample.externals Sample.router
           (Sample.env 2) Sample.file_id
           (Sample.patch_request "0" [] [Byte.x61; Byte.x62])
           (Sample.patched "5" [Byte.x61; Byte.x62]) 409).
  - vm_compute. reflexivity.
  - discriminate.
  - discriminate.
Defined.


(** ** Finalization *)






(** [finalize_upload] refuses an unknown upload and an incomplete one with
    a [ValueError], before touching anything. *)
Theorem finalize_rejects (env : Env) (fid : string) (st : State) :
  ((forall u : TusUpload, kv st !! _upload_key fid <> Some (SUpload u)) ->
   finalize_upload env fid st
   = (Raise (ValueError ("Upload not found: " +:+ fid)), st))
  /\ (forall u : TusUpload,
         kv st !! _upload_key fid = Some (SUpload u) ->
         offset u < size u ->
         finalize_upload env fid st
         = (Raise (ValueError ("Upload not complete: " +:+ fid)), st)).
Proof.
  unfold finalize_upload. split.
  - intros Hno.
    rewrite (bind_ok _ _ _ _ _ (get_upload_absent fid st Hno)). reflexivity.
  - intros u Hu Hlt.
    rewrite (bind_ok _ _ _ _ _ (get_upload_stored fid st u Hu)).
    assert (is_complete u = false) as -> by (unfold is_complete; lia).
    reflexivity.
Qed.

Lemma finalize_rejects_witness :
  finalize_upload (Sample.env 3) Sample.file_id (Sample.created "5")
  = (Raise (ValueError ("Upload not complete: " +:+ Sample.file_id)),
     Sample.created "5").
Proof.
  refine (proj2 (finalize_rejects (Sample.env 3) Sample.file_id
                   (Sample.created "5")) _ _ _).
  - vm_compute. reflexivity.
  - vm_compute. reflexivity.
Defined.

(** ** Quota *)

Lemma get_storage_usage_used (cfg : Config) (st : State) :
  exists usage : Usage,
    get_storage_usage cfg st = (Ok usage, st)
    /\ used usage = dir_size (uploads_dir st) + dir_size (files_dir st)
    /\ max usage = max_storage_size cfg.
Proof.
  unfold get_storage_usage, get_state, mbind, M_bind. simpl.
  destruct (max_storage_size cfg) as [m|]; simpl;
    [destruct (m =? 0); simpl|]; eexists; repeat split; reflexivity.
Qed.

Lemma check_quota_allowed (cfg : Config) (n : Z) (st : State) :
  exists (allowed : bool) (usage : Usage),
    check_quota cfg n st = (Ok (allowed, usage), st)
    /\ used usage = dir_size (uploads_dir st) + dir_size (files_dir st)
    /\ match max_storage_size cfg with
       | Some m =>
           if m =? 0 then allowed = true
           else (allowed = true
                 <-> dir_size (uploads_dir st) + dir_size (files_dir st) + n
                     <= m)
       | None => allowed = true
       end.
Proof.
  unfold check_quota.
  destruct (get_storage_usage_used cfg st) as (usage & Hu & Hused & _).
  rewrite (bind_ok _ _ _ _ _ Hu).
  destruct (max_storage_size cfg) as [m|]; [destruct (m =? 0) eqn:Em|];
    eexists _, usage; (split; [reflexivity|]); (split; [exact Hused|]);
    try reflexivity.
  rewrite Hused. apply Z.leb_le.
Qed.

(** Quota admission never changes the state. With a cap configured (and not
    0), [n] more bytes are admitted exactly when the bytes on disk plus [n]
    stay within the cap; with no cap, or a cap of 0, everything is
    admitted. *)
Theorem check_quota_decides (cfg : Config) (n : Z) (st : State) :
  exists (allowed : bool) (usage : Usage),
    check_quota cfg n st = (Ok (allowed, usage), st)
    /\ used usage = dir_size (uploads_dir st) + dir_size (files_dir st)
    /\ match max_storage_size cfg with
       | Some m =>
           if m =? 0 then allowed = true
           else (allowed = true
                 <-> dir_size (uploads_dir st) + dir_size (files_dir st) + n
                     <= m)
       | None => allowed = true
       end.
Proof.
  unfold check_quota.
  destruct (get_storage_usage_used cfg st) as (usage & Hu & Hused & _).
  rewrite (bind_ok _ _ _ _ _ Hu).
  destruct (max_storage_size cfg) as [m|]; [destruct (m =? 0) eqn:Em|];
    eexists _, usage; (split; [reflexivity|]); (split; [exact Hused|]);
    try reflexivity.
  rewrite Hused. apply Z.leb_le.
Qed.

(** The usage report and admission agree. With a cap configured (and not
    0), the report gives [available = max(0, cap - used)] and [is_full]
    exactly when [used >= cap]; a non-empty chunk no larger than
    [available] is admitted, and once the storage is full no non-empty
    chunk is. *)
Theorem usage_report_matches_admission (cfg : Config) (n m : Z)
    (st : State) :
  max_storage_size cfg = Some m ->
  m <> 0 ->
  0 < n ->
  exists (allowed : bool) (usage : Usage),
    check_quota cfg n st = (Ok (allowed, usage), st)
    /\ get_storage_usage cfg st = (Ok usage, st)
    /\ available usage = Some (Z.max 0 (m - used usage))
    /\ (is_full usage = true <-> m <= used usage)
    /\ (forall a : Z, available usage = Some a -> n <= a -> allowed = true)
    /\ (is_full usage = true -> allowed = false).
Proof.
  intros Hm Hm0 Hn.
  unfold check_quota, get_storage_usage, get_state, mbind, M_bind. simpl.
  rewrite Hm. assert ((m =? 0) = false) as -> by lia. simpl.
  eexists _, _. split; [reflexivity|]. split; [reflexivity|]. simpl.
  split; [reflexivity|]. split; [apply Z.leb_le|].
  split.
  - intros a [= <-] Ha. apply Z.leb_le. lia.
  - intros Hfull. apply Z.leb_le in Hfull. apply Z.leb_gt. lia.
Qed.

Lemma usage_report_matches_admission_witness :
  exists (allowed : bool) (usage : Usage),
    check_quota (storage (Sample.quota_router 4)) 2
      (Sample.with_other_file [Byte.x30; Byte.x31; Byte.x32; Byte.x33]
         (Sample.created "3"))
    = (Ok (allowed, usage),
       Sample.with_other_file [Byte.x30; Byte.x31; Byte.x32; Byte.x33]
         (Sample.created "3"))
    /\ available usage = Some (Z.max 0 (4 - used usage)).
Proof.
  destruct (usage_report_matches_admission (storage (Sample.quota_router 4))
              2 4
              (Sample.with_other_file
                 [Byte.x30; Byte.x31; Byte.x32; Byte.x33]
                 (Sample.created "3")) eq_refl)
    as (allowed & usage & Hq & _ & Ha & _); [discriminate | lia |].
  exists allowed, usage. split; assumption.
Defined.

(** *** Bytes on disk *)

Lemma dir_size_insert_new (d : gmap string bytes) (k : string) (c : bytes) :
  d !! k = None ->
  dir_size (<[k := c]> d) = dir_size d + Z.of_nat (length c).
Proof.
  intros Hk. unfold dir_size.
  rewrite map_fold_insert_L; [reflexivity | | exact Hk].
  intros. lia.
Qed.

Lemma dir_size_delete (d : gmap string bytes) (k : string) (c : bytes) :
  d !! k = Some c ->
  dir_size d = dir_size (delete k d) + Z.of_nat (length c).
Proof.
  intros Hk. unfold dir_size.
  rewrite (map_fold_delete_L _ _ k c d); [reflexivity | | exact Hk].
  intros. lia.
Qed.

Lemma dir_size_insert (d : gmap string bytes) (k : string) (c c' : bytes) :
  d !! k = Some c ->
  dir_size (<[k := c']> d)
  = dir_size d - Z.of_nat (length c) + Z.of_nat (length c').
Proof.
  intros Hk. rewrite <- insert_delete_eq.
  rewrite dir_size_insert_new by apply lookup_delete_eq.
  rewrite (dir_size_delete d k c Hk). lia.
Qed.

Lemma write_at_length (content : bytes) (pos : nat) (data : bytes) :
  length (write_at content pos data)
  = Nat.max (length content) (pos + length data).
Proof.
  unfold write_at. rewrite !length_app, length_take, List.repeat_length,
    length_drop. lia.
Qed.

Lemma write_at_end (content data : bytes) :
  write_at content (length content) data = (content ++ data)%list.
Proof.
  unfold write_at. rewrite take_ge by lia. rewrite Nat.sub_diag. simpl.
  rewrite drop_ge by lia. rewrite app_nil_r. reflexivity.
Qed.

(** ** Sequential writes *)

Lemma write_chunk_at_end (env : Env) (fid : string) (data : bytes)
    (off : Z) (st : State) (content : bytes) :
  fault env = None ->
  kv st !! _lock_key fid = None ->
  uploads_dir st !! get_file_path fid = Some content ->
  off = Z.of_nat (length content) ->
  write_chunk env fid data off st
  = (Ok (Z.of_nat (length data)),
     {| kv := kv st;
        uploads_dir :=
          <[get_file_path fid := (content ++ data)%list]> (uploads_dir st);
        files_dir := files_dir st |})
  /\ dir_size (uploads_dir (snd (write_chunk env fid data off st)))
     = dir_size (uploads_dir st) + Z.of_nat (length data).
Proof.
  intros Hfault Hfree Hfile ->.
  assert (Hw : write_chunk env fid data (Z.of_nat (length content)) st
               = (Ok (Z.of_nat (length data)),
                  {| kv := kv st;
                     uploads_dir :=
                       <[get_file_path fid := (content ++ data)%list]>
                         (uploads_dir st);
                     files_dir := files_dir st |})).
  { rewrite (write_chunk_ok env fid data _ st content Hfault Hfree Hfile)
      by (right; lia).
    rewrite Nat2Z.id, write_at_end.
    destruct (0 <? length content)%nat; reflexivity. }
  split; [exact Hw|]. rewrite Hw. simpl.
  rewrite (dir_size_insert _ _ content _ Hfile), length_app. lia.
Qed.

(** A chunk written at the end of the file (the offset is the length of the
    file, as the offset check of PATCH ensures for a file that matches its
    record) is appended: the file becomes the old bytes followed by the
    chunk, nothing else in the state changes, and the bytes on disk grow by
    exactly the length of the chunk. *)
Theorem write_chunk_appends (env : Env) (fid : string) (data : bytes)
    (off : Z) (st : State) (content : bytes) :
  fault env = None ->
  kv st !! _lock_key fid = None ->
  uploads_dir st !! get_file_path fid = Some content ->
  off = Z.of_nat (length content) ->
  write_chunk env fid data off st
  = (Ok (Z.of_nat (length data)),
     {| kv := kv st;
        uploads_dir :=
          <[get_file_path fid := (content ++ data)%list]> (uploads_dir st);
        files_dir := files_dir st |})
  /\ dir_size (uploads_dir (snd (write_chunk env fid data off st)))
     = dir_size (uploads_dir st) + Z.of_nat (length data).
Proof.
  intros Hfault Hfree Hfile ->.
  assert (Hw : write_chunk env fid data (Z.of_nat (length content)) st
               = (Ok (Z.of_nat (length data)),
                  {| kv := kv st;
                     uploads_dir :=
                       <[get_file_path fid := (content ++ data)%list]>
                         (uploads_dir st);
                     files_dir := files_dir st |})).
  { rewrite (write_chunk_ok env fid data _ st content Hfault Hfree Hfile)
      by (right; lia).
    rewrite Nat2Z.id, write_at_end.
    destruct (0 <? length content)%nat; reflexivity. }
  split; [exact Hw|]. rewrite Hw. simpl.
  rewrite (dir_size_insert _ _ content _ Hfile), length_app. lia.
Qed.

Lemma write_chunk_appends_witness :
  uploads_dir
    (snd (write_chunk (Sample.env 2) Sample.file_id [Byte.x63] 2
            (Sample.patched "5" [Byte.x61; Byte.x62])))
    !! get_file_path Sample.file_id
  = Some [Byte.x61; Byte.x62; Byte.x63].
Proof.
  rewrite (proj1 (write_chunk_appends (Sample.env 2) Sample.file_id
                    [Byte.x63] 2 (Sample.patched "5" [Byte.x61; Byte.x62])
                    [Byte.x61; Byte.x62] eq_refl
                    ltac:(vm_compute; reflexivity)
                    ltac:(vm_compute; reflexivity) eq_refl)).
  simpl. apply lookup_insert_eq.
Defined.

(** A write that failed half-way is repaired by the retry: if a write at
    the end of the file fails after putting a prefix of the chunk on disk,
    the same write repeated without failure leaves exactly the old bytes
    followed by the whole chunk. *)
Theorem retry_overwrites_partial_write (env env' : Env) (fid : string)
    (data : bytes) (st : State) (content : bytes) (n : nat) :
  fault env = Some (FaultWrite n) ->
  fault env' = None ->
  kv st !! _lock_key fid = None ->
  uploads_dir st !! get_file_path fid = Some content ->
  let off := Z.of_nat (length content) in
  let st1 := snd (write_chunk env fid data off st) in
  fst (write_chunk env fid data off st) = Raise (OSError "write")
  /\ uploads_dir st1 !! get_file_path fid
     = Some (content ++ take n data)%list
  /\ kv st1 = kv st
  /\ fst (write_chunk env' fid data off st1) = Ok (Z.of_nat (length data))
  /\ uploads_dir (snd (write_chunk env' fid data off st1))
       !! get_file_path fid = Some (content ++ data)%list.
Proof.
  intros Hfault Hfault' Hfree Hfile off st1.
  assert (H1 : write_chunk env fid data off st
               = (Raise (OSError "write"),
                  {| kv := kv st;
                     uploads_dir :=
                       <[get_file_path fid := (content ++ take n data)%list]>
                         (uploads_dir st);
                     files_dir := files_dir st |})).
  { rewrite (write_chunk_unlocked env fid data off st Hfree).
    unfold write_file, mbind, M_bind, get_state. simpl.
    rewrite Hfile, Hfault.
    assert (((0 <? length content)%nat && (off <? 0)) = false) as ->.
    { apply andb_false_intro2. subst off. apply Z.ltb_ge. lia. }
    simpl. subst off. rewrite Nat2Z.id, write_at_end.
    destruct (0 <? length content)%nat; reflexivity. }
  subst st1. rewrite H1. simpl.
  split; [reflexivity|]. split; [apply lookup_insert_eq|].
  split; [reflexivity|].
  set (st1 := {| kv := kv st; uploads_dir := _; files_dir := files_dir st |}).
  assert (Hfile1 : uploads_dir st1 !! get_file_path fid
                   = Some (content ++ take n data)%list)
    by apply lookup_insert_eq.
  rewrite (write_chunk_ok env' fid data off st1 _ Hfault' Hfree Hfile1)
    by (right; subst off; lia).
  simpl. split; [reflexivity|]. rewrite lookup_insert_eq. f_equal.
  subst off. rewrite Nat2Z.id.
  destruct (0 <? length (content ++ take n data))%nat eqn:Elen.
  - unfold write_at.
    rewrite take_app_length.
    rewrite length_app, length_take.
    replace (length content - (length content + n `min` length data))%nat
      with 0%nat by lia.
    rewrite drop_ge by (rewrite length_app, length_take; lia).
    simpl. rewrite app_nil_r. reflexivity.
  - apply Nat.ltb_ge in Elen. rewrite length_app in Elen.
    assert (length content = 0%nat) as Hc by lia.
    assert (length (take n data) = 0%nat) as Ht by lia.
    destruct content; [|discriminate Hc].
    destruct (take n data); [|discriminate Ht]. reflexivity.
Qed.

Lemma retry_overwrites_partial_write_witness :
  let env := {| now := 2; filename_uuid := ""; file_id_uuid := "";
                lock_freed_while_sleeping := false;
                fault := Some (FaultWrite 1) |} in
  let st := Sample.patched "5" [Byte.x61; Byte.x62] in
  uploads_dir
    (snd (write_chunk (Sample.env 3) Sample.file_id [Byte.x63; Byte.x64] 2
            (snd (write_chunk env Sample.file_id [Byte.x63; Byte.x64] 2 st))))
    !! get_file_path Sample.file_id
  = Some [Byte.x61; Byte.x62; Byte.x63; Byte.x64].
Proof.
  intros env st.
  exact (proj2 (proj2 (proj2 (proj2
           (retry_overwrites_partial_write env (Sample.env 3) Sample.file_id
              [Byte.x63; Byte.x64] st [Byte.x61; Byte.x62] 1
              eq_refl eq_refl
              ltac:(vm_compute; reflexivity)
              ltac:(vm_compute; reflexivity)))))).
Defined.

(** A chunk that quota admits and that is then appended leaves the bytes on
    disk within the cap. *)
Theorem admitted_write_within_cap (cfg : Config) (env : Env) (fid : string)
    (data : bytes) (st : State) (content : bytes) (m : Z) (usage : Usage) :
  max_storage_size cfg = Some m ->
  m <> 0 ->
  check_quota cfg (Z.of_nat (length data)) st = (Ok (true, usage), st) ->
  fault env = None ->
  kv st !! _lock_key fid = None ->
  uploads_dir st !! get_file_path fid = Some content ->
  let st' :=
    snd (write_chunk env fid data (Z.of_nat (length content)) st) in
  dir_size (uploads_dir st') + dir_size (files_dir st') <= m.
Proof.
  intros Hm Hm0 Hq Hfault Hfree Hfile st'.
  destruct (write_chunk_at_end env fid data _ st content
              Hfault Hfree Hfile eq_refl) as [Hw Hsize].
  subst st'. rewrite Hsize. rewrite Hw. simpl.
  destruct (check_quota_allowed cfg (Z.of_nat (length data)) st)
    as (allowed & usage' & Hq' & _ & Hdec).
  rewrite Hq in Hq'. injection Hq' as <- <-.
  rewrite Hm in Hdec. assert ((m =? 0) = false) as Hz by lia.
  rewrite Hz in Hdec. pose proof (proj1 Hdec eq_refl). lia.
Qed.

Lemma admitted_write_within_cap_witness :
  let st := Sample.created "3" in
  let st' := snd (write_chunk (Sample.env 1) Sample.file_id
                    [Byte.x61; Byte.x62] 0 st) in
  dir_size (uploads_dir st') + dir_size (files_dir st') <= 4.
Proof.
  intros st.
  refine (admitted_write_within_cap (storage (Sample.quota_router 4))
            (Sample.env 1) Sample.file_id [Byte.x61; Byte.x62] st [] 4 _
            eq_refl _ _ eq_refl _ _).
  - discriminate.
  - vm_compute. reflexivity.
  - vm_compute. reflexivity.
  - vm_compute. reflexivity.
Defined.

(** ** The bytes of an upload *)



(** ** Creation *)

(** Whenever [write_chunk] returns on an empty file, the file holds exactly
    the chunk. *)
Lemma write_chunk_on_empty_file (env : Env) (fid : string) (data : bytes)
    (off w : Z) (st : State) :
  uploads_dir st !! get_file_path fid = Some [] ->
  fst (write_chunk env fid data off st) = Ok w ->
  uploads_dir (snd (write_chunk env fid data off st)) !! get_file_path fid
  = Some data
  /\ kv (snd (write_chunk env fid data off st)) !! _upload_key fid
     = kv st !! _upload_key fid.
Proof.
  intros Hfile Hok.
  split; [|apply write_chunk_frame, upload_key_ne_lock].
  revert Hok.
  assert (Hfin : forall st1 : State,
             uploads_dir st1 = uploads_dir st ->
             fst (try_finally (write_file env fid data off)
                    (release_lock fid) st1) = Ok w ->
             uploads_dir (snd (try_finally (write_file env fid data off)
                                 (release_lock fid) st1))
               !! get_file_path fid = Some data).
  { intros st1 Hd. unfold try_finally, release_lock, state_delete,
      write_file, mbind, M_bind, get_state. simpl. rewrite Hd, Hfile. simpl.
    destruct (fault env) as [[| |n]|]; simpl; try discriminate;
      intros _; apply lookup_insert_eq. }
  unfold write_chunk, acquire_lock, state_set_nx, state_set, sleep,
    state_delete, mbind, M_bind.
  destruct (kv st !! _lock_key fid) eqn:E; simpl.
  - destruct (lock_freed_while_sleeping env); simpl.
    + rewrite lookup_delete_eq. simpl. apply Hfin. reflexivity.
    + rewrite E. simpl. discriminate.
  - apply Hfin. reflexivity.
Qed.

(** A POST that is answered creates the record under the drawn id and a
    file whose length is the offset of the record: the empty file, or the
    body of the POST when creation-with-upload wrote it. The answer is 201
    with that offset, the record expires 24 hours later, and it is never
    final, even when the body already holds every declared byte. *)
Theorem create_stores_matching_file `{!Externals} (r : Router) (env : Env)
    (request : Request) (st : State) (response : Response) :
  fst (tus_create r env request st) = Ok response ->
  exists (u : TusUpload) (content : bytes),
    status_code response = 201
    /\ kv (snd (tus_create r env request st))
         !! _upload_key (file_id_uuid env) = Some (SUpload u)
    /\ uploads_dir (snd (tus_create r env request st))
         !! get_file_path (file_id_uuid env) = Some content
    /\ content = (if creation_with_upload r request then body request
                  else [])
    /\ offset u = Z.of_nat (length content)
    /\ py_int (default "" (headers request !! TusHeaders.UPLOAD_LENGTH))
       = Some (size u)
    /\ is_final u = false
    /\ expires_at u = Some (now env + 86400)
    /\ resp_headers response !! TusHeaders.UPLOAD_OFFSET
       = Some (str_of_int (offset u))
    /\ resp_headers response !! TusHeaders.LOCATION
       = Some (rstrip_slash (url request) +:+ "/" +:+ file_id_uuid env).
Proof.
  unfold tus_create.
  destruct (validate_tus_version_cases request st) as [Hv|Hv].
  2:{ rewrite (bind_raise _ _ _ _ _ Hv). discriminate. }
  rewrite (bind_ok _ _ _ _ _ Hv).
  destruct (otruthy (headers request !! TusHeaders.UPLOAD_LENGTH)); simpl;
    [|discriminate].
  destruct (py_int (default "" (headers request !! TusHeaders.UPLOAD_LENGTH)))
    as [n|] eqn:En; [|discriminate].
  destruct (int_truthy (router_max_size r)
            && (default 0 (router_max_size r) <? n)); [discriminate|].
  destruct (create_metadata env request) as [tm|e]; [|destruct e; discriminate].
  pose proof (new_upload_fields r env request n tm)
    as (Hid & Hfn & Hsz & Hoff & Hnf).
  assert (Hexp : expires_at (new_upload r env request n tm)
                 = Some (now env + 86400)).
  { unfold new_upload. destruct (resolve_retention r request tm).
    reflexivity. }
  set (up := new_upload r env request n tm) in *.
  unfold save_upload.
  assert (Hc : create_upload up st = (Ok tt, snd (create_upload up st)))
    by reflexivity.
  rewrite (bind_ok _ _ _ _ _ Hc).
  set (st1 := snd (create_upload up st)).
  assert (Hk1 : kv st1 !! _upload_key (file_id_uuid env) = Some (SUpload up)).
  { subst st1. unfold create_upload, state_set, set_uploads_dir, get_state,
      mbind, M_bind. simpl. rewrite Hid. apply lookup_insert_eq. }
  assert (Hf1 : uploads_dir st1 !! get_file_path (file_id_uuid env)
                = Some []).
  { subst st1. unfold create_upload, state_set, set_uploads_dir, get_state,
      mbind, M_bind. simpl. rewrite Hid. apply lookup_insert_eq. }
  rewrite Hid.
  destruct (creation_with_upload r request).
  - pose proof (write_chunk_on_empty_file env (file_id_uuid env)
                  (body request) 0) as Hwe.
    destruct (write_chunk env (file_id_uuid env) (body request) 0 st1)
      as [[w|e] st2] eqn:Ew.
    2:{ erewrite bind_raise by (erewrite bind_raise by exact Ew; reflexivity).
        discriminate. }
    destruct (Hwe w st1 Hf1) as [Hf2 Hk2]; [rewrite Ew; reflexivity|].
    rewrite Ew in Hf2, Hk2. simpl in Hf2, Hk2.
    erewrite bind_ok by (erewrite bind_ok by exact Ew; reflexivity).
    simpl. intros [= <-].
    eexists _, (body request). split; [reflexivity|]. simpl.
    rewrite Hid.
    split; [apply lookup_insert_eq|]. split; [exact Hf2|].
    split; [reflexivity|]. simpl. split; [reflexivity|].
    split; [rewrite Hsz; reflexivity|]. split; [exact Hnf|].
    split; [exact Hexp|].
    rewrite Hexp. split;
      repeat (rewrite lookup_insert_ne by discriminate);
      apply lookup_insert_eq.
  - simpl. intros [= <-].
    exists up, []. split; [reflexivity|]. simpl.
    split; [exact Hk1|]. split; [exact Hf1|]. split; [reflexivity|].
    split; [exact Hoff|]. split; [rewrite Hsz; reflexivity|].
    split; [exact Hnf|]. split; [exact Hexp|].
    rewrite Hexp. split;
      repeat (rewrite lookup_insert_ne by discriminate);
      apply lookup_insert_eq.
Qed.

Lemma create_stores_matching_file_witness :
  let request :=
    Sample.request [("Upload-Length", "2");
                    ("Content-Type", "application/offset+octet-stream")]
                   [Byte.x61; Byte.x62] in
  let out := @tus_create Sample.externals Sample.router (Sample.env 0)
               request Sample.empty_state in
  exists (u : TusUpload) (content : bytes),
    kv (snd out) !! _upload_key Sample.file_id = Some (SUpload u)
    /\ uploads_dir (snd out) !! get_file_path Sample.file_id = Some content
    /\ content = [Byte.x61; Byte.x62]
    /\ offset u = 2
    /\ is_final u = false.
Proof.
  intros request out.
  destruct (@tus_create Sample.externals Sample.router (Sample.env 0)
              request Sample.empty_state) as [[response|e] st'] eqn:E;
    [|vm_compute in E; discriminate E].
  destruct (@create_stores_matching_file Sample.externals Sample.router
              (Sample.env 0) request Sample.empty_state response)
    as (u & content & _ & Hk & Hf & Hc & Ho & _ & Hnf & _).
  - rewrite E. reflexivity.
  - exists u, content. subst out. rewrite E in *. simpl in *.
    repeat split; try assumption.
    rewrite Ho, Hc. reflexivity.
Defined.

Lemma create_metadata_raises `{!Externals} (env : Env) (request : Request)
    (e : exn) :
  create_metadata env request = Raise e -> exists msg : string, e = ValueError msg.
Proof.
  unfold create_metadata, from_header.
  destruct (truthy (default "" (headers request !! TusHeaders.UPLOAD_METADATA)));
    simpl; [|discriminate].
  destruct (parse_items _ !! "filename"); [|intros [= <-]; eauto].
  destruct (otruthy _); [|discriminate].
  destruct (py_int _); [discriminate|intros [= <-]; eauto].
Qed.

(** A POST whose [Upload-Length] exceeds the configured maximum is refused
    with 413 and creates nothing; with no maximum, or a maximum of 0, no
    length is ever refused as too large. *)
Theorem create_size_limit `{!Externals} (r : Router) (env : Env)
    (request : Request) (st : State) (ls : string) (n : Z) :
  validate_tus_version request st = (Ok tt, st) ->
  headers request !! TusHeaders.UPLOAD_LENGTH = Some ls ->
  py_int ls = Some n ->
  (forall m : Z,
      router_max_size r = Some m -> m <> 0 -> m < n ->
      tus_create r env request st
      = (Raise (HTTPException 413 "Upload exceeds maximum size"), st))
  /\ (router_max_size r = None \/ router_max_size r = Some 0 ->
      http_status (fst (tus_create r env request st)) <> Some 413).
Proof.
  intros Hver Hls Hint.
  assert (Hne : ls <> "") by (intros ->; discriminate Hint).
  split.
  - intros m Hm Hm0 Hlt. unfold tus_create.
    rewrite (bind_ok _ _ _ _ _ Hver). rewrite Hls. simpl.
    rewrite (truthy_true ls Hne). simpl. rewrite Hint, Hm. simpl.
    assert ((m =? 0) = false) as -> by lia.
    assert ((m <? n) = true) as -> by lia. reflexivity.
  - intros Hmax.
    rewrite (tus_create_validated r env request st ls n Hver Hls Hne Hint).
    2:{ destruct Hmax as [-> | ->]; reflexivity. }
    destruct (create_metadata env request) as [tm|e] eqn:Em.
    + destruct (save_upload_outcome r env request
                  (new_upload r env request n tm) st)
        as [(resp & Hr & Hst) | (e & Hr & He)]; rewrite Hr.
      * simpl. rewrite Hst. discriminate.
      * rewrite He. discriminate.
    + destruct (create_metadata_raises env request e Em) as [msg ->].
      simpl. discriminate.
Qed.

Lemma create_size_limit_witness :
  @tus_create Sample.externals
    {| storage := storage Sample.router; router_max_size := Some 10;
       settings := None |}
    (Sample.env 0) (Sample.request [("Upload-Length", "11")] [])
    Sample.empty_state
  = (Raise (HTTPException 413 "Upload exceeds maximum size"),
     Sample.empty_state).
Proof.
  refine (proj1 (@create_size_limit Sample.externals
                   {| storage := storage Sample.router;
                      router_max_size := Some 10; settings := None |}
                   (Sample.env 0)
                   (Sample.request [("Upload-Length", "11")] [])
                   Sample.empty_state "11" 11 eq_refl eq_refl _)
            10 eq_refl _ _).
  - vm_compute. reflexivity.
  - discriminate.
  - lia.
Defined.

(** ** OPTIONS *)

(** OPTIONS answers 204 whatever the request and the state, which it leaves
    alone. It announces version 1.0.0 and the five extensions, and
    [Tus-Max-Size] exactly when a non-zero maximum is configured. *)
Theorem options_capabilities (r : Router) (request : Request) (st : State) :
  exists response : Response,
    tus_options r request st = (Ok response, st)
    /\ status_code response = 204
    /\ content response = ""
    /\ resp_headers response !! TusHeaders.TUS_RESUMABLE = Some "1.0.0"
    /\ resp_headers response !! TusHeaders.TUS_VERSION = Some "1.0.0"
    /\ resp_headers response !! TusHeaders.TUS_EXTENSION
       = Some "creation,creation-with-upload,termination,checksum,expiration"
    /\ resp_headers response !! TusHeaders.TUS_MAX_SIZE
       = match router_max_size r with
         | Some m => if m =? 0 then None else Some (str_of_int m)
         | None => None
         end
    /\ forall (request' : Request) (st' : State),
         fst (tus_options r request' st') = Ok response.
Proof.
  unfold tus_options, capabilities, mk_capabilities. simpl.
  eexists. split; [reflexivity|]. simpl.
  split; [reflexivity|]. split; [reflexivity|].
  destruct (router_max_size r) as [m|]; simpl;
    [destruct (m =? 0); simpl|];
    repeat split; reflexivity.
Qed.

(** ** Reading back *)

Import Retrieval.

Lemma read_chunk_upload_file (fid : string) (o l : Z) (st : State)
    (content : bytes) :
  uploads_dir st !! get_file_path fid = Some content ->
  read_chunk fid o l st
  = (match read_at content o l with
     | Ok data => Ok data
     | Raise e => Raise e
     end, st).
Proof.
  intros Hf. unfold read_chunk.
  unfold mbind, M_bind, get_state. rewrite Hf. simpl.
  destruct (read_at content o l); reflexivity.
Qed.


Lemma read_at_slice (content : bytes) (o l : Z) :
  0 <= o -> 0 <= l ->
  read_at content o l = Ok (take (Z.to_nat l) (drop (Z.to_nat o) content)).
Proof.
  intros Ho Hl. unfold read_at.
  assert ((o <? 0) = false) as -> by lia.
  assert ((l <? -1) = false) as -> by lia.
  assert ((l =? -1) = false) as -> by lia. reflexivity.
Qed.

(** A chunk written at the end of the upload file reads back unchanged,
    and every range of the bytes stored before it reads as it did: after
    the write, [read_chunk] serves the slices of the old content followed
    by the chunk. *)
Theorem read_back_written_chunk (env : Env) (fid : string) (data : bytes)
    (off : Z) (st : State) (content : bytes) :
  fault env = None ->
  kv st !! _lock_key fid = None ->
  uploads_dir st !! get_file_path fid = Some content ->
  off = Z.of_nat (length content) ->
  let st' := snd (write_chunk env fid data off st) in
  read_chunk fid off (Z.of_nat (length data)) st' = (Ok data, st')
  /\ (forall o l : Z,
         0 <= o -> 0 <= l ->
         read_chunk fid o l st'
         = (Ok (take (Z.to_nat l) (drop (Z.to_nat o) (content ++ data))), st'))
  /\ (forall o l : Z,
         0 <= o -> 0 <= l -> o + l <= off ->
         fst (read_chunk fid o l st') = fst (read_chunk fid o l st)).
Proof.
  intros Hfault Hlock Hfile Hoff st'.
  assert (Hst' : uploads_dir st' !! get_file_path fid
                 = Some (content ++ data)%list).
  { subst st'. rewrite (write_chunk_ok env fid data off st content);
      [|assumption..|right; lia].
    simpl. rewrite lookup_insert_eq. f_equal.
    destruct content as [|b content']; [reflexivity|].
    change (0 <? length (b :: content'))%nat with true. cbv iota.
    rewrite Hoff, Nat2Z.id. apply write_at_end. }
  assert (Hall : forall o l : Z,
             0 <= o -> 0 <= l ->
             read_chunk fid o l st'
             = (Ok (take (Z.to_nat l) (drop (Z.to_nat o) (content ++ data))),
                st')).
  { intros o l Ho Hl. rewrite (read_chunk_upload_file fid o l st' _ Hst').
    rewrite (read_at_slice _ o l Ho Hl). reflexivity. }
  split; [|split].
  - rewrite Hall by lia. rewrite Hoff, !Nat2Z.id.
    rewrite drop_app_length. rewrite take_ge by lia. reflexivity.
  - exact Hall.
  - intros o l Ho Hl Hle. rewrite Hall by assumption.
    rewrite (read_chunk_upload_file fid o l st content Hfile).
    rewrite (read_at_slice _ o l Ho Hl). simpl. f_equal.
    rewrite drop_app_le by lia.
    rewrite take_app_le by (rewrite length_drop; lia). reflexivity.
Qed.

Lemma read_back_written_chunk_witness :
  let st := Sample.created "5" in
  let st' := snd (write_chunk (Sample.env 1) Sample.file_id
                    [Byte.x61; Byte.x62] 0 st) in
  read_chunk Sample.file_id 0 2 st' = (Ok [Byte.x61; Byte.x62], st').
Proof.
  intros st st'.
  refine (proj1 (read_back_written_chunk (Sample.env 1) Sample.file_id
                   [Byte.x61; Byte.x62] 0 st [] _ _ _ _));
    vm_compute; reflexivity.
Defined.



(** ** Streaming a download *)

Import Streaming.

Lemma generate_chunks_slice (read : nat -> Z -> Z -> res bytes)
    (chunk_size : Z) (content : bytes) (stop : Z) (fuel : nat) :
  0 < chunk_size ->
  stop <= Z.of_nat (length content) ->
  (forall (n : nat) (o l : Z),
      0 <= o -> 0 < l -> o + l <= stop ->
      read n o l = read_at content o l) ->
  forall (turn : nat) (offset remaining : Z),
    0 <= offset -> 0 <= remaining -> offset + remaining = stop ->
    (Z.to_nat remaining <= fuel)%nat ->
    exists chunks : list bytes,
      generate_chunks fuel read chunk_size turn offset remaining
      = (chunks, Exhausted)
      /\ concat chunks
         = take (Z.to_nat remaining) (drop (Z.to_nat offset) content)
      /\ Forall (fun c : bytes =>
                   0 < Z.of_nat (length c) <= chunk_size) chunks.
Proof.
  intros Hcs Hstop Hread.
  induction fuel as [|fuel IH]; intros turn offset remaining Ho Hr Hsum Hfuel.
  - assert (remaining = 0) as -> by lia. exists []. simpl.
    repeat split. constructor.
  - cbn [generate_chunks].
    destruct (Z.ltb_spec 0 remaining) as [Hpos|Hzero].
    2:{ assert (remaining = 0) as -> by lia. exists []. simpl.
        repeat split. constructor. }
    set (l := Z.min chunk_size remaining).
    assert (Hl : 0 < l <= remaining) by (subst l; lia).
    rewrite (Hread turn offset l) by lia.
    rewrite (read_at_slice content offset l) by lia.
    remember (take (Z.to_nat l) (drop (Z.to_nat offset) content))
      as chunk eqn:Echunk.
    assert (Hlen : Z.of_nat (length chunk) = l).
    { subst chunk. rewrite length_take, length_drop. lia. }
    rewrite Hlen.
    destruct (IH (S turn) (offset + l) (remaining - l))
      as (chunks & Hgen & Hcat & Hall); try lia.
    rewrite Hgen. exists (chunk :: chunks).
    split; [reflexivity|]. split.
    + cbn [concat]. rewrite Hcat, Echunk.
      replace (Z.to_nat (offset + l)) with (Z.to_nat offset + Z.to_nat l)%nat
        by lia.
      rewrite <- drop_drop.
      rewrite take_take_drop. f_equal. lia.
    + constructor; [|exact Hall]. rewrite Hlen. subst l. lia.
Qed.

(** The body of a download. When the file holds the requested range and
    stays as it is below the end of that range while the response is
    streamed, [generate_chunks] comes to an end and the chunks it yields,
    put together, are exactly the bytes [start .. start + content_length -
    1] of the file; no chunk is empty or longer than the chunk size of the
    storage. *)
Theorem stream_yields_requested_range (read : nat -> Z -> Z -> res bytes)
    (chunk_size : Z) (content : bytes) (start content_length : Z)
    (fuel : nat) :
  0 < chunk_size ->
  0 <= start -> 0 <= content_length ->
  start + content_length <= Z.of_nat (length content) ->
  (forall (n : nat) (o l : Z),
      0 <= o -> 0 < l -> o + l <= start + content_length ->
      read n o l = read_at content o l) ->
  (Z.to_nat content_length <= fuel)%nat ->
  exists chunks : list bytes,
    generate_chunks fuel read chunk_size 0 start content_length
    = (chunks, Exhausted)
    /\ concat chunks
       = take (Z.to_nat content_length) (drop (Z.to_nat start) content)
    /\ Forall (fun c : bytes => 0 < Z.of_nat (length c) <= chunk_size) chunks.
Proof.
  intros Hcs Hs Hc Hlen Hread Hfuel.
  apply (generate_chunks_slice read chunk_size content
           (start + content_length) fuel Hcs Hlen Hread 0%nat start
           content_length Hs Hc eq_refl Hfuel).
Qed.

Lemma stream_yields_requested_range_witness :
  let content := [Byte.x61; Byte.x62; Byte.x63; Byte.x64; Byte.x65] in
  exists chunks : list bytes,
    generate_chunks 3 (fun _ : nat => read_at content) 2 0 1 3
    = (chunks, Exhausted)
    /\ concat chunks = [Byte.x62; Byte.x63; Byte.x64].
Proof.
  intros content.
  destruct (stream_yields_requested_range (fun _ : nat => read_at content)
              2 content 1 3 3) as (chunks & Hgen & Hcat & _).
  - lia.
  - lia.
  - lia.
  - simpl. lia.
  - intros n o l _ _ _. reflexivity.
  - simpl. lia.
  - exists chunks. split; [exact Hgen | exact Hcat].
Defined.

(** A read that returns no bytes while bytes remain to be sent, as at the
    end of a file shorter than the range that was announced, makes no
    progress: [generate_chunks] yields an empty chunk at every turn and
    never comes to an end. *)
Theorem stream_without_progress_never_ends
    (read : nat -> Z -> Z -> res bytes) (chunk_size offset remaining : Z)
    (fuel : nat) :
  0 < remaining ->
  (forall n : nat, read n offset (Z.min chunk_size remaining) = Ok []) ->
  forall turn : nat,
    generate_chunks fuel read chunk_size turn offset remaining
    = (repeat [] fuel, Looping).
Proof.
  intros Hrem Hread. induction fuel as [|fuel IH]; intros turn.
  - simpl. assert ((0 <? remaining) = true) as -> by lia. reflexivity.
  - cbn [generate_chunks]. assert ((0 <? remaining) = true) as -> by lia.
    rewrite Hread. cbn [length]. rewrite Z.add_0_r, Z.sub_0_r.
    rewrite IH. reflexivity.
Qed.

Lemma stream_without_progress_never_ends_witness :
  generate_chunks 4 (fun _ : nat => read_at [Byte.x61; Byte.x62]) 2 0 2 3
  = (repeat [] 4%nat, Looping).
Proof.
  apply (stream_without_progress_never_ends
           (fun _ : nat => read_at [Byte.x61; Byte.x62]) 2 2 3 4).
  - lia.
  - intros n. reflexivity.
Defined.

(** ** The range that a download serves *)

Lemma split_parts_no_sep (sep : ascii) (s : string) :
  Forall (fun p : string => contains sep p = false) (split sep s).
Proof.
  induction s as [|c t IH]; simpl.
  - repeat constructor.
  - destruct (Ascii.eqb c sep) eqn:Ec.
    + constructor; [reflexivity | exact IH].
    + destruct (split sep t) as [|h r].
      * constructor; [|constructor]. simpl. rewrite Ec. reflexivity.
      * inversion IH as [|? ? Hh Hr]; subst.
        constructor; [|exact Hr]. simpl. rewrite Ec, Hh. reflexivity.
Qed.

Lemma nth_split_no_sep (sep : ascii) (s : string) (i : nat) :
  contains sep (nth i (split sep s) "") = false.
Proof.
  pose proof (split_parts_no_sep sep s) as H.
  revert i. induction H as [|p l Hp Hl IH]; intros [|i]; simpl; auto.
Qed.

Lemma contains_lstrip (c : ascii) (s : string) :
  contains c s = false -> contains c (lstrip s) = false.
Proof.
  induction s as [|a t IH]; simpl; [reflexivity|].
  intros H. apply orb_false_elim in H as [Ha Ht].
  destruct (is_space a); [apply IH; exact Ht|].
  simpl. rewrite Ha, Ht. reflexivity.
Qed.

Lemma contains_rstrip (c : ascii) (s : string) :
  contains c s = false -> contains c (rstrip s) = false.
Proof.
  induction s as [|a t IH]; simpl; [reflexivity|].
  intros H. apply orb_false_elim in H as [Ha Ht].
  specialize (IH Ht).
  destruct (rstrip t) as [|b r].
  - destruct (is_space a); simpl; [reflexivity|].
    rewrite Ha. reflexivity.
  - cbn [contains]. rewrite Ha. exact IH.
Qed.

Lemma int_digits_nonneg (s : string) :
  forall (prev : bool) (acc n : Z),
    0 <= acc -> int_digits prev acc s = Some n -> 0 <= n.
Proof.
  induction s as [|c t IH]; intros prev acc n Hacc; simpl.
  - destruct prev; [intros [= <-]; exact Hacc | discriminate].
  - destruct (digit_value c) as [d|] eqn:Ed.
    + apply IH. unfold digit_value in Ed.
      destruct (_ && _)%nat eqn:Eb; [|discriminate Ed].
      injection Ed as <-. apply andb_prop in Eb as [Hlo _].
      apply Nat.leb_le in Hlo. lia.
    + destruct (Ascii.eqb c "_" && prev); [|discriminate].
      apply IH. exact Hacc.
Qed.

Lemma py_int_nonneg (s : string) (n : Z) :
  contains "-" s = false -> py_int s = Some n -> 0 <= n.
Proof.
  intros Hd. unfold py_int.
  assert (Ht : contains "-" (strip s) = false)
    by (apply contains_rstrip, contains_lstrip, Hd).
  destruct (strip s) as [|a r] eqn:Es.
  - simpl. discriminate.
  - assert (Ha : Ascii.eqb a "-" = false).
    { simpl in Ht. apply orb_false_elim in Ht as [Ha _]. exact Ha. }
    assert (Hbody :
      forall body : string,
        (if (int_max_str_digits <? count_digits body)%nat then None
         else match int_digits false 0 body with
              | Some m => Some m
              | None => None
              end) = Some n -> 0 <= n).
    { intros body. destruct (_ <? _)%nat; [discriminate|].
      destruct (int_digits false 0 body) as [m|] eqn:Em; [|discriminate].
      intros [= <-]. apply (int_digits_nonneg body false 0 m); [lia|exact Em]. }
    destruct (ascii_dec a "-") as [->|Hne]; [discriminate Ha|].
    destruct (ascii_dec a "+") as [->|Hnp].
    + apply Hbody.
    + intros H. apply (Hbody (String a r)).
      destruct a as [[] [] [] [] [] [] [] []]; try exact H;
        congruence.
Qed.

Lemma parse_range_bounds (range : string) (available s e : Z) :
  Files.parse_range range available = Some (s, e) ->
  0 <= s /\ e <= available - 1.
Proof.
  unfold Files.parse_range.
  set (spec := replace "bytes=" "" range).
  destruct (contains "-" spec); [|intros [= <- <-]; lia].
  pose proof (nth_split_no_sep "-" spec 0) as H0.
  pose proof (nth_split_no_sep "-" spec 1) as H1.
  set (p0 := nth 0 (split "-" spec) "") in *.
  set (p1 := nth 1 (split "-" spec) "") in *.
  destruct (truthy p0).
  - destruct (py_int p0) as [a|] eqn:Ea; [|discriminate].
    pose proof (py_int_nonneg p0 a H0 Ea) as Ha.
    destruct (truthy p1).
    + destruct (py_int p1) as [b|]; simpl; [|discriminate].
      intros [= <- <-]. lia.
    + intros [= <- <-]. lia.
  - destruct (truthy p1).
    + destruct (py_int p1) as [b|]; simpl; [|discriminate].
      intros [= <- <-]. lia.
    + intros [= <- <-]. lia.
Qed.

(** A download requested with a [Range] header is served only inside the
    bytes available: the range that is streamed starts at 0 or later, has
    at least one byte and ends before [available_size]. Whatever the
    header says, on a file with no bytes available the request is refused
    with 416. *)
Theorem served_range_within_available (file_id : string)
    (info : Files.Info) (range : string) :
  range <> "" ->
  (forall d : Files.Download,
      Files.download_file file_id (Some info) (Some range) = Ok d ->
      0 <= Files.start d
      /\ 1 <= Files.content_length d
      /\ Files.start d + Files.content_length d
         <= Files.available_size info)
  /\ (Files.available_size info <= 0 ->
      exists detail : string,
        Files.download_file file_id (Some info) (Some range)
        = Raise (HTTPException 416 detail)).
Proof.
  intros Hne.
  assert (Ht : otruthy (Some range) = true) by (apply truthy_true, Hne).
  unfold Files.download_file. rewrite Ht. cbv iota.
  change (default "" (Some range)) with range.
  destruct (Files.parse_range range (Files.available_size info))
    as [[s e]|] eqn:Ep.
  2:{ cbv beta iota zeta. split; [discriminate|].
      intros _. eexists. reflexivity. }
  destruct (parse_range_bounds range _ s e Ep) as [Hs He].
  cbv beta iota zeta.
  destruct ((Files.available_size info <=? s) || (e <? s)) eqn:Ec.
  - split; [discriminate|]. intros _. eexists. reflexivity.
  - apply orb_false_elim in Ec as [Ea Eb].
    apply Z.leb_gt in Ea. apply Z.ltb_ge in Eb.
    split; [|lia].
    cbn [orb]. intros d [= <-]. simpl. lia.
Qed.

Lemma served_range_within_available_witness :
  let info := {| Files.available_size := 100; Files.size := 200;
                 Files.filename := "a.bin"; Files.mime_type := None;
                 Files.retention := None;
                 Files.retention_expires_at := None;
                 Files.download_count := None |} in
  exists d : Files.Download,
    Files.download_file "abc" (Some info) (Some "bytes=40-1000") = Ok d
    /\ 0 <= Files.start d
    /\ 1 <= Files.content_length d
    /\ Files.start d + Files.content_length d <= 100.
Proof.
  intros info.
  assert (Hne : "bytes=40-1000" <> "") by discriminate.
  pose proof (proj1 (served_range_within_available "abc" info
                       "bytes=40-1000" Hne)) as Hb.
  destruct (Files.download_file "abc" (Some info) (Some "bytes=40-1000"))
    as [d|e] eqn:E; [|vm_compute in E; discriminate E].
  exists d. split; [reflexivity|]. apply Hb. reflexivity.
Defined.

(** ** After a full download *)

(** The background task of a full download of a completed file counts the
    download in the file record. A file kept under the [download_once]
    policy is then deleted: nothing is left of it in the store or in
    either directory, and [get_file_info] no longer finds it. Under any
    other policy the incremented count is the only change. *)
Theorem full_download_recorded (env : Env) (fid : string) (st : State)
    (f : FileInfo) :
  kv st !! _file_key fid = Some (SFile f) ->
  let out :=
    Streaming._after_download (record_download env) delete_upload fid st in
  fst out = Returned tt
  /\ if String.eqb (fi_retention f) "download_once"
     then get_file_info fid (snd out) = (Ok None, snd out)
          /\ uploads_dir (snd out) !! get_file_path fid = None
          /\ (forall name : string,
                 String.prefix fid name = true ->
                 files_dir (snd out) !! name = None)
     else kv (snd out)
          = <[_file_key fid :=
                SFile (fi_with_download_count (fi_download_count f + 1) f)]>
              (kv st)
          /\ uploads_dir (snd out) = uploads_dir st
          /\ files_dir (snd out) = files_dir st.
Proof.
  intros Hf out. subst out.
  set (f1 := fi_with_download_count (fi_download_count f + 1) f).
  set (st1 := {| kv := <[_file_key fid := SFile f1]> (kv st);
                 uploads_dir := uploads_dir st;
                 files_dir := files_dir st |}).
  assert (Hrec : record_download env fid st
                 = (Returned
                      {| dr_should_delete :=
                           String.eqb (fi_retention f) "download_once";
                         dr_retention := fi_retention f;
                         dr_download_count := fi_download_count f + 1 |},
                    st1)).
  { unfold record_download. rewrite Hf. reflexivity. }
  unfold Streaming._after_download. rewrite Hrec.
  cbn [dr_should_delete].
  destruct (String.eqb (fi_retention f) "download_once").
  - rewrite (delete_upload_returns fid st1). cbn [of_res fst snd].
    split; [reflexivity|].
    set (st2 := snd (delete_upload fid st1)).
    assert (Hk : forall k, kv st2 !! k
                 = if bool_decide (k = _upload_key fid \/ k = _file_key fid
                                   \/ k = _lock_key fid)
                   then None else kv st1 !! k)
      by (intros k; apply delete_upload_kv).
    split; [|split].
    + unfold get_file_info, state_get.
      unfold mbind, M_bind. rewrite Hk.
      rewrite bool_decide_eq_true_2 by (right; left; reflexivity).
      rewrite (get_upload_absent fid st2); [reflexivity|].
      intros u. rewrite Hk.
      rewrite bool_decide_eq_true_2 by (left; reflexivity). discriminate.
    + destruct (delete_upload_dirs fid st1 (get_file_path fid)) as [Hu _].
      subst st2. rewrite Hu.
      rewrite bool_decide_eq_true_2 by reflexivity. reflexivity.
    + intros name Hp.
      destruct (delete_upload_dirs fid st1 name) as [_ Hd].
      subst st2. rewrite Hd, Hp. reflexivity.
  - cbn [fst snd kv uploads_dir files_dir]. repeat split.
Qed.

Lemma full_download_recorded_witness :
  let f := {| fi_file_id := Sample.file_id; fi_filename := "a.txt";
              fi_size := 2; fi_available_size := 2;
              fi_mime_type := None; fi_checksum := None;
              fi_is_complete := true; fi_created_at := 0;
              fi_completed_at := 1;
              fi_storage_path := str_final_path Sample.file_id "a.txt";
              fi_retention := "download_once"; fi_retention_ttl := None;
              fi_retention_expires_at := None; fi_download_count := 0;
              fi_owner_id := None |} in
  let st := {| kv := {[ _file_key Sample.file_id := SFile f ]};
               uploads_dir := ∅;
               files_dir :=
                 {[ get_final_path Sample.file_id "a.txt"
                    := [Byte.x61; Byte.x62] ]} |} in
  let out :=
    Streaming._after_download (record_download (Sample.env 2)) delete_upload
      Sample.file_id st in
  get_file_info Sample.file_id (snd out) = (Ok None, snd out).
Proof.
  intros f st out.
  assert (Hf : kv st !! _file_key Sample.file_id = Some (SFile f))
    by (vm_compute; reflexivity).
  exact (proj1 (proj2 (full_download_recorded (Sample.env 2) Sample.file_id
                         st f Hf))).
Defined.

(** ** Integers as text *)

Lemma digit_value_pretty_char (r : N) :
  (r < 10)%N -> digit_value (pretty_N_char r) = Some (Z.of_N r).
Proof.
  intros H.
  assert (r = 0 \/ r = 1 \/ r = 2 \/ r = 3 \/ r = 4 \/ r = 5 \/ r = 6
          \/ r = 7 \/ r = 8 \/ r = 9)%N as Hr by lia.
  repeat (destruct Hr as [->|Hr]; [reflexivity|]). subst r. reflexivity.
Qed.

Lemma count_digits_le (s : string) :
  (count_digits s <= String.length s)%nat.
Proof.
  induction s as [|c t IH]; simpl; [lia|].
  destruct (digit_value c); lia.
Qed.

Lemma all_digits_cons (c : ascii) (t : string) :
  count_digits (String c t) = String.length (String c t) ->
  (exists d : Z, digit_value c = Some d)
  /\ count_digits t = String.length t.
Proof.
  simpl. pose proof (count_digits_le t) as Hle.
  destruct (digit_value c) as [d|]; [|lia].
  intros H. split; [eauto | lia].
Qed.

Lemma digit_not_space (c : ascii) (d : Z) :
  digit_value c = Some d -> is_space c = false.
Proof.
  unfold digit_value, is_space.
  destruct ((48 <=? nat_of_ascii c) && (nat_of_ascii c <=? 57))%nat eqn:E;
    [|discriminate].
  intros _. apply andb_prop in E as [Hlo Hhi].
  apply Nat.leb_le in Hlo, Hhi.
  repeat match goal with
         | |- context [(?a <=? ?b)%nat] =>
             destruct (Nat.leb_spec a b); try lia
         | |- context [(?a =? ?b)%nat] =>
             destruct (Nat.eqb_spec a b); try lia
         end; reflexivity.
Qed.

Lemma digit_not_char (c a : ascii) (d : Z) :
  digit_value c = Some d -> digit_value a = None -> Ascii.eqb c a = false.
Proof.
  intros Hc Ha. destruct (Ascii.eqb_spec c a) as [->|]; [congruence|reflexivity].
Qed.

Lemma all_digits_lstrip (s : string) :
  count_digits s = String.length s -> lstrip s = s.
Proof.
  destruct s as [|c t]; [reflexivity|].
  intros H. apply all_digits_cons in H as [[d Hd] _].
  simpl. rewrite (digit_not_space c d Hd). reflexivity.
Qed.

Lemma all_digits_rstrip (s : string) :
  count_digits s = String.length s -> rstrip s = s.
Proof.
  induction s as [|c t IH]; [reflexivity|].
  intros H. apply all_digits_cons in H as [[d Hd] Ht].
  cbn [rstrip]. rewrite (IH Ht).
  destruct t; [|reflexivity].
  rewrite (digit_not_space c d Hd). reflexivity.
Qed.

Lemma all_digits_contains (a : ascii) (s : string) :
  digit_value a = None ->
  count_digits s = String.length s -> contains a s = false.
Proof.
  intros Ha. induction s as [|c t IH]; [reflexivity|].
  intros H. apply all_digits_cons in H as [[d Hd] Ht].
  cbn [contains]. rewrite (digit_not_char c a d Hd Ha), (IH Ht). reflexivity.
Qed.

Lemma pretty_N_go_digits (x : N) :
  forall s : string,
    count_digits s = String.length s ->
    count_digits (pretty_N_go x s) = String.length (pretty_N_go x s).
Proof.
  induction x as [x IH] using (well_founded_induction N.lt_wf_0).
  intros s Hs. destruct (N.eq_dec x 0%N) as [->|Hx].
  - rewrite pretty_N_go_0. exact Hs.
  - rewrite pretty_N_go_step by lia. apply IH.
    + apply N.div_lt; lia.
    + simpl. rewrite (digit_value_pretty_char (x mod 10)).
      * rewrite Hs. reflexivity.
      * apply N.mod_lt. lia.
Qed.

Lemma int_digits_pretty_N_go (x : N) :
  (0 < x)%N ->
  exists p : Z,
    forall (s : string) (prev : bool) (acc : Z),
      int_digits prev acc (pretty_N_go x s)
      = int_digits true (acc * p + Z.of_N x) s.
Proof.
  induction x as [x IH] using (well_founded_induction N.lt_wf_0).
  intros Hx.
  assert (Hr : (x mod 10 < 10)%N) by (apply N.mod_lt; lia).
  assert (Hdiv : Z.of_N x = 10 * Z.of_N (x / 10) + Z.of_N (x mod 10)).
  { pose proof (N.div_mod x 10) as Hd. lia. }
  destruct (N.eq_dec (x / 10)%N 0%N) as [Hq|Hq].
  - exists 10. intros s prev acc.
    rewrite pretty_N_go_step by lia. rewrite Hq, pretty_N_go_0.
    cbn [int_digits]. rewrite (digit_value_pretty_char _ Hr).
    f_equal. rewrite Hdiv, Hq. lia.
  - assert (Hlt : (x / 10 < x)%N) by (apply N.div_lt; lia).
    destruct (IH (x / 10)%N Hlt) as [p Hp]; [lia|].
    exists (10 * p). intros s prev acc.
    rewrite pretty_N_go_step by lia. rewrite Hp.
    cbn [int_digits]. rewrite (digit_value_pretty_char _ Hr).
    f_equal. rewrite Hdiv. lia.
Qed.

Lemma py_int_all_digits (s : string) (n : Z) :
  count_digits s = String.length s ->
  (count_digits s <= int_max_str_digits)%nat ->
  int_digits false 0 s = Some n ->
  py_int s = Some n.
Proof.
  intros Hall Hmax Hint. unfold py_int, strip.
  rewrite (all_digits_lstrip s Hall), (all_digits_rstrip s Hall).
  destruct s as [|a r]; [discriminate Hint|].
  destruct (all_digits_cons a r Hall) as [[d Hd] _].
  assert (Hm : Ascii.eqb a "-" = false)
    by (apply (digit_not_char a "-" d Hd); reflexivity).
  assert (Hp : Ascii.eqb a "+" = false)
    by (apply (digit_not_char a "+" d Hd); reflexivity).
  assert (Hbody :
    (if (int_max_str_digits <? count_digits (String a r))%nat then None
     else match int_digits false 0 (String a r) with
          | Some m => Some m
          | None => None
          end) = Some n).
  { destruct (Nat.ltb_spec int_max_str_digits (count_digits (String a r)));
      [lia|]. rewrite Hint. reflexivity. }
  destruct a as [[] [] [] [] [] [] [] []];
    try discriminate Hm; try discriminate Hp; exact Hbody.
Qed.

Lemma pretty_pos_digits (p : positive) :
  count_digits (pretty (N.pos p)) = String.length (pretty (N.pos p))
  /\ int_digits false 0 (pretty (N.pos p)) = Some (Z.pos p).
Proof.
  unfold pretty, pretty_N.
  destruct (decide (N.pos p = 0%N)) as [|_]; [discriminate|].
  split.
  - apply pretty_N_go_digits. reflexivity.
  - destruct (int_digits_pretty_N_go (N.pos p)) as [q Hq]; [lia|].
    rewrite Hq. reflexivity.
Qed.

(** [int(str(n))] is [n], for an integer within the limit on the digits
    of a literal. *)
Lemma py_int_str_of_int (n : Z) :
  (count_digits (str_of_int n) <= int_max_str_digits)%nat ->
  py_int (str_of_int n) = Some n.
Proof.
  destruct n as [|p|p].
  - intros _. reflexivity.
  - change (str_of_int (Z.pos p)) with (pretty (N.pos p)).
    intros Hmax. destruct (pretty_pos_digits p) as [Hall Hint].
    apply py_int_all_digits; assumption.
  - change (str_of_int (Z.neg p)) with (String "-" (pretty (N.pos p))).
    destruct (pretty_pos_digits p) as [Hall Hint].
    set (s := pretty (N.pos p)) in *.
    change (count_digits (String "-" s)) with (count_digits s).
    intros Hmax. unfold py_int, strip.
    change (lstrip (String "-" s)) with (String "-" s).
    assert (Hs : s <> "") by (intros E; rewrite E in Hint; discriminate Hint).
    assert (rstrip (String "-" s) = String "-" s) as ->.
    { cbn [rstrip]. rewrite (all_digits_rstrip s Hall).
      destruct s; [congruence | reflexivity]. }
    destruct (Nat.ltb_spec int_max_str_digits (count_digits s)); [lia|].
    rewrite Hint. reflexivity.
Qed.

Lemma str_of_nonneg_digits (n : Z) :
  0 <= n ->
  count_digits (str_of_int n) = String.length (str_of_int n)
  /\ str_of_int n <> "".
Proof.
  intros Hn. destruct n as [|p|p].
  - split; [reflexivity | discriminate].
  - change (str_of_int (Z.pos p)) with (pretty (N.pos p)).
    destruct (pretty_pos_digits p) as [Hall Hint].
    split; [exact Hall|]. intros E. rewrite E in Hint. discriminate Hint.
  - lia.
Qed.

(** ** Resuming an upload *)

Lemma validate_checksum_outcome `{!Externals} (request : Request)
    (data : bytes) (st : State) :
  validate_checksum request data st = (Ok tt, st)
  \/ exists e : exn,
       validate_checksum request data st = (Raise e, st)
       /\ (http_status (Raise e : res Response) = Some 460
           \/ http_status (Raise e : res Response) = Some 400
           \/ http_status (Raise e : res Response) = None).
Proof.
  unfold validate_checksum.
  destruct (headers request !! TusHeaders.UPLOAD_CHECKSUM) as [h|];
    [|left; reflexivity].
  destruct (negb (truthy h)); [left; reflexivity|].
  destruct (split1 " " h) as [|algo [|expected [|? ?]]];
    try (right; eexists; split; [reflexivity|]; right; right; reflexivity).
  destruct (checksum_digest algo data) as [actual|].
  - destruct (negb (String.eqb actual expected)); [|left; reflexivity].
    right. eexists. split; [reflexivity|]. left. reflexivity.
  - right. eexists. split; [reflexivity|]. right. left. reflexivity.
Qed.

Lemma store_chunk_status `{!Externals} (env : Env) (fid : string)
    (u : TusUpload) (off : Z) (data : bytes) (st : State) :
  http_status (fst (store_chunk env fid u off data st)) = Some 204
  \/ http_status (fst (store_chunk env fid u off data st)) = None.
Proof.
  unfold store_chunk.
  destruct (write_chunk env fid data off st) as [[w|e] st1] eqn:Ew.
  2:{ rewrite (bind_raise _ _ _ _ _ Ew). right.
      destruct (write_chunk_raises env fid data off st e) as [->|[->|[m ->]]];
        [rewrite Ew; reflexivity|reflexivity..]. }
  rewrite (bind_ok _ _ _ _ _ Ew).
  match goal with
  | |- context [update_upload env ?x] => set (u2 := x)
  end.
  assert (Hupd : update_upload env u2 st1
                 = (Ok tt, snd (update_upload env u2 st1))) by reflexivity.
  rewrite (bind_ok _ _ _ _ _ Hupd).
  set (st2 := snd (update_upload env u2 st1)).
  destruct (is_final u2).
  - destruct (finalize_upload env fid st2) as [[[]|e] st3] eqn:Ef.
    + rewrite (bind_ok _ _ _ _ _ Ef). left. reflexivity.
    + rewrite (bind_raise _ _ _ _ _ Ef). right.
      destruct (finalize_upload_raises env fid st2 e) as [m ->];
        [rewrite Ef; reflexivity | reflexivity].
  - left. reflexivity.
Qed.

Lemma admit_chunk_status `{!Externals} (r : Router) (env : Env)
    (fid : string) (request : Request) (u : TusUpload) (off : Z)
    (data : bytes) (st : State) (c : Z) :
  http_status (fst (admit_chunk r env fid request u off data st)) = Some c ->
  c = 507 \/ c = 400 \/ c = 460 \/ c = 204.
Proof.
  unfold admit_chunk.
  destruct (check_quota_pure (storage r) (Z.of_nat (length data)) st)
    as (allowed & usage & Hq).
  rewrite (bind_ok _ _ _ _ _ Hq).
  destruct allowed; cbn [negb].
  2:{ intros [= <-]. left. reflexivity. }
  destruct (size u <? off + Z.of_nat (length data)).
  { intros [= <-]. right. left. reflexivity. }
  destruct (validate_checksum_outcome request data st)
    as [Hv | (e & Hv & He)].
  - rewrite (bind_ok _ _ _ _ _ Hv).
    destruct (store_chunk_status env fid u off data st) as [-> | ->];
      [intros [= <-]; auto | discriminate].
  - rewrite (bind_raise _ _ _ _ _ Hv). cbn [fst].
    destruct He as [-> | [-> | ->]]; [intros [= <-]; auto.. | discriminate].
Qed.

(** The offset that HEAD reports can be sent back as it is: a PATCH that
    carries the [Upload-Offset] value of the HEAD response passes the
    validation of the offset and goes on to the quota check, so it is
    never answered 409. HEAD itself leaves the state alone. *)
Theorem reported_offset_resumes_upload `{!Externals} (r : Router)
    (env env' : Env) (fid : string) (probe request : Request) (st : State)
    (u : TusUpload) (response : Response) :
  kv st !! _upload_key fid = Some (SUpload u) ->
  fst (tus_head r env fid probe st) = Ok response ->
  headers request !! TusHeaders.UPLOAD_OFFSET
  = resp_headers response !! TusHeaders.UPLOAD_OFFSET ->
  (count_digits (str_of_int (offset u)) <= int_max_str_digits)%nat ->
  validate_tus_version request st = (Ok tt, st) ->
  headers request !! TusHeaders.CONTENT_TYPE = Some CONTENT_TYPE_OFFSET ->
  expired env' u = false ->
  body request <> [] ->
  snd (tus_head r env fid probe st) = st
  /\ tus_patch r env' fid request st
     = admit_chunk r env' fid request u (offset u) (body request) st
  /\ http_status (fst (tus_patch r env' fid request st)) <> Some 409.
Proof.
  intros Hu Hhead Hoff Hmax Hver Hct Hexp Hbody.
  assert (Hresp : snd (tus_head r env fid probe st) = st
                  /\ resp_headers response !! TusHeaders.UPLOAD_OFFSET
                     = Some (str_of_int (offset u))).
  { revert Hhead. unfold tus_head.
    destruct (validate_tus_version_cases probe st) as [Hv|Hv].
    2:{ rewrite (bind_raise _ _ _ _ _ Hv). discriminate. }
    rewrite (bind_ok _ _ _ _ _ Hv).
    rewrite (bind_ok _ _ _ _ _ (get_upload_stored fid st u Hu)).
    destruct (expired env u).
    { rewrite (bind_ok _ _ _ _ _ (delete_upload_returns fid st)).
      discriminate. }
    cbn [mret M_ret fst snd]. intros [= <-]. split; [reflexivity|].
    cbn [resp_headers]. rewrite lookup_insert_ne by discriminate.
    unfold with_expires. destruct (expires_at u);
      repeat (rewrite lookup_insert_ne by discriminate);
      apply lookup_insert_eq. }
  destruct Hresp as [Hst Hhdr]. rewrite Hhdr in Hoff.
  assert (Hpatch : tus_patch r env' fid request st
                   = admit_chunk r env' fid request u (offset u)
                       (body request) st).
  { apply (tus_patch_admitted r env' fid request st u
             (str_of_int (offset u))); try assumption.
    apply py_int_str_of_int, Hmax. }
  split; [exact Hst|]. split; [exact Hpatch|].
  rewrite Hpatch. intros Hc.
  destruct (admit_chunk_status _ _ _ _ _ _ _ _ _ Hc) as [?|[?|[?|?]]];
    discriminate.
Qed.

Lemma reported_offset_resumes_upload_witness :
  let st := Sample.patched "5" [Byte.x61; Byte.x62] in
  let request :=
    Sample.patch_request "2" [] [Byte.x63] in
  http_status
    (fst (@tus_patch Sample.externals Sample.router (Sample.env 2)
            Sample.file_id request st)) <> Some 409.
Proof.
  intros st request.
  destruct (@tus_head Sample.externals Sample.router (Sample.env 2)
              Sample.file_id (Sample.request [] []) st)
    as [[response|e] st1] eqn:E; [|vm_compute in E; discriminate E].
  destruct (kv st !! _upload_key Sample.file_id) as [[u| |]|] eqn:Eu;
    try (vm_compute in Eu; discriminate Eu).
  refine (proj2 (proj2
            (@reported_offset_resumes_upload Sample.externals Sample.router
               (Sample.env 2) (Sample.env 2) Sample.file_id
               (Sample.request [] []) request st u response Eu _ _ _ _ _ _ _))).
  - rewrite E. reflexivity.
  - vm_compute in E. injection E as <- _. vm_compute. reflexivity.
  - vm_compute in Eu. injection Eu as <-. vm_compute. lia.
  - vm_compute. reflexivity.
  - vm_compute. reflexivity.
  - vm_compute in Eu. injection Eu as <-. vm_compute. reflexivity.
  - discriminate.
Defined.

(** ** The chunks of the downloader *)

Lemma contains_app (c : ascii) (a b : string) :
  contains c (a +:+ b) = contains c a || contains c b.
Proof.
  induction a as [|x a IH]; [reflexivity|].
  change (String x a +:+ b) with (String x (a +:+ b)).
  cbn [contains]. rewrite IH. apply orb_assoc.
Qed.

Lemma split_app_sep (sep : ascii) (a t : string) :
  contains sep a = false ->
  split sep (a +:+ String sep t) = a :: split sep t.
Proof.
  induction a as [|x a IH]; intros H.
  - change ("" +:+ String sep t) with (String sep t).
    cbn [split]. rewrite Ascii.eqb_refl. reflexivity.
  - cbn [contains] in H. apply orb_false_elim in H as [Hx Ha].
    change (String x a +:+ String sep t) with (String x (a +:+ String sep t)).
    cbn [split]. rewrite Hx, (IH Ha). reflexivity.
Qed.

Lemma replace_bytes_prefix (s : string) :
  contains "b" s = false -> replace "bytes=" "" ("bytes=" +:+ s) = s.
Proof.
  intros H. pose proof (replace_bytes_absent s H) as Hs.
  unfold replace in *. simpl. unfold String.app, String.rev. simpl.
  destruct s; exact Hs.
Qed.

Lemma parse_rendered_range (a b available : Z) :
  0 <= a -> 0 <= b ->
  (count_digits (str_of_int a) <= int_max_str_digits)%nat ->
  (count_digits (str_of_int b) <= int_max_str_digits)%nat ->
  Files.parse_range (Downloader.range_header (a, b)) available
  = Some (a, Z.min b (available - 1)).
Proof.
  intros Ha Hb Hma Hmb.
  destruct (str_of_nonneg_digits a Ha) as [Hda Hna].
  destruct (str_of_nonneg_digits b Hb) as [Hdb Hnb].
  unfold Files.parse_range, Downloader.range_header. cbn [fst snd].
  set (sa := str_of_int a) in *. set (sb := str_of_int b) in *.
  change (sa +:+ "-" +:+ sb) with (sa +:+ String "-" sb).
  assert (Hb1 : contains "b" (sa +:+ String "-" sb) = false).
  { rewrite contains_app. cbn [contains].
    rewrite (all_digits_contains "b" sa eq_refl Hda),
      (all_digits_contains "b" sb eq_refl Hdb). reflexivity. }
  rewrite (replace_bytes_prefix _ Hb1).
  assert (contains "-" (sa +:+ String "-" sb) = true) as ->.
  { rewrite contains_app. cbn [contains]. apply orb_true_r. }
  rewrite (split_app_sep "-" sa sb (all_digits_contains "-" sa eq_refl Hda)).
  rewrite (split_no_sep "-" sb (all_digits_contains "-" sb eq_refl Hdb)).
  cbn [nth].
  rewrite (truthy_true sa Hna), (truthy_true sb Hnb).
  subst sa sb. rewrite (py_int_str_of_int a Hma), (py_int_str_of_int b Hmb).
  reflexivity.
Qed.

(** The downloader and the download route agree on the chunks of a file.
    For a file with bytes available, the request that the client sends
    for chunk [i] of the [n] chunks it plans is answered 206 with exactly
    the bytes from [i * chunk_size] on: a full chunk, except for the last
    chunk, which ends with the last byte available. The chunks therefore
    follow one another without gap or overlap and cover the file. *)
Theorem chunk_requests_tile_the_file (file_id : string) (info : Files.Info)
    (chunk_size n i : Z) :
  0 < chunk_size ->
  0 < Files.available_size info ->
  Downloader.total_chunks (Files.available_size info) chunk_size = Some n ->
  0 <= i < n ->
  (let range :=
     Downloader.chunk_range chunk_size i None
       (Some (Files.available_size info)) in
   (count_digits (str_of_int range.1) <= int_max_str_digits)%nat
   /\ (count_digits (str_of_int range.2) <= int_max_str_digits)%nat) ->
  exists d : Files.Download,
    Files.download_file file_id (Some info)
      (Some (Downloader.chunk_request chunk_size
               (Files.available_size info) i)) = Ok d
    /\ Files.status_code d = 206
    /\ Files.start d = i * chunk_size
    /\ Files.content_length d
       = (if i <? n - 1 then chunk_size
          else Files.available_size info - i * chunk_size)
    /\ 0 < Files.content_length d <= chunk_size.
Proof.
  intros Hcs Hav Hn Hi.
  set (avail := Files.available_size info) in *.
  unfold Downloader.total_chunks in Hn.
  destruct (Z.eqb_spec chunk_size 0) as [|_]; [lia|].
  injection Hn as Hn.
  assert (Hlo : chunk_size * n <= avail + chunk_size - 1)
    by (rewrite <- Hn; apply Z.mul_div_le; lia).
  assert (Hhi : avail + chunk_size - 1 < chunk_size * (n + 1)).
  { rewrite <- Hn. replace (_ / _ + 1) with (Z.succ ((avail + chunk_size - 1)
      / chunk_size)) by lia. apply Z.mul_succ_div_gt. lia. }
  unfold Downloader.chunk_request, Downloader.chunk_range.
  cbn [int_truthy]. change (default 0 (Some avail)) with avail.
  assert ((avail =? 0) = false) as -> by lia. cbn [negb andb].
  set (a := i * chunk_size).
  set (b := if avail <=? a + chunk_size - 1 then avail - 1
            else a + chunk_size - 1).
  cbn [fst snd]. intros [Hma Hmb].
  assert (Ha : 0 <= a < avail) by (subst a; nia).
  assert (Hb : a <= b <= avail - 1)
    by (subst b; destruct (Z.leb_spec avail (a + chunk_size - 1)); lia).
  assert (Hlen : b - a + 1
                 = if i <? n - 1 then chunk_size else avail - a).
  { subst b a.
    destruct (Z.ltb_spec i (n - 1));
      destruct (Z.leb_spec avail (i * chunk_size + chunk_size - 1)); nia. }
  unfold Files.download_file.
  change (otruthy (Some (Downloader.range_header (a, b)))) with true.
  cbv iota.
  change (default "" (Some (Downloader.range_header (a, b))))
    with (Downloader.range_header (a, b)).
  fold avail.
  rewrite (parse_rendered_range a b avail) by lia.
  rewrite Z.min_l by lia. cbv beta iota zeta.
  assert ((avail <=? a) = false) as -> by lia.
  assert ((b <? a) = false) as -> by lia.
  cbn [orb]. eexists. split; [reflexivity|].
  cbn [Files.status_code Files.start Files.content_length].
  split; [reflexivity|]. split; [reflexivity|].
  split; [exact Hlen|].
  subst b. destruct (Z.leb_spec avail (a + chunk_size - 1)); lia.
Qed.

Lemma chunk_requests_tile_the_file_witness :
  let info := {| Files.available_size := 10; Files.size := 10;
                 Files.filename := "a.bin"; Files.mime_type := None;
                 Files.retention := None;
                 Files.retention_expires_at := None;
                 Files.download_count := None |} in
  exists d : Files.Download,
    Files.download_file "abc" (Some info)
      (Some (Downloader.chunk_request 4 10 2)) = Ok d
    /\ Files.start d = 8
    /\ Files.content_length d = 2.
Proof.
  intros info.
  destruct (chunk_requests_tile_the_file "abc" info 4 3 2)
    as (d & Hd & _ & Hs & Hl & _).
  - lia.
  - simpl. lia.
  - reflexivity.
  - lia.
  - vm_compute. split; lia.
  - exists d. split; [exact Hd|]. split; [exact Hs | exact Hl].
Defined.

(** ** An upload completed by its POST *)

Lemma tus_create_record `{!Externals} (r : Router) (env : Env)
    (request : Request) (st : State) (response : Response) (n : Z) :
  fst (tus_create r env request st) = Ok response ->
  py_int (default "" (headers request !! TusHeaders.UPLOAD_LENGTH))
  = Some n ->
  exists u : TusUpload,
    kv (snd (tus_create r env request st)) !! _upload_key (file_id_uuid env)
    = Some (SUpload u)
    /\ size u = n
    /\ is_final u = false
    /\ offset u = (if creation_with_upload r request
                   then Z.of_nat (length (body request)) else 0)
    /\ (forall k : string,
           k <> _upload_key (file_id_uuid env) ->
           k <> _lock_key (file_id_uuid env) ->
           kv (snd (tus_create r env request st)) !! k = kv st !! k).
Proof.
  unfold tus_create.
  destruct (validate_tus_version_cases request st) as [Hv|Hv].
  2:{ rewrite (bind_raise _ _ _ _ _ Hv). discriminate. }
  rewrite (bind_ok _ _ _ _ _ Hv).
  destruct (otruthy (headers request !! TusHeaders.UPLOAD_LENGTH)); simpl;
    [|discriminate].
  destruct (py_int (default "" (headers request !! TusHeaders.UPLOAD_LENGTH)))
    as [m|] eqn:En; [|discriminate].
  destruct (int_truthy (router_max_size r)
            && (default 0 (router_max_size r) <? m)); [discriminate|].
  destruct (create_metadata env request) as [tm|e]; [|destruct e; discriminate].
  pose proof (new_upload_fields r env request m tm)
    as (Hid & Hfn & Hsz & Hoff & Hnf).
  set (up := new_upload r env request m tm) in *.
  intros Hok [= <-]. revert Hok.
  unfold save_upload.
  assert (Hc : create_upload up st = (Ok tt, snd (create_upload up st)))
    by reflexivity.
  rewrite (bind_ok _ _ _ _ _ Hc).
  set (st1 := snd (create_upload up st)).
  assert (Hk1 : kv st1 = <[_upload_key (file_id_uuid env) := SUpload up]>
                           (kv st)).
  { subst st1. unfold create_upload, state_set, set_uploads_dir, get_state,
      mbind, M_bind. simpl. rewrite Hid. reflexivity. }
  rewrite Hid.
  destruct (creation_with_upload r request).
  - destruct (write_chunk env (file_id_uuid env) (body request) 0 st1)
      as [[w|e] st2] eqn:Ew.
    2:{ erewrite bind_raise by (erewrite bind_raise by exact Ew; reflexivity).
        discriminate. }
    assert (Hk2 : forall k : string,
               k <> _lock_key (file_id_uuid env) ->
               kv st2 !! k = kv st1 !! k).
    { intros k Hk.
      pose proof (write_chunk_frame env (file_id_uuid env) (body request) 0
                    st1 k Hk) as Hfr.
      rewrite Ew in Hfr. exact Hfr. }
    erewrite bind_ok by (erewrite bind_ok by exact Ew; reflexivity).
    simpl. intros _. rewrite Hid.
    eexists. split; [apply lookup_insert_eq|]. simpl.
    split; [exact Hsz|]. split; [exact Hnf|]. split; [reflexivity|].
    intros k Hku Hkl. rewrite lookup_insert_ne by congruence.
    rewrite (Hk2 k Hkl), Hk1. apply lookup_insert_ne. congruence.
  - simpl. intros _. exists up. rewrite Hid.
    split; [apply lookup_insert_eq|].
    split; [exact Hsz|]. split; [exact Hnf|]. split; [exact Hoff|].
    intros k Hku _. apply lookup_insert_ne. congruence.
Qed.

Lemma patch_on_complete_record `{!Externals} (r : Router) (env : Env)
    (fid : string) (request : Request) (st : State) (u : TusUpload) :
  kv st !! _upload_key fid = Some (SUpload u) ->
  size u <= offset u ->
  http_status (fst (tus_patch r env fid request st)) <> Some 204
  /\ (snd (tus_patch r env fid request st) = st
      \/ expired env u = true
         /\ http_status (fst (tus_patch r env fid request st)) = Some 410).
Proof.
  intros Hu Hcomplete.
  unfold tus_patch.
  destruct (validate_tus_version_cases request st) as [Hv|Hv].
  2:{ rewrite (bind_raise _ _ _ _ _ Hv). simpl.
      repeat split; try discriminate. left. reflexivity. }
  rewrite (bind_ok _ _ _ _ _ Hv).
  destruct (bool_decide (headers request !! TusHeaders.CONTENT_TYPE
                         = Some CONTENT_TYPE_OFFSET)); simpl.
  2:{ repeat split; try discriminate. left. reflexivity. }
  rewrite (bind_ok _ _ _ _ _ (get_upload_stored fid st u Hu)).
  destruct (expired env u) eqn:Eexp.
  { rewrite (bind_ok _ _ _ _ _ (delete_upload_returns fid st)). simpl.
    repeat split; try discriminate. right. split; reflexivity. }
  destruct (otruthy (headers request !! TusHeaders.UPLOAD_OFFSET)); simpl.
  2:{ repeat split; try discriminate. left. reflexivity. }
  destruct (py_int (default "" (headers request !! TusHeaders.UPLOAD_OFFSET)))
    as [off|]; simpl.
  2:{ repeat split; try discriminate. left. reflexivity. }
  destruct (Z.eqb_spec off (offset u)) as [->|Hne]; simpl.
  2:{ repeat split; try discriminate. left. reflexivity. }
  destruct (body request) as [|b bs] eqn:Ebody; simpl.
  { repeat split; try discriminate. left. reflexivity. }
  unfold admit_chunk.
  destruct (check_quota_pure (storage r)
              (Z.of_nat (length (b :: bs))) st) as (allowed & usage & Hq).
  rewrite (bind_ok _ _ _ _ _ Hq).
  destruct allowed.
  2:{ simpl. repeat split; try discriminate. left. reflexivity. }
  change (negb true) with false. cbv iota.
  assert ((size u <? offset u + Z.of_nat (length (b :: bs))) = true) as ->.
  { apply Z.ltb_lt. cbn [length]. rewrite Nat2Z.inj_succ.
    pose proof (Nat2Z.is_nonneg (length bs)). lia. }
  simpl. repeat split; try discriminate. left. reflexivity.
Qed.

(** An upload whose POST already carries every declared byte is stored
    complete but is not finalized: the record stays non-final and no file
    record is written. No PATCH can make up for it: whatever the request,
    a PATCH to that upload is never answered 204 and changes nothing,
    unless the upload has expired and the PATCH deletes it with 410. *)
Theorem upload_completed_by_post_is_stuck `{!Externals} (r : Router)
    (env env' : Env) (request request' : Request) (st : State)
    (response : Response) (n : Z) :
  fst (tus_create r env request st) = Ok response ->
  creation_with_upload r request = true ->
  py_int (default "" (headers request !! TusHeaders.UPLOAD_LENGTH))
  = Some n ->
  n <= Z.of_nat (length (body request)) ->
  let fid := file_id_uuid env in
  let st1 := snd (tus_create r env request st) in
  (exists u : TusUpload,
      kv st1 !! _upload_key fid = Some (SUpload u)
      /\ is_complete u = true
      /\ is_final u = false)
  /\ kv st1 !! _file_key fid = kv st !! _file_key fid
  /\ http_status (fst (tus_patch r env' fid request' st1)) <> Some 204
  /\ (snd (tus_patch r env' fid request' st1) = st1
      \/ http_status (fst (tus_patch r env' fid request' st1)) = Some 410).
Proof.
  intros Hok Hcwu Hn Hlen fid st1.
  destruct (tus_create_record r env request st response n Hok Hn)
    as (u & Hu & Hsz & Hnf & Hoff & Hframe).
  rewrite Hcwu in Hoff.
  assert (Hc : size u <= offset u) by lia.
  split.
  { exists u. split; [exact Hu|]. split; [|exact Hnf].
    unfold is_complete. lia. }
  split.
  { apply Hframe.
    - intros E. symmetry in E. exact (upload_key_ne_file _ _ E).
    - apply file_key_ne_lock. }
  destruct (patch_on_complete_record r env' fid request' st1 u Hu Hc)
    as [H204 [Hsame | [_ H410]]].
  - split; [exact H204 | left; exact Hsame].
  - split; [exact H204 | right; exact H410].
Qed.

Lemma upload_completed_by_post_is_stuck_witness :
  let request :=
    Sample.request [("Upload-Length", "2");
                    ("Content-Type", "application/offset+octet-stream")]
                   [Byte.x61; Byte.x62] in
  let st1 := snd (@tus_create Sample.externals Sample.router (Sample.env 0)
                    request Sample.empty_state) in
  http_status
    (fst (@tus_patch Sample.externals Sample.router (Sample.env 1)
            Sample.file_id (Sample.patch_request "2" [] [Byte.x63]) st1))
  <> Some 204.
Proof.
  intros request st1.
  assert (Hex : exists response : Response,
             fst (@tus_create Sample.externals Sample.router (Sample.env 0)
                    request Sample.empty_state) = Ok response)
    by (eexists; vm_compute; reflexivity).
  destruct Hex as [response Hresp].
  refine (proj1 (proj2 (proj2
            (@upload_completed_by_post_is_stuck Sample.externals
               Sample.router (Sample.env 0) (Sample.env 1) request
               (Sample.patch_request "2" [] [Byte.x63]) Sample.empty_state
               response 2 Hresp _ _ _)))).
  - vm_compute. reflexivity.
  - vm_compute. reflexivity.
  - simpl. lia.
Defined.

(** ** Cleaning up *)

Lemma prefix_app (a b : string) : String.prefix a (a +:+ b) = true.
Proof.
  induction a as [|c a IH]; [destruct b; reflexivity|].
  change (String c a +:+ b) with (String c (a +:+ b)).
  cbn [String.prefix]. destruct (ascii_dec c c); [exact IH | congruence].
Qed.

Lemma prefix_split (a k : string) :
  String.prefix a k = true -> exists s : string, k = a +:+ s.
Proof.
  revert k. induction a as [|c a IH]; intros k H.
  - exists k. reflexivity.
  - destruct k as [|d k]; [discriminate H|].
    cbn [String.prefix] in H. destruct (ascii_dec c d) as [->|]; [|discriminate].
    destruct (IH k H) as [s ->]. exists s. reflexivity.
Qed.

Lemma file_key_inj (a b : string) : _file_key a = _file_key b -> a = b.
Proof. unfold _file_key. intros H. injection H. auto. Qed.

Lemma lock_key_inj (a b : string) : _lock_key a = _lock_key b -> a = b.
Proof. unfold _lock_key. intros H. injection H. auto. Qed.

Lemma delete_all_kv_mono (ids : list string) :
  forall (st : State) (k : string),
    kv (foldl (fun (s : State) (id : string) => snd (delete_upload id s))
          st ids) !! k = None
    \/ kv (foldl (fun (s : State) (id : string) => snd (delete_upload id s))
             st ids) !! k = kv st !! k.
Proof.
  induction ids as [|id ids IH]; intros st k; [right; reflexivity|].
  cbn [foldl]. destruct (IH (snd (delete_upload id st)) k) as [H|H];
    [left; exact H|].
  rewrite H, delete_upload_kv. case_bool_decide; [left|right]; reflexivity.
Qed.

Lemma delete_all_kv_in (ids : list string) :
  forall (st : State) (id k : string),
    id ∈ ids ->
    k = _upload_key id \/ k = _file_key id \/ k = _lock_key id ->
    kv (foldl (fun (s : State) (id : string) => snd (delete_upload id s))
          st ids) !! k = None.
Proof.
  induction ids as [|id0 ids IH]; intros st id k Hin Hk.
  - inversion Hin.
  - cbn [foldl]. apply elem_of_cons in Hin as [->|Hin].
    + destruct (delete_all_kv_mono ids (snd (delete_upload id0 st)) k)
        as [H|H]; [exact H|].
      rewrite H, delete_upload_kv. rewrite bool_decide_eq_true_2 by exact Hk.
      reflexivity.
    + apply (IH _ id k Hin Hk).
Qed.

Lemma delete_all_kv_out (ids : list string) :
  forall (st : State) (k : string),
    (forall id : string,
        id ∈ ids ->
        k <> _upload_key id /\ k <> _file_key id /\ k <> _lock_key id) ->
    kv (foldl (fun (s : State) (id : string) => snd (delete_upload id s))
          st ids) !! k = kv st !! k.
Proof.
  induction ids as [|id0 ids IH]; intros st k Hout; [reflexivity|].
  cbn [foldl]. rewrite IH.
  - rewrite delete_upload_kv. rewrite bool_decide_eq_false_2; [reflexivity|].
    destruct (Hout id0) as (H1 & H2 & H3); [left|]. tauto.
  - intros id Hin. apply Hout. right. exact Hin.
Qed.

Lemma delete_all_uploads_dir (ids : list string) :
  forall (st : State) (name : string),
    (uploads_dir (foldl (fun (s : State) (id : string) =>
                           snd (delete_upload id s)) st ids) !! name = None
     \/ uploads_dir (foldl (fun (s : State) (id : string) =>
                              snd (delete_upload id s)) st ids) !! name
        = uploads_dir st !! name)
    /\ (name ∈ ids ->
        uploads_dir (foldl (fun (s : State) (id : string) =>
                              snd (delete_upload id s)) st ids) !! name
        = None)
    /\ (name ∉ ids ->
        uploads_dir (foldl (fun (s : State) (id : string) =>
                              snd (delete_upload id s)) st ids) !! name
        = uploads_dir st !! name).
Proof.
  induction ids as [|id0 ids IH]; intros st name.
  - split; [right; reflexivity|]. split; [intros H; inversion H|reflexivity].
  - cbn [foldl].
    destruct (IH (snd (delete_upload id0 st)) name) as (Hm & Hi & Ho).
    destruct (delete_upload_dirs id0 st name) as [Hd _].
    unfold get_file_path in Hd.
    split; [|split].
    + destruct Hm as [Hm|Hm]; [left; exact Hm|].
      rewrite Hm, Hd. case_bool_decide; [left|right]; reflexivity.
    + intros Hin. apply elem_of_cons in Hin as [->|Hin]; [|exact (Hi Hin)].
      destruct Hm as [Hm|Hm]; [exact Hm|].
      rewrite Hm, Hd. rewrite bool_decide_eq_true_2 by reflexivity.
      reflexivity.
    + intros Hnin. apply not_elem_of_cons in Hnin as [Hne Hnin].
      rewrite (Ho Hnin), Hd. rewrite bool_decide_eq_false_2 by exact Hne.
      reflexivity.
Qed.

Lemma clean_uploads_run (env : Env) (l : list TusUpload) :
  forall (c : Z) (st : State),
    clean_uploads env l c st
    = (Ok (c + Z.of_nat
                 (length (filter (fun u : TusUpload =>
                                    Is_true (past env (expires_at u))) l))),
       foldl (fun (s : State) (id : string) => snd (delete_upload id s)) st
         (file_id <$> filter (fun u : TusUpload =>
                                Is_true (past env (expires_at u))) l)).
Proof.
  induction l as [|u l IH]; intros c st.
  - simpl. rewrite Z.add_0_r. reflexivity.
  - cbn [clean_uploads]. destruct (past env (expires_at u)) eqn:Ep.
    + rewrite filter_cons_True by (rewrite Ep; exact I).
      rewrite (bind_ok _ _ _ _ _ (delete_upload_returns (file_id u) st)).
      rewrite IH. cbn [fmap list_fmap foldl length]. f_equal. f_equal. lia.
    + rewrite filter_cons_False by (rewrite Ep; exact id).
      apply IH.
Qed.

Lemma clean_files_run (env : Env) (l : list stored) :
  Forall (fun v : stored => exists f : FileInfo, v = SFile f) l ->
  forall (c : Z) (st : State),
    clean_files env l c st
    = (Returned
         (c + Z.of_nat
                (length
                   (omap (fun v : stored =>
                            match v with
                            | SFile f =>
                                if past env (fi_retention_expires_at f)
                                then Some (fi_file_id f) else None
                            | _ => None
                            end) l))),
       foldl (fun (s : State) (id : string) => snd (delete_upload id s)) st
         (omap (fun v : stored =>
                  match v with
                  | SFile f =>
                      if past env (fi_retention_expires_at f)
                      then Some (fi_file_id f) else None
                  | _ => None
                  end) l)).
Proof.
  induction 1 as [|v l [f ->] Hl IH]; intros c st.
  - simpl. rewrite Z.add_0_r. reflexivity.
  - cbn [clean_files expiry_and_id omap list_omap].
    destruct (past env (fi_retention_expires_at f)).
    + rewrite (delete_upload_returns (fi_file_id f) st).
      rewrite IH. cbn [foldl length]. f_equal. f_equal. lia.
    + apply IH.
Qed.

Lemma keys_apart (id fid k : string) :
  id <> fid ->
  k = _upload_key fid \/ k = _file_key fid \/ k = _lock_key fid ->
  k <> _upload_key id /\ k <> _file_key id /\ k <> _lock_key id.
Proof.
  intros Hne [-> | [-> | ->]]; repeat split; intros E.
  - apply upload_key_inj in E. congruence.
  - exact (upload_key_ne_file _ _ E).
  - exact (upload_key_ne_lock _ _ E).
  - symmetry in E. exact (upload_key_ne_file _ _ E).
  - apply file_key_inj in E. congruence.
  - exact (file_key_ne_lock _ _ E).
  - symmetry in E. exact (upload_key_ne_lock _ _ E).
  - symmetry in E. exact (file_key_ne_lock _ _ E).
  - apply lock_key_inj in E. congruence.
Qed.

Lemma elem_of_uploads_list (st : State) (u : TusUpload) :
  u ∈ uploads_of (list_uploads false true st)
  <-> exists fid : string,
        kv st !! _upload_key fid = Some (SUpload u) /\ is_final u = false.
Proof.
  unfold uploads_of, list_uploads, scan_keys.
  rewrite list_elem_of_omap. split.
  - intros (v & Hv & Hg). destruct v as [u'| |]; try discriminate Hg.
    injection Hg as ->.
    apply list_elem_of_fmap in Hv as ([k v] & Hv2 & Hin).
    simpl in Hv2. subst v.
    apply elem_of_map_to_list in Hin.
    apply map_lookup_filter_Some in Hin as [Hin Hp].
    apply map_lookup_filter_Some in Hin as [Hin Hq].
    simpl in Hp, Hq.
    apply Is_true_true in Hq. apply prefix_split in Hq as [fid ->].
    exists fid. split; [exact Hin|].
    destruct (is_final u); [destruct Hp | reflexivity].
  - intros (fid & Hk & Hnf). exists (SUpload u). split; [|reflexivity].
    apply list_elem_of_fmap. exists (_upload_key fid, SUpload u).
    split; [reflexivity|]. apply elem_of_map_to_list.
    apply map_lookup_filter_Some. split.
    + apply map_lookup_filter_Some. split; [exact Hk|].
      simpl. apply Is_true_true. apply prefix_app.
    + simpl. rewrite Hnf. exact I.
Qed.

Lemma elem_of_files_list (st : State) (v : stored) :
  v ∈ (map_to_list (list_files st)).*2
  <-> exists fid : string, kv st !! _file_key fid = Some v.
Proof.
  unfold list_files, scan_keys. rewrite list_elem_of_fmap. split.
  - intros ([k v'] & Hv & Hin). simpl in Hv. subst v'.
    apply elem_of_map_to_list in Hin.
    apply map_lookup_filter_Some in Hin as [Hin Hq]. simpl in Hq.
    apply Is_true_true in Hq. apply prefix_split in Hq as [fid ->].
    exists fid. exact Hin.
  - intros (fid & Hk). exists (_file_key fid, v). split; [reflexivity|].
    apply elem_of_map_to_list. apply map_lookup_filter_Some.
    split; [exact Hk|]. simpl. apply Is_true_true. apply prefix_app.
Qed.

(** The periodic cleanup, on a store in which every record sits under the
    key of its own id. It returns the number of deletions and removes
    what has expired: every upload that is not final and past its
    expiration, with its data file, and every completed file past its
    retention expiry, with its upload record. It touches nothing else:
    an id whose upload is final or not expired, and whose file record, if
    any, has not reached its retention expiry, keeps its records and its
    data file. *)
Theorem cleanup_removes_what_expired (env : Env) (st : State) :
  (forall (fid : string) (u : TusUpload),
      kv st !! _upload_key fid = Some (SUpload u) -> file_id u = fid) ->
  (forall (fid : string) (v : stored),
      kv st !! _file_key fid = Some v ->
      exists f : FileInfo, v = SFile f /\ fi_file_id f = fid) ->
  exists (cleaned : Z) (st' : State),
    cleanup_expired env st = (Returned cleaned, st')
    /\ 0 <= cleaned
    /\ (forall (fid : string) (u : TusUpload),
           kv st !! _upload_key fid = Some (SUpload u) ->
           is_final u = false ->
           past env (expires_at u) = true ->
           kv st' !! _upload_key fid = None
           /\ uploads_dir st' !! get_file_path fid = None)
    /\ (forall (fid : string) (f : FileInfo),
           kv st !! _file_key fid = Some (SFile f) ->
           past env (fi_retention_expires_at f) = true ->
           kv st' !! _file_key fid = None
           /\ kv st' !! _upload_key fid = None)
    /\ (forall fid : string,
           (forall u : TusUpload,
               kv st !! _upload_key fid = Some (SUpload u) ->
               is_final u = true \/ past env (expires_at u) = false) ->
           (forall f : FileInfo,
               kv st !! _file_key fid = Some (SFile f) ->
               past env (fi_retention_expires_at f) = false) ->
           kv st' !! _upload_key fid = kv st !! _upload_key fid
           /\ kv st' !! _file_key fid = kv st !! _file_key fid
           /\ uploads_dir st' !! get_file_path fid
              = uploads_dir st !! get_file_path fid).
Proof.
  intros H1 H2. unfold cleanup_expired.
  rewrite clean_uploads_run.
  set (ids1 := file_id <$> filter (fun u : TusUpload =>
                 Is_true (past env (expires_at u)))
                 (uploads_of (list_uploads false true st))).
  set (st1 := foldl (fun (s : State) (id : string) =>
                       snd (delete_upload id s)) st ids1).
  assert (Hsub : forall (k : string) (v : stored),
             kv st1 !! k = Some v -> kv st !! k = Some v).
  { intros k v Hk. destruct (delete_all_kv_mono ids1 st k) as [E|E];
      fold st1 in E; congruence. }
  assert (Hfiles : Forall (fun v : stored => exists f : FileInfo, v = SFile f)
                     (map_to_list (list_files st1)).*2).
  { apply Forall_forall. intros v Hv.
    apply elem_of_files_list in Hv as [fid Hk].
    destruct (H2 fid v (Hsub _ _ Hk)) as (f & -> & _). eauto. }
  rewrite (clean_files_run env _ Hfiles).
  set (pick := fun v : stored =>
                 match v with
                 | SFile f => if past env (fi_retention_expires_at f)
                              then Some (fi_file_id f) else None
                 | _ => None
                 end).
  set (ids2 := omap pick (map_to_list (list_files st1)).*2).
  set (st2 := foldl (fun (s : State) (id : string) =>
                       snd (delete_upload id s)) st1 ids2).
  assert (F1 : forall id : string,
             id ∈ ids1 ->
             exists u : TusUpload,
               kv st !! _upload_key id = Some (SUpload u)
               /\ is_final u = false /\ past env (expires_at u) = true).
  { intros id Hin. apply list_elem_of_fmap in Hin as (u & -> & Hin).
    apply list_elem_of_filter in Hin as [Hp Hin].
    apply elem_of_uploads_list in Hin as (fid & Hk & Hnf).
    rewrite (H1 fid u Hk). exists u.
    split; [exact Hk|]. split; [exact Hnf|]. apply Is_true_true, Hp. }
  assert (F1' : forall (fid : string) (u : TusUpload),
             kv st !! _upload_key fid = Some (SUpload u) ->
             is_final u = false -> past env (expires_at u) = true ->
             fid ∈ ids1).
  { intros fid u Hk Hnf Hp. apply list_elem_of_fmap. exists u.
    split; [symmetry; exact (H1 fid u Hk)|].
    apply list_elem_of_filter. split; [apply Is_true_true, Hp|].
    apply elem_of_uploads_list. exists fid. split; assumption. }
  assert (F2 : forall id : string,
             id ∈ ids2 ->
             exists f : FileInfo,
               kv st !! _file_key id = Some (SFile f)
               /\ past env (fi_retention_expires_at f) = true).
  { intros id Hin. apply list_elem_of_omap in Hin as (v & Hv & Hpick).
    apply elem_of_files_list in Hv as [fid Hk].
    apply Hsub in Hk. destruct (H2 fid v Hk) as (f & -> & Hid).
    simpl in Hpick.
    destruct (past env (fi_retention_expires_at f)) eqn:Ep;
      [|discriminate Hpick].
    injection Hpick as <-. rewrite Hid. exists f. split; [exact Hk|exact Ep]. }
  assert (F2' : forall (fid : string) (f : FileInfo),
             kv st1 !! _file_key fid = Some (SFile f) ->
             past env (fi_retention_expires_at f) = true ->
             fid ∈ ids2).
  { intros fid f Hk Hp. apply list_elem_of_omap. exists (SFile f).
    split; [apply elem_of_files_list; exists fid; exact Hk|].
    simpl. rewrite Hp. f_equal.
    destruct (H2 fid _ (Hsub _ _ Hk)) as (f' & [= <-] & Hid). exact Hid. }
  assert (Hgone : forall (ids : list string) (s : State) (fid k : string),
             fid ∈ ids ->
             k = _upload_key fid \/ k = _file_key fid \/ k = _lock_key fid ->
             kv (foldl (fun (s : State) (id : string) =>
                          snd (delete_upload id s)) s ids) !! k = None).
  { intros ids s fid k Hin Hk. exact (delete_all_kv_in ids s fid k Hin Hk). }
  assert (Hkeep : forall (ids : list string) (s : State) (fid k : string),
             fid ∉ ids ->
             k = _upload_key fid \/ k = _file_key fid \/ k = _lock_key fid ->
             kv (foldl (fun (s : State) (id : string) =>
                          snd (delete_upload id s)) s ids) !! k
             = kv s !! k).
  { intros ids s fid k Hnin Hk. apply delete_all_kv_out.
    intros id Hin. apply (keys_apart id fid k); [|exact Hk].
    intros ->. exact (Hnin Hin). }
  assert (Hnone : forall k : string, kv st1 !! k = None -> kv st2 !! k = None).
  { intros k Hk. destruct (delete_all_kv_mono ids2 st1 k) as [E|E];
      fold st2 in E; congruence. }
  eexists _, st2. split; [reflexivity|].
  split; [lia|]. split; [|split].
  - intros fid u Hk Hnf Hp.
    pose proof (F1' fid u Hk Hnf Hp) as Hin.
    split.
    + apply Hnone. apply (Hgone ids1 st fid); [exact Hin | left; reflexivity].
    + destruct (delete_all_uploads_dir ids1 st fid) as (_ & Hi & _).
      fold st1 in Hi. specialize (Hi Hin).
      destruct (delete_all_uploads_dir ids2 st1 fid) as ([E|E] & _ & _);
        fold st2 in E; unfold get_file_path; congruence.
  - intros fid f Hk Hp.
    destruct (decide (fid ∈ ids1)) as [Hin|Hnin].
    + split; apply Hnone; apply (Hgone ids1 st fid); auto.
    + assert (Hk1 : kv st1 !! _file_key fid = Some (SFile f)).
      { unfold st1. rewrite (Hkeep ids1 st fid); auto. }
      pose proof (F2' fid f Hk1 Hp) as Hin2.
      split; apply (Hgone ids2 st1 fid); auto.
  - intros fid Hu Hf.
    assert (Hn1 : fid ∉ ids1).
    { intros Hin. destruct (F1 fid Hin) as (u & Hk & Hnf & Hp).
      destruct (Hu u Hk); congruence. }
    assert (Hn2 : fid ∉ ids2).
    { intros Hin. destruct (F2 fid Hin) as (f & Hk & Hp).
      rewrite (Hf f Hk) in Hp. discriminate. }
    split; [|split].
    + unfold st2. rewrite (Hkeep ids2 st1 fid) by auto.
      unfold st1. apply (Hkeep ids1 st fid); auto.
    + unfold st2. rewrite (Hkeep ids2 st1 fid) by auto.
      unfold st1. apply (Hkeep ids1 st fid); auto.
    + destruct (delete_all_uploads_dir ids2 st1 fid) as (_ & _ & Ho2).
      destruct (delete_all_uploads_dir ids1 st fid) as (_ & _ & Ho1).
      fold st1 in Ho1. fold st2 in Ho2. unfold get_file_path.
      rewrite (Ho2 Hn2). exact (Ho1 Hn1).
Qed.

Lemma cleanup_removes_what_expired_witness :
  let u :=
    new_upload Sample.router (Sample.env 0) (Sample.request [] []) 5
      {| tm_filename := "a.txt"; tm_filetype := None;
         tm_checksum := None; tm_retention := None;
         tm_retention_ttl := None |} in
  let st := {| kv := {[ _upload_key Sample.file_id := SUpload u ]};
               uploads_dir := {[ get_file_path Sample.file_id := [] ]};
               files_dir := ∅ |} in
  exists (cleaned : Z) (st' : State),
    cleanup_expired (Sample.env 100000) st = (Returned cleaned, st')
    /\ kv st' !! _upload_key Sample.file_id = None
    /\ uploads_dir st' !! get_file_path Sample.file_id = None.
Proof.
  intros u st.
  assert (Hu : kv st !! _upload_key Sample.file_id = Some (SUpload u))
    by (vm_compute; reflexivity).
  destruct (cleanup_removes_what_expired (Sample.env 100000) st)
    as (cleaned & st' & Hrun & _ & Hup & _).
  - intros fid u' Hk. subst st. cbn [kv] in Hk.
    apply lookup_singleton_Some in Hk as [Hkey Hv].
    apply upload_key_inj in Hkey. injection Hv as <-.
    rewrite <- Hkey. reflexivity.
  - intros fid v Hk. subst st. cbn [kv] in Hk.
    apply lookup_singleton_Some in Hk as [Hkey _].
    destruct (upload_key_ne_file _ _ Hkey).
  - exists cleaned, st'. split; [exact Hrun|].
    apply (Hup Sample.file_id u Hu); vm_compute; reflexivity.
Defined.

(** ** The shape of the store *)

Import Shape.

Lemma extends_refl (st : State) : extends st st.
Proof. intros k v H. left. exact H. Qed.

Lemma extends_trans (a b c : State) :
  extends a b -> extends b c -> extends a c.
Proof.
  intros Hab Hbc k v H. destruct (Hbc k v H) as [Hb|Hk]; [|right; exact Hk].
  exact (Hab k v Hb).
Qed.

Lemma extends_kv (st st' : State) : kv st' = kv st -> extends st st'.
Proof. intros E k v H. left. rewrite <- E. exact H. Qed.

Lemma keeps_ret {A : Type} (a : A) : keeps (mret a).
Proof. intros st. apply extends_refl. Qed.

Lemma keeps_raise {A : Type} (e : exn) : keeps (raise e : M A).
Proof. intros st. apply extends_refl. Qed.

Lemma keeps_bind {A B : Type} (m : M A) (f : A -> M B) :
  keeps m -> (forall a : A, keeps (f a)) -> keeps (m ≫= f).
Proof.
  intros Hm Hf st. unfold mbind, M_bind.
  specialize (Hm st). destruct (m st) as [[a|e] st1]; simpl in *.
  - apply (extends_trans st st1); [exact Hm | apply Hf].
  - exact Hm.
Qed.

Lemma keeps_get_state : keeps get_state.
Proof. intros st. apply extends_refl. Qed.

Lemma keeps_state_get (k : string) : keeps (state_get k).
Proof. intros st. apply extends_refl. Qed.

Lemma keeps_state_set (k : string) (v : stored) :
  keyed k v -> keeps (state_set k v).
Proof.
  intros Hk st k' v' H. simpl in H.
  destruct (decide (k = k')) as [<-|Hne].
  - rewrite lookup_insert_eq in H. injection H as <-. right. exact Hk.
  - rewrite lookup_insert_ne in H by exact Hne. left. exact H.
Qed.

Lemma keeps_state_set_nx (k : string) (v : stored) :
  keyed k v -> keeps (state_set_nx k v).
Proof.
  intros Hk st. unfold state_set_nx.
  destruct (kv st !! k); [apply extends_refl | apply keeps_state_set, Hk].
Qed.

Lemma keeps_state_delete (k : string) : keeps (state_delete k).
Proof.
  intros st k' v' H. simpl in H. left.
  destruct (decide (k = k')) as [<-|Hne].
  - rewrite lookup_delete_eq in H. discriminate.
  - rewrite lookup_delete_ne in H by exact Hne. exact H.
Qed.

Lemma keeps_set_uploads_dir (d : gmap string bytes) :
  keeps (set_uploads_dir d).
Proof. intros st. apply extends_kv. reflexivity. Qed.

Lemma keeps_set_files_dir (d : gmap string bytes) : keeps (set_files_dir d).
Proof. intros st. apply extends_kv. reflexivity. Qed.

Lemma keeps_try_finally {A : Type} (body : M A) (cleanup : M unit) :
  keeps body -> keeps cleanup -> keeps (try_finally body cleanup).
Proof.
  intros Hb Hc st. unfold try_finally.
  specialize (Hb st). destruct (body st) as [r st1].
  specialize (Hc st1). destruct (cleanup st1) as [[[]|e] st2]; simpl in *;
    exact (extends_trans _ _ _ Hb Hc).
Qed.

Ltac keeps_step :=
  first
    [ apply keeps_ret
    | apply keeps_raise
    | apply keeps_get_state
    | apply keeps_state_get
    | apply keeps_state_delete
    | apply keeps_set_uploads_dir
    | apply keeps_set_files_dir
    | apply keeps_bind; [|intros ?]
    | apply keeps_try_finally
    | match goal with
      | |- keeps (match ?x with _ => _ end) => destruct x
      | |- keeps (if ?b then _ else _) => destruct b
      | |- keeps (let _ := _ in _) => cbv zeta
      end ].

Lemma keeps_acquire_lock (fid : string) : keeps (acquire_lock fid).
Proof.
  apply keeps_state_set_nx. right. right. exists fid. reflexivity.
Qed.

Lemma keeps_release_lock (fid : string) : keeps (release_lock fid).
Proof. apply keeps_state_delete. Qed.

Lemma keeps_write_file (env : Env) (fid : string) (data : bytes) (off : Z) :
  keeps (write_file env fid data off).
Proof. unfold write_file. repeat keeps_step. Qed.

Lemma keeps_write_chunk (env : Env) (fid : string) (data : bytes) (off : Z) :
  keeps (write_chunk env fid data off).
Proof.
  unfold write_chunk, sleep.
  repeat first [ apply keeps_acquire_lock | apply keeps_release_lock
               | apply keeps_write_file | keeps_step ].
Qed.

Lemma keeps_create_upload (u : TusUpload) : keeps (create_upload u).
Proof.
  unfold create_upload. apply keeps_bind; [|intros ?; repeat keeps_step].
  apply keeps_state_set. left. exists u. split; reflexivity.
Qed.

Lemma keeps_get_upload (fid : string) : keeps (get_upload fid).
Proof. unfold get_upload. repeat keeps_step. Qed.

Lemma keeps_update_upload (env : Env) (u : TusUpload) :
  keeps (update_upload env u).
Proof.
  unfold update_upload. apply keeps_bind; [|intros ?; apply keeps_ret].
  apply keeps_state_set. left. exists (with_updated_at (now env) u).
  split; reflexivity.
Qed.

Lemma keeps_delete_upload (fid : string) : keeps (delete_upload fid).
Proof.
  unfold delete_upload.
  repeat first [ apply keeps_get_upload | apply keeps_release_lock
               | keeps_step ].
Qed.

Lemma keeps_finalize_upload (env : Env) (fid : string) :
  keeps (finalize_upload env fid).
Proof.
  unfold finalize_upload.
  apply keeps_bind; [apply keeps_get_upload|]. intros [u|]; [|keeps_step].
  destruct (negb (is_complete u)); [keeps_step|]. cbv zeta.
  apply keeps_bind; [keeps_step|]. intros st0.
  apply keeps_bind; [repeat keeps_step|]. intros _.
  apply keeps_bind; [|intros _; apply keeps_update_upload].
  apply keeps_state_set. right. left. eexists.
  refine (conj _ eq_refl). reflexivity.
Qed.

Lemma keeps_check_quota (cfg : Config) (n : Z) : keeps (check_quota cfg n).
Proof.
  unfold check_quota, get_storage_usage. repeat keeps_step.
Qed.

Lemma keeps_validate_tus_version (request : Request) :
  keeps (validate_tus_version request).
Proof. unfold validate_tus_version. repeat keeps_step. Qed.

Lemma keeps_validate_checksum `{!Externals} (request : Request)
    (data : bytes) :
  keeps (validate_checksum request data).
Proof.
  unfold validate_checksum. repeat keeps_step.
Qed.

Lemma keeps_store_chunk `{!Externals} (env : Env) (fid : string)
    (u : TusUpload) (off : Z) (data : bytes) :
  keeps (store_chunk env fid u off data).
Proof.
  unfold store_chunk.
  apply keeps_bind; [apply keeps_write_chunk|]. intros _. cbv zeta.
  apply keeps_bind; [apply keeps_update_upload|]. intros _.
  apply keeps_bind; [|intros _; apply keeps_ret].
  match goal with |- keeps (if ?b then _ else _) => destruct b end;
    [apply keeps_finalize_upload | apply keeps_ret].
Qed.

Lemma keeps_tus_patch `{!Externals} (r : Router) (env : Env) (fid : string)
    (request : Request) :
  keeps (tus_patch r env fid request).
Proof.
  unfold tus_patch, admit_chunk.
  repeat first [ apply keeps_validate_tus_version | apply keeps_get_upload
               | apply keeps_delete_upload | apply keeps_check_quota
               | apply keeps_validate_checksum | apply keeps_store_chunk
               | keeps_step ].
Qed.

Lemma keeps_tus_head `{!Externals} (r : Router) (env : Env) (fid : string)
    (request : Request) :
  keeps (tus_head r env fid request).
Proof.
  unfold tus_head.
  repeat first [ apply keeps_validate_tus_version | apply keeps_get_upload
               | apply keeps_delete_upload | keeps_step ].
Qed.

Lemma keeps_tus_delete (r : Router) (fid : string) (request : Request) :
  keeps (tus_delete r fid request).
Proof.
  unfold tus_delete.
  repeat first [ apply keeps_validate_tus_version | apply keeps_get_upload
               | apply keeps_delete_upload | keeps_step ].
Qed.

Lemma keeps_tus_create `{!Externals} (r : Router) (env : Env)
    (request : Request) :
  keeps (tus_create r env request).
Proof.
  unfold tus_create, save_upload.
  repeat first [ apply keeps_validate_tus_version | apply keeps_create_upload
               | apply keeps_write_chunk | apply keeps_update_upload
               | keeps_step ].
Qed.

Lemma keeps_dispatch `{!Externals} (r : Router) (env : Env) (route : Route)
    (request : Request) :
  keeps (dispatch r env route request).
Proof.
  destruct route; simpl.
  - unfold tus_options. repeat keeps_step.
  - apply keeps_tus_create.
  - apply keeps_tus_head.
  - apply keeps_tus_patch.
  - apply keeps_tus_delete.
Qed.

Lemma keeps_clean_uploads (env : Env) (l : list TusUpload) :
  forall c : Z, keeps (clean_uploads env l c).
Proof.
  induction l as [|u l IH]; intros c; cbn [clean_uploads].
  - apply keeps_ret.
  - destruct (past env (expires_at u)); [|apply IH].
    apply keeps_bind; [apply keeps_delete_upload | intros _; apply IH].
Qed.

Lemma extends_clean_files (env : Env) (l : list stored) :
  forall (c : Z) (st : State), extends st (snd (clean_files env l c st)).
Proof.
  induction l as [|v l IH]; intros c st; cbn [clean_files].
  - apply extends_refl.
  - destruct (expiry_and_id v) as [[expires fid]|]; [|apply extends_refl].
    destruct (past env expires); [|apply IH].
    pose proof (keeps_delete_upload fid st) as Hd.
    destruct (delete_upload fid st) as [[[]|e] st1]; simpl in Hd.
    + exact (extends_trans _ _ _ Hd (IH _ st1)).
    + exact Hd.
Qed.

Lemma extends_cleanup_expired (env : Env) (st : State) :
  extends st (snd (cleanup_expired env st)).
Proof.
  unfold cleanup_expired.
  pose proof (keeps_clean_uploads env
                (uploads_of (list_uploads false true st)) 0 st) as Hc.
  destruct (clean_uploads env _ 0 st) as [[c|e] st1]; simpl in Hc.
  - exact (extends_trans _ _ _ Hc (extends_clean_files env _ c st1)).
  - exact Hc.
Qed.

Lemma extends_after_download (env : Env) (fid : string) (st : State) :
  (forall (fid : string) (v : stored),
      kv st !! _file_key fid = Some v ->
      exists f : FileInfo, v = SFile f /\ fi_file_id f = fid) ->
  extends st
    (snd (Streaming._after_download (record_download env) delete_upload
            fid st)).
Proof.
  intros H2. unfold Streaming._after_download.
  assert (Hrec : extends st (snd (record_download env fid st))).
  { unfold record_download.
    destruct (kv st !! _file_key fid) as [v|] eqn:Ek.
    - destruct (H2 fid v Ek) as (f & -> & Hid).
      apply (keeps_state_set (_file_key fid)
               (SFile (fi_with_download_count (fi_download_count f + 1) f))).
      right. left. eexists. refine (conj _ eq_refl). simpl.
      rewrite Hid. reflexivity.
    - assert (Hk : keeps
                     (upload ← get_upload fid;
                      match upload with
                      | Some upload =>
                          let upload :=
                            with_download_count (download_count upload + 1)
                              upload in
                          update_upload env upload;;
                          mret {| dr_should_delete :=
                                    String.eqb (retention upload)
                                      "download_once";
                                  dr_retention := retention upload;
                                  dr_download_count :=
                                    download_count upload |}
                      | None =>
                          mret {| dr_should_delete := false;
                                  dr_retention := "permanent";
                                  dr_download_count := 0 |}
                      end)).
      { repeat first [ apply keeps_get_upload | apply keeps_update_upload
                     | keeps_step ]. }
      specialize (Hk st). unfold of_res.
      match goal with
      | |- context [match ?x with _ => _ end] =>
          destruct x as [[a|e] s1]
      end; exact Hk. }
  destruct (record_download env fid st) as [[result|e|m] st1];
    simpl in Hrec |- *; try exact Hrec.
  destruct (dr_should_delete result); [|exact Hrec].
  pose proof (keeps_delete_upload fid st1) as Hd.
  unfold of_res. destruct (delete_upload fid st1) as [[[]|e] st2];
    simpl in Hd |- *; exact (extends_trans _ _ _ Hrec Hd).
Qed.

(** Every record stays under the key of its own id. If each upload record
    of the store sits under [upload:<file_id>] and each file key holds the
    file record of its id, then so it is after any request to the TUS
    router, after the periodic cleanup, and after the background task of
    a full download. *)
Theorem records_stay_under_their_ids `{!Externals} (r : Router) (env : Env)
    (route : Route) (request : Request) (fid0 : string) (st st' : State) :
  (forall (fid : string) (u : TusUpload),
      kv st !! _upload_key fid = Some (SUpload u) -> file_id u = fid) ->
  (forall (fid : string) (v : stored),
      kv st !! _file_key fid = Some v ->
      exists f : FileInfo, v = SFile f /\ fi_file_id f = fid) ->
  st' = snd (dispatch r env route request st)
  \/ st' = snd (cleanup_expired env st)
  \/ st' = snd (Streaming._after_download (record_download env)
                  delete_upload fid0 st) ->
  (forall (fid : string) (u : TusUpload),
      kv st' !! _upload_key fid = Some (SUpload u) -> file_id u = fid)
  /\ (forall (fid : string) (v : stored),
         kv st' !! _file_key fid = Some v ->
         exists f : FileInfo, v = SFile f /\ fi_file_id f = fid).
Proof.
  intros H1 H2 Hstep.
  assert (Hext : extends st st').
  { destruct Hstep as [-> | [-> | ->]].
    - apply keeps_dispatch.
    - apply extends_cleanup_expired.
    - apply extends_after_download, H2. }
  split.
  - intros fid u Hk. destruct (Hext _ _ Hk) as [Hold|Hkeyed].
    + exact (H1 fid u Hold).
    + destruct Hkeyed as [(u' & Hkey & [= <-]) | [(f & Hkey & Hv) | (x & Hkey)]].
      * apply upload_key_inj in Hkey. congruence.
      * discriminate Hv.
      * destruct (upload_key_ne_lock _ _ Hkey).
  - intros fid v Hk. destruct (Hext _ _ Hk) as [Hold|Hkeyed].
    + exact (H2 fid v Hold).
    + destruct Hkeyed as [(u' & Hkey & _) | [(f & Hkey & ->) | (x & Hkey)]].
      * symmetry in Hkey. destruct (upload_key_ne_file _ _ Hkey).
      * exists f. split; [reflexivity|].
        apply file_key_inj in Hkey. congruence.
      * destruct (file_key_ne_lock _ _ Hkey).
Qed.

Lemma records_stay_under_their_ids_witness :
  let st' :=
    snd (@dispatch Sample.externals Sample.router (Sample.env 0) POST
           (Sample.request [("Upload-Length", "5")] []) Sample.empty_state) in
  exists u : TusUpload,
    kv st' !! _upload_key Sample.file_id = Some (SUpload u)
    /\ file_id u = Sample.file_id.
Proof.
  intros st'.
  assert (Hex : exists u : TusUpload,
             kv st' !! _upload_key Sample.file_id = Some (SUpload u))
    by (eexists; vm_compute; reflexivity).
  destruct Hex as [u Hu]. exists u. split; [exact Hu|].
  refine (proj1 (@records_stay_under_their_ids Sample.externals
                   Sample.router (Sample.env 0) POST
                   (Sample.request [("Upload-Length", "5")] []) ""
                   Sample.empty_state st' _ _ _) Sample.file_id u Hu).
  - intros fid u' Hk. vm_compute in Hk. discriminate Hk.
  - intros fid v Hk. vm_compute in Hk. discriminate Hk.
  - left. reflexivity.
Defined.

(** ** A PATCH while the upload is locked *)

(** Writers exclude one another. A PATCH that passes every check while
    another writer holds the lock of the upload, and keeps it during the
    100 ms that [write_chunk] waits, does not write: it fails with
    [RuntimeError], which the handler does not turn into a response, and
    the store and both directories, the lock included, are as they
    were. *)
Theorem patch_under_held_lock `{!Externals} (r : Router) (env : Env)
    (fid : string) (request : Request) (st : State) (u : TusUpload)
    (os : string) (usage : Usage) (holder : stored) :
  validate_tus_version request st = (Ok tt, st) ->
  headers request !! TusHeaders.CONTENT_TYPE = Some CONTENT_TYPE_OFFSET ->
  kv st !! _upload_key fid = Some (SUpload u) ->
  expired env u = false ->
  headers request !! TusHeaders.UPLOAD_OFFSET = Some os ->
  py_int os = Some (offset u) ->
  body request <> [] ->
  check_quota (storage r) (Z.of_nat (length (body request))) st
  = (Ok (true, usage), st) ->
  offset u + Z.of_nat (length (body request)) <= size u ->
  validate_checksum request (body request) st = (Ok tt, st) ->
  kv st !! _lock_key fid = Some holder ->
  lock_freed_while_sleeping env = false ->
  tus_patch r env fid request st
  = (Raise (RuntimeError "Could not acquire lock for write"), st)
  /\ http_status (fst (tus_patch r env fid request st)) = None.
Proof.
  intros Hver Hct Hu Hexp Hos Hint Hbody Hquota Hfit Hsum Hlock Hheld.
  assert (Hp : tus_patch r env fid request st
               = (Raise (RuntimeError "Could not acquire lock for write"),
                  st)).
  { rewrite (tus_patch_admitted r env fid request st u os
               Hver Hct Hu Hexp Hos Hint Hbody).
    unfold admit_chunk. rewrite (bind_ok _ _ _ _ _ Hquota).
    change (negb true) with false. cbv iota.
    assert ((size u <? offset u + Z.of_nat (length (body request))) = false)
      as -> by lia.
    rewrite (bind_ok _ _ _ _ _ Hsum).
    unfold store_chunk.
    apply bind_raise. apply write_chunk_lock_unavailable; [|exact Hheld].
    rewrite Hlock. discriminate. }
  split; [exact Hp|]. rewrite Hp. reflexivity.
Qed.

Lemma patch_under_held_lock_witness :
  let st0 := Sample.created "5" in
  let st := {| kv := <[_lock_key Sample.file_id := SLock]> (kv st0);
               uploads_dir := uploads_dir st0;
               files_dir := files_dir st0 |} in
  @tus_patch Sample.externals Sample.router (Sample.env 1) Sample.file_id
    (Sample.patch_request "0" [] [Byte.x61]) st
  = (Raise (RuntimeError "Could not acquire lock for write"), st).
Proof.
  intros st0 st.
  assert (Hex : exists u : TusUpload,
             kv st !! _upload_key Sample.file_id = Some (SUpload u)
             /\ offset u = 0 /\ size u = 5 /\ expires_at u = Some 86400)
    by (eexists; vm_compute; repeat split; reflexivity).
  destruct Hex as (u & Hu & Hoff & Hsize & Hexp).
  destruct (check_quota_pure (storage Sample.router) 1 st)
    as (allowed & usage & Hq).
  assert (allowed = true) as ->.
  { unfold check_quota in Hq. simpl in Hq.
    unfold mbind, M_bind in Hq.
    destruct (get_storage_usage _ st) as [[us|e] s1]; [|discriminate Hq].
    injection Hq as <- _ _. reflexivity. }
  refine (proj1 (@patch_under_held_lock Sample.externals Sample.router
                   (Sample.env 1) Sample.file_id
                   (Sample.patch_request "0" [] [Byte.x61]) st u "0" usage
                   SLock _ _ Hu _ _ _ _ Hq _ _ _ _)).
  - reflexivity.
  - reflexivity.
  - unfold expired. rewrite Hexp. reflexivity.
  - reflexivity.
  - rewrite Hoff. reflexivity.
  - discriminate.
  - rewrite Hoff, Hsize. simpl. lia.
  - reflexivity.
  - vm_compute. reflexivity.
  - reflexivity.
Defined.

(** ** The retention policy of a new upload *)

Lemma tus_create_retention `{!Externals} (r : Router) (env : Env)
    (request : Request) (st : State) (response : Response) :
  fst (tus_create r env request st) = Ok response ->
  exists (tm : TusMetadata) (u : TusUpload),
    create_metadata env request = Ok tm
    /\ kv (snd (tus_create r env request st)) !! _upload_key (file_id_uuid env)
       = Some (SUpload u)
    /\ retention u = fst (resolve_retention r request tm)
    /\ retention_ttl u = snd (resolve_retention r request tm)
    /\ md_retention (metadata u) = retention u
    /\ md_retention_ttl (metadata u) = retention_ttl u.
Proof.
  unfold tus_create.
  destruct (validate_tus_version_cases request st) as [Hv|Hv].
  2:{ rewrite (bind_raise _ _ _ _ _ Hv). discriminate. }
  rewrite (bind_ok _ _ _ _ _ Hv).
  destruct (otruthy (headers request !! TusHeaders.UPLOAD_LENGTH)); simpl;
    [|discriminate].
  destruct (py_int (default "" (headers request !! TusHeaders.UPLOAD_LENGTH)))
    as [m|] eqn:En; [|discriminate].
  destruct (int_truthy (router_max_size r)
            && (default 0 (router_max_size r) <? m)); [discriminate|].
  destruct (create_metadata env request) as [tm|e]; [|destruct e; discriminate].
  pose proof (new_upload_fields r env request m tm)
    as (Hid & _ & _ & _ & _).
  assert (Hret : retention (new_upload r env request m tm)
                 = fst (resolve_retention r request tm)
                 /\ retention_ttl (new_upload r env request m tm)
                    = snd (resolve_retention r request tm)
                 /\ md_retention (metadata (new_upload r env request m tm))
                    = retention (new_upload r env request m tm)
                 /\ md_retention_ttl
                      (metadata (new_upload r env request m tm))
                    = retention_ttl (new_upload r env request m tm)).
  { unfold new_upload. destruct (resolve_retention r request tm).
    repeat split. }
  set (up := new_upload r env request m tm) in *.
  unfold save_upload.
  assert (Hc : create_upload up st = (Ok tt, snd (create_upload up st)))
    by reflexivity.
  rewrite (bind_ok _ _ _ _ _ Hc).
  set (st1 := snd (create_upload up st)).
  rewrite Hid.
  destruct (creation_with_upload r request).
  - destruct (write_chunk env (file_id_uuid env) (body request) 0 st1)
      as [[w|e] st2] eqn:Ew.
    2:{ erewrite bind_raise by (erewrite bind_raise by exact Ew; reflexivity).
        discriminate. }
    erewrite bind_ok by (erewrite bind_ok by exact Ew; reflexivity).
    simpl. intros _. rewrite Hid.
    eexists tm, _. split; [reflexivity|].
    split; [apply lookup_insert_eq|]. exact Hret.
  - simpl. intros _. exists tm, up. split; [reflexivity|]. rewrite Hid.
    split; [apply lookup_insert_eq|]. exact Hret.
Qed.

(** The retention policy that a POST stores. The record always carries
    one of the three policies. What the client asks for in the metadata
    wins: a recognised value is kept as it is, with the TTL of the client,
    and an unrecognised one becomes [permanent], whatever the token policy
    and the server default say. A TTL given by the client is never
    replaced. With no value from the client and no settings, the policy
    is [permanent]. The [metadata] of the record repeats the policy. *)
Theorem created_upload_retention `{!Externals} (r : Router) (env : Env)
    (request : Request) (st : State) (response : Response) :
  fst (tus_create r env request st) = Ok response ->
  exists (tm : TusMetadata) (u : TusUpload),
    create_metadata env request = Ok tm
    /\ kv (snd (tus_create r env request st)) !! _upload_key (file_id_uuid env)
       = Some (SUpload u)
    /\ (retention u = "permanent" \/ retention u = "download_once"
        \/ retention u = "ttl")
    /\ md_retention (metadata u) = retention u
    /\ (forall c : string,
           tm_retention tm = Some c -> c <> "" ->
           retention u
           = (if String.eqb c "permanent" || String.eqb c "download_once"
                 || String.eqb c "ttl"
              then c else "permanent")
           /\ retention_ttl u = tm_retention_ttl tm)
    /\ (forall t : Z,
           tm_retention_ttl tm = Some t -> retention_ttl u = Some t)
    /\ (otruthy (tm_retention tm) = false -> settings r = None ->
        retention u = "permanent"
        /\ retention_ttl u = tm_retention_ttl tm).
Proof.
  intros Hok.
  destruct (tus_create_retention r env request st response Hok)
    as (tm & u & Htm & Hu & Hr & Ht & Hmr & _).
  exists tm, u. split; [exact Htm|]. split; [exact Hu|].
  split; [|split; [exact Hmr|]].
  { rewrite Hr. unfold resolve_retention.
    match goal with
    | |- context [let '(a, b) := ?x in _] => destruct x as [ret ttl]
    end.
    destruct (String.eqb_spec ret "permanent") as [->|_]; [auto|].
    destruct (String.eqb_spec ret "download_once") as [->|_]; [auto|].
    destruct (String.eqb_spec ret "ttl") as [->|_]; simpl; auto. }
  split; [|split].
  - intros c Hc Hne. rewrite Hr, Ht. unfold resolve_retention. rewrite Hc.
    change (default "" (Some c)) with c.
    cbn [otruthy]. rewrite (truthy_true c Hne).
    destruct (String.eqb c "permanent" || String.eqb c "download_once"
              || String.eqb c "ttl"); split; reflexivity.
  - intros t Htt. rewrite Ht. unfold resolve_retention. rewrite Htt.
    repeat match goal with
           | |- context [if ?b then _ else _] => destruct b
           | |- context [match ?x with Some _ => _ | None => _ end] =>
               destruct x
           end; reflexivity.
  - intros Hnone Hset. rewrite Hr, Ht. unfold resolve_retention.
    rewrite Hnone, Hset. cbn [mbind option_bind default from_option].
    rewrite lookup_empty.
    destruct (truthy _); destruct (tm_retention_ttl tm); split; reflexivity.
Qed.

Lemma created_upload_retention_witness :
  let request :=
    Sample.request [("Upload-Length", "5");
                    ("Upload-Metadata",
                     "filename YS50eHQ=,retention Zm9yZXZlcg==")] [] in
  let st' := snd (@tus_create Sample.externals Sample.router (Sample.env 0)
                    request Sample.empty_state) in
  exists u : TusUpload,
    kv st' !! _upload_key Sample.file_id = Some (SUpload u)
    /\ retention u = "permanent".
Proof.
  intros request st'.
  assert (Hex : exists response : Response,
             fst (@tus_create Sample.externals Sample.router (Sample.env 0)
                    request Sample.empty_state) = Ok response)
    by (eexists; vm_compute; reflexivity).
  destruct Hex as [response Hok].
  destruct (@created_upload_retention Sample.externals Sample.router
              (Sample.env 0) request Sample.empty_state response Hok)
    as (tm & u & Htm & Hu & _ & _ & Hclient & _).
  exists u. split; [exact Hu|].
  vm_compute in Htm. injection Htm as <-.
  destruct (Hclient "forever" eq_refl) as [Hr _]; [discriminate|].
  exact Hr.
Defined.
